(** * Migration service of the Botpress server (src/bp/core/services/migration/index.ts)

    A shallow embedding of [MigrationService]: the computation of the list of
    migrations to run ([filterMigrations], [getMigrationsToExecute]) and the
    effectful run itself ([initialize], [executeMigrations],
    [persistMigrationStatus]), followed by the properties of the
    specification that concern them. *)

From Stdlib Require Import ZArith NArith Ascii String List Sorting.Sorted Permutation Lia Bool.
From Stdlib Require OrderedTypeEx.
From stdpp Require Import base option list strings gmap.

Local Open Scope string_scope.
Local Open Scope Z_scope.

(** ** JavaScript values that hold a version

    A version kept by the service is a string by its declared type, and can
    be [undefined] or [null] at run time ([_.last] of an empty array, a
    descriptor whose version did not parse). *)

Inductive jsval : Type :=
| JUndefined
| JNull
| JStr (s : string).

#[global] Instance jsval_eq_dec : EqDecision jsval.
Proof. solve_decision. Defined.

(** ** JavaScript numbers that hold a date

    The date of a migration file is [Number(timestamp)], [timestamp] being
    the second piece of the file name: a number, or [NaN] when that piece is
    missing or is not numeric.  A number other than [NaN] is kept as an
    integer: the service does nothing with a date but sort by it, and the
    doubles other than [NaN] are ordered as integers are. *)

Inductive number : Type :=
| Num (z : Z)
| NaN.

Coercion Num : Z >-> number.

#[global] Instance number_eq_dec : EqDecision number.
Proof. solve_decision. Defined.

Module Js.

(** Truthiness of a string-or-nullish value: only a non-empty string. *)
Definition truthy (v : jsval) : bool :=
  match v with
  | JStr s => negb (String.eqb s "")
  | _ => false
  end.

(** [a || b] *)
Definition or (a b : jsval) : jsval := if truthy a then a else b.

(** An environment variable or process field that may be unset. *)
Definition of_option (o : option string) : jsval :=
  match o with Some s => JStr s | None => JUndefined end.

(** Interpolation in a template literal. *)
Definition interpolate (v : jsval) : string :=
  match v with
  | JUndefined => "undefined"
  | JNull => "null"
  | JStr s => s
  end.

(** [a !== b] *)
Definition strict_ne (a b : jsval) : bool := negb (bool_decide (a = b)).

(** [s.split(sep)] for a one-character separator: at least one piece. *)
Fixpoint split (sep : ascii) (s : string) : list string :=
  match s with
  | EmptyString => [EmptyString]
  | String c s' =>
      if Ascii.eqb c sep then EmptyString :: split sep s'
      else match split sep s' with
           | [] => [String c EmptyString]
           | p :: ps => String c p :: ps
           end
  end.

Fixpoint starts_with (p s : string) : bool :=
  match p, s with
  | EmptyString, _ => true
  | String a p', String b s' => Ascii.eqb a b && starts_with p' s'
  | String _ _, EmptyString => false
  end.

(** [s.includes(x)] *)
Fixpoint includes (s x : string) : bool :=
  starts_with x s ||
  match s with
  | EmptyString => false
  | String _ s' => includes s' x
  end.

(** A stable sort for an order given as a test, by insertion: what
    [_.sortBy], [_.orderBy] and [Array.prototype.sort] compute. *)
Section Sort.
Context {A : Type} (le : A -> A -> bool).

Fixpoint insert_by (x : A) (l : list A) : list A :=
  match l with
  | [] => [x]
  | y :: l' => if le x y then x :: y :: l' else y :: insert_by x l'
  end.

Definition sort (l : list A) : list A := fold_right insert_by [] l.
End Sort.

(** [a <= b] on numbers: [false] as soon as one of them is [NaN]. *)
Definition le (a b : number) : bool :=
  match a, b with
  | Num x, Num y => x <=? y
  | _, _ => false
  end.

(** The order of [_.sortBy] and [_.orderBy] on one numeric key (lodash's
    [compareAscending], then the index of the element): ascending, a [NaN]
    after every number, and elements it does not tell apart in the order
    they had. *)
Definition ascending (a b : number) : bool :=
  match a, b with
  | Num x, Num y => x <=? y
  | _, NaN => true
  | NaN, Num _ => false
  end.

(** [_.sortBy(l, key)] and [_.orderBy(l, key)] on a numeric key. *)
Definition sortBy {A : Type} (key : A -> number) : list A -> list A :=
  sort (fun x y => ascending (key x) (key y)).

(** [_.last(l)] *)
Definition last {A : Type} (l : list A) : option A := List.last (map Some l) None.

End Js.

(** ** The [semver] package, as far as the service uses it

    [semver] is a dependency of the server, not part of it.  It is modelled
    here from its documented behaviour on full versions
    [major.minor.patch(-prerelease)(+build)], with an optional leading [v]:
    [semver.valid], [semver.compare], and [semver.satisfies] for a range
    that is a conjunction of comparators whose bounds are full versions.

    The model stops there.  The service pastes its version markers into
    the range; when a marker is not a full version the package may read
    the string as another range (a union with [||], a partial version or
    x-range, a blank), which the model does not: there [satisfies] is
    [false] in the model whatever the package says.  The properties below
    that depend on what a range selects therefore take the markers to be
    full versions, as hypotheses.  Numeric prerelease identifiers are
    compared as integers, where the package compares them as doubles; the
    two agree below 2^53. *)

Module Semver.

Inductive ident : Type :=
| Numeric (n : N)
| Alphanum (s : string).

Record t : Type := mk {
  major : N;
  minor : N;
  patch : N;
  prerelease : list ident
}.

Definition MAX_SAFE_INTEGER : N := 9007199254740991.
Definition MAX_LENGTH : nat := 256.

Definition is_digit (c : ascii) : bool :=
  let n := N_of_ascii c in ((48 <=? n) && (n <=? 57))%N.

Definition is_letter_or_hyphen (c : ascii) : bool :=
  let n := N_of_ascii c in
  (((65 <=? n) && (n <=? 90)) || ((97 <=? n) && (n <=? 122)) || (n =? 45))%N.

Definition is_ident_char (c : ascii) : bool := is_digit c || is_letter_or_hyphen c.

Fixpoint all_chars (p : ascii -> bool) (s : string) : bool :=
  match s with
  | EmptyString => true
  | String c s' => p c && all_chars p s'
  end.

Fixpoint digits_value (acc : N) (s : string) : N :=
  match s with
  | EmptyString => acc
  | String c s' => digits_value (10 * acc + (N_of_ascii c - 48))%N s'
  end.

(** [0|[1-9]\d*] *)
Definition numeric_identifier (s : string) : option N :=
  match s with
  | EmptyString => None
  | String c s' =>
      if all_chars is_digit s && (negb (Ascii.eqb c "0"%char) || String.eqb s' "")
      then Some (digits_value 0%N s)
      else None
  end.

(** A prerelease identifier: a numeric identifier, or [\d*[a-zA-Z-][a-zA-Z0-9-]*]. *)
Definition prerelease_identifier (s : string) : option ident :=
  if String.eqb s "" then None
  else if all_chars is_digit s then Numeric <$> numeric_identifier s
  else if all_chars is_ident_char s then Some (Alphanum s)
  else None.

(** A build identifier: [[0-9A-Za-z-]+]. *)
Definition build_identifier (s : string) : bool :=
  negb (String.eqb s "") && all_chars is_ident_char s.

(** Cut a string at the first occurrence of a character. *)
Fixpoint cut (sep : ascii) (s : string) : string * option string :=
  match s with
  | EmptyString => (EmptyString, None)
  | String c s' =>
      if Ascii.eqb c sep then (EmptyString, Some s')
      else let '(a, b) := cut sep s' in (String c a, b)
  end.

Definition strip_v (s : string) : string :=
  match s with
  | String "v"%char s' => s'
  | _ => s
  end.

Definition main_version (s : string) : option (N * N * N) :=
  match Js.split "."%char s with
  | [a; b; c] =>
      x ← numeric_identifier a;
      y ← numeric_identifier b;
      z ← numeric_identifier c;
      if ((x <=? MAX_SAFE_INTEGER) && (y <=? MAX_SAFE_INTEGER) && (z <=? MAX_SAFE_INTEGER))%N
      then Some (x, y, z) else None
  | _ => None
  end.

(** [semver.parse]: the build metadata is checked and dropped. *)
Definition parse (s : string) : option t :=
  if (Nat.ltb MAX_LENGTH (String.length s)) then None
  else
    let '(front, build) := cut "+"%char (strip_v s) in
    let build_ok :=
      match build with
      | None => true
      | Some b => forallb build_identifier (Js.split "."%char b)
      end in
    let '(main, pre) := cut "-"%char front in
    if build_ok then
      '(x, y, z) ← main_version main;
      ids ← match pre with
            | None => Some []
            | Some p => mapM prerelease_identifier (Js.split "."%char p)
            end;
      Some (mk x y z ids)
    else None.

(** [semver.valid(s)], as the test the service makes of it: not [null]. *)
Definition valid (s : string) : bool := bool_decide (is_Some (parse s)).

Definition compare_ident (a b : ident) : comparison :=
  match a, b with
  | Numeric x, Numeric y => (x ?= y)%N
  | Numeric _, Alphanum _ => Lt
  | Alphanum _, Numeric _ => Gt
  | Alphanum x, Alphanum y => String.compare x y
  end.

Fixpoint compare_pre_list (a b : list ident) : comparison :=
  match a, b with
  | [], [] => Eq
  | [], _ :: _ => Lt
  | _ :: _, [] => Gt
  | x :: a', y :: b' =>
      match compare_ident x y with
      | Eq => compare_pre_list a' b'
      | c => c
      end
  end.

(** A version without prerelease is greater than the same with one. *)
Definition compare_pre (a b : list ident) : comparison :=
  match a, b with
  | [], [] => Eq
  | [], _ :: _ => Gt
  | _ :: _, [] => Lt
  | _, _ => compare_pre_list a b
  end.

Definition compare_main (a b : t) : comparison :=
  match (major a ?= major b)%N with
  | Eq => match (minor a ?= minor b)%N with
          | Eq => (patch a ?= patch b)%N
          | c => c
          end
  | c => c
  end.

(** [SemVer.compare] *)
Definition compare (a b : t) : comparison :=
  match compare_main a b with
  | Eq => compare_pre (prerelease a) (prerelease b)
  | c => c
  end.

Definition gt (a b : t) : bool := match compare a b with Gt => true | _ => false end.
Definition lte (a b : t) : bool := match compare a b with Gt => false | _ => true end.

Inductive operator : Type := OpGt | OpLte.

(** A comparator as written in a range: an operator and a version string. *)
Definition comparator : Type := operator * string.

Definition test (c : operator * t) (v : t) : bool :=
  match fst c with
  | OpGt => gt v (snd c)
  | OpLte => lte v (snd c)
  end.

Definition same_tuple (a b : t) : bool :=
  ((major a =? major b) && (minor a =? minor b) && (patch a =? patch b))%N.

(** A version with a prerelease tag satisfies a comparator set only when
    some comparator carries a prerelease on the same
    [major.minor.patch]. *)
Definition prerelease_allowed (set : list (operator * t)) (v : t) : bool :=
  match prerelease v with
  | [] => true
  | _ :: _ =>
      existsb (fun c => match prerelease (snd c) with
                        | [] => false
                        | _ :: _ => same_tuple (snd c) v
                        end) set
  end.

Definition parse_comparator (c : comparator) : option (operator * t) :=
  v ← parse (snd c); Some (fst c, v).

(** [semver.satisfies(version, range)] on a range [>lo <=hi] given as its
    two comparators: [false] for a [null] version and for a version that
    does not parse, as in the package; [false] also when a bound is not a
    full version, where the model ends. *)
Definition satisfies (version : option string) (range : list comparator) : bool :=
  match version ≫= parse, mapM parse_comparator range with
  | Some v, Some set => forallb (fun c => test c v) set && prerelease_allowed set v
  | _, _ => false
  end.

End Semver.

(** ** Data model *)

Inductive MigrationType : Type := database | config | content.
Inductive MigrationTarget : Type := core | bot.

#[global] Instance MigrationType_eq_dec : EqDecision MigrationType.
Proof. solve_decision. Defined.
#[global] Instance MigrationTarget_eq_dec : EqDecision MigrationTarget.
Proof. solve_decision. Defined.

(** [sdk.MigrationResult] *)
Record MigrationResult : Type := {
  success : bool;
  message : option string
}.

(** How an awaited promise settles. *)
Inductive Settled (A : Type) : Type :=
| Resolved (a : A)
| Rejected (reason : string).
Arguments Resolved {A} a.
Arguments Rejected {A} reason.

(** A handler [up] or [down] of a migration.  What it does to the stores is
    the migration's own business; the service sees the call and the way the
    returned promise settles. *)
Definition Handler : Type := Settled MigrationResult.

Record MigrationInfo : Type := {
  description : string;
  target : option MigrationTarget;
  type : MigrationType
}.

(** [Migration] (and [sdk.ModuleMigration], of the same shape): [down] is
    optional. *)
Record Migration : Type := {
  info : MigrationInfo;
  up : Handler;
  down : option Handler
}.

#[global] Instance MigrationResult_eq_dec : EqDecision MigrationResult.
Proof. solve_decision. Defined.
#[global] Instance Settled_eq_dec `{EqDecision A} : EqDecision (Settled A).
Proof. solve_decision. Defined.
#[global] Instance MigrationInfo_eq_dec : EqDecision MigrationInfo.
Proof. solve_decision. Defined.
#[global] Instance Migration_eq_dec : EqDecision Migration.
Proof. unfold Handler. solve_decision. Defined.

(** [this.loadedMigrations]: a JavaScript object from file names to what
    the file of that name exports as default.  A key is there once a file
    of that name has been required; it holds the migration, or [undefined]
    ([None]) when the file has no default export.  [m !! name] is
    [this.loadedMigrations[name]], an absent key and [undefined] both read
    as [None]; [m = ∅] is [_.isEmpty(this.loadedMigrations)], which looks
    at the keys; [<[name := x]> m] is the object once [x] is stored under
    [name]. *)
Record Modules : Type := { entries : gmap string (option Migration) }.

#[global] Instance Modules_eq_dec : EqDecision Modules.
Proof. solve_decision. Defined.

#[global] Instance Modules_lookup : Lookup string Migration Modules :=
  fun name m => entries m !! name ≫= id.

#[global] Instance Modules_empty : Empty Modules := {| entries := ∅ |}.

(** [m[name] = x], [x] being a migration or [undefined]. *)
Definition store (name : string) (x : option Migration) (m : Modules) : Modules :=
  {| entries := <[name := x]> (entries m) |}.

#[global] Instance Modules_insert : Insert string Migration Modules :=
  fun name x => store name (Some x).

#[global] Instance Modules_delete : Delete string Modules :=
  fun name m => {| entries := delete name (entries m) |}.

#[global] Instance Modules_singleton : SingletonM string Migration Modules :=
  fun name x => store name (Some x) ∅.

(** [MigrationFile]: [version] is what [semver.valid] returned for the file
    name, [null] ([None]) when it is not a version; [date] is
    [Number(timestamp)], the time stamp of the file name, [NaN] when the
    name has none. *)
Record MigrationFile : Type := {
  date : number;
  version : option string;
  location : string;
  filename : string;
  title : string
}.

#[global] Instance MigrationFile_eq_dec : EqDecision MigrationFile.
Proof. solve_decision. Defined.

(** The fields of [MigrationService] that change during a run. *)
Record MigrationService : Type := {
  targetVersion : jsval;
  configVersion : jsval;
  dbVersion : jsval;
  loadedMigrations : Modules
}.

(** The third argument of [filterMigrations]. *)
Record FilterOptions : Type := {
  isDown : bool;
  opt_type : option MigrationType;
  opt_target : option MigrationTarget
}.

Definition default_options : FilterOptions :=
  {| isDown := false; opt_type := None; opt_target := None |}.

(** ** Selection of the migrations to run *)

(** The range [>${targetVersion} <= ${currentVersion}] of a downgrade and
    [>${currentVersion} <= ${targetVersion}] of an upgrade, as its two
    comparators. *)
Definition comparator (this : MigrationService) (down : bool) (currentVersion : jsval)
  : list Semver.comparator :=
  if down
  then [(Semver.OpGt, Js.interpolate (targetVersion this));
        (Semver.OpLte, Js.interpolate currentVersion)]
  else [(Semver.OpGt, Js.interpolate currentVersion);
        (Semver.OpLte, Js.interpolate (targetVersion this))].

(** The second filter of [filterMigrations], on the loaded module
    [content] of a file ([None]: not loaded). *)
Definition handler_filter (opts : FilterOptions) (content : option Migration) : bool :=
  ((isDown opts && bool_decide (is_Some (content ≫= down)))
   || (negb (isDown opts) && bool_decide (is_Some content)))
  && match opt_type opts with
     | None => true
     | Some ty => bool_decide (type ∘ info <$> content = Some ty)
     end
  && match opt_target opts with
     | None => true
     | Some tg => bool_decide (content ≫= target ∘ info = Some tg)
     end.

Definition filterMigrations (this : MigrationService) (files : list MigrationFile)
    (currentVersion : jsval) (opts : FilterOptions) : list MigrationFile :=
  let comparator := comparator this (isDown opts) currentVersion in
  let filteredFiles :=
    List.filter (fun file => Semver.satisfies (version file) comparator) files in
  if bool_decide (loadedMigrations this = ∅) then filteredFiles
  else
    List.filter
      (fun file => handler_filter opts (loadedMigrations this !! filename file))
      filteredFiles.

(** [process.MIGRATE_CMD === 'down'] *)
Definition is_down (MIGRATE_CMD : option string) : bool :=
  bool_decide (MIGRATE_CMD = Some "down").

Definition getMigrationsToExecute (this : MigrationService) (MIGRATE_CMD : option string)
    (allMigrations : list MigrationFile) : list MigrationFile :=
  let isDown := is_down MIGRATE_CMD in
  Js.sortBy date
    (filterMigrations this allMigrations (dbVersion this)
       {| isDown := isDown; opt_type := Some database; opt_target := None |}
     ++ filterMigrations this allMigrations (configVersion this)
       {| isDown := isDown; opt_type := Some config; opt_target := None |}
     ++ filterMigrations this allMigrations (configVersion this)
       {| isDown := isDown; opt_type := Some content; opt_target := None |}).

(** ** The process and the collaborators of the service *)

(** Directives read from [process], [process.env] and [process.core_env]. *)
Record Process : Type := {
  SKIP_MIGRATIONS : option string;
  MIGRATE_TARGET : option string;
  MIGRATE_CMD : option string;
  MIGRATE_DRYRUN : bool;
  AUTO_MIGRATE : bool;
  IS_FAILSAFE : bool;
  BOTPRESS_VERSION : string;
  APP_DATA_PATH : option string;
  LOADED_MODULES : list (string * string);
  TESTMIG_ALL : option string;
  TESTMIG_NEW : option string;
  TESTMIG_BP_VERSION : option string;
  TESTMIG_CONFIG_VERSION : option string;
  TESTMIG_DB_VERSION : option string;
  TESTMIG_IGNORE_LIST : option string
}.

(** The log: levels and messages.  A message stands for the text the
    service formats; its arguments are what the text is made of. *)
Inductive Level : Type := info_level | warn_level | error_level.

Inductive Message : Type :=
| MsgInvalidTargetFormat
| MsgStatus (dryRun : bool) (config db target : jsval) (changes : nat)
| MsgTypeHeader (ty : MigrationType)
| MsgChange (rollback : bool) (description : string)
| MsgNoChange
| MsgNeedsAutoMigrate
| MsgExecuting (count : nat)
| MsgClearedCache
| MsgCouldNotClearCache (reason : string)
| MsgSkipping (file : string)
| MsgRunning (file : string)
| MsgStepSuccess (text : string)
| MsgStepFailure (text : string)
| MsgSomeStepsFailed
| MsgCompleted (count : nat)
| MsgCouldNotSaveLogs (reason : string).

(** [MigrationEntry], the row written to [srv_migrations]; [created_at] is
    the time of the run and is left out. *)
Record MigrationEntry : Type := {
  initialVersion : jsval;
  entryTargetVersion : jsval;
  details : list (Level * Message)
}.

(** What the run does outside the service, in order: reading a directory
    of migrations, loading a module, logging, calling [removeSync] on the
    cache directory, calling a handler, handing over to the migrations of
    the bots. *)
Inductive Event : Type :=
| EvGlob (rootPath : string)
| EvRequire (location : string)
| EvLog (level : Level) (msg : Message)
| EvRemoveCache
| EvUp (file : string)
| EvDown (file : string)
| EvBotMigrations (entry : MigrationEntry) (files : list MigrationFile).

(** The machine the service runs on.  [glob] gives the descriptors of the
    migration files under a directory, as [_getMigrations] reads them off
    the file names; [require] gives [require(location).default], the
    default export of the module at a location, [None] when the module has
    none (a module that cannot be loaded at all is a fault of the
    installation, like a directory that cannot be read, and is not
    modelled).  The
    [*_error] fields say whether a write fails, and with what: the removal
    of the cache directory, the inserts into the two tables, the merge of
    the configuration.  [coreMigrationCompleted] is the method of
    [BotMigrationService] (./bot), taken as given: the way its promise
    settles. *)
Record Host : Type := {
  process : Process;
  core_migrations_path : string;
  glob : string -> list MigrationFile;
  require : string -> option Migration;
  removeSync_error : option string;
  srv_migrations_insert_error : option string;
  srv_metadata_insert_error : option string;
  mergeBotpressConfig_error : option string;
  coreMigrationCompleted : MigrationEntry -> list MigrationFile -> Settled unit
}.

(** Modelled from the spec: the stores behind [ConfigProvider] and
    [Database] (core/config/config-loader and core/database, whose code is
    missing) are the configuration marker, the version-marker store and
    the audit store of the specification.  The state a run can change is the service
    object, the [version] field of the Botpress configuration, the rows of
    [srv_metadata] (their [server_version], most recent first) and of
    [srv_migrations], whether the cache directory exists, and the trace of
    events. *)
Record World : Type := {
  this : MigrationService;
  botpress_config_version : jsval;
  srv_metadata : list jsval;
  srv_migrations : list MigrationEntry;
  cache_exists : bool;
  trace : list Event
}.

Definition set_this (f : MigrationService -> MigrationService) (w : World) : World :=
  {| this := f (this w); botpress_config_version := botpress_config_version w;
     srv_metadata := srv_metadata w; srv_migrations := srv_migrations w;
     cache_exists := cache_exists w; trace := trace w |}.

Definition set_botpress_config_version (v : jsval) (w : World) : World :=
  {| this := this w; botpress_config_version := v;
     srv_metadata := srv_metadata w; srv_migrations := srv_migrations w;
     cache_exists := cache_exists w; trace := trace w |}.

Definition push_srv_metadata (v : jsval) (w : World) : World :=
  {| this := this w; botpress_config_version := botpress_config_version w;
     srv_metadata := v :: srv_metadata w; srv_migrations := srv_migrations w;
     cache_exists := cache_exists w; trace := trace w |}.

Definition push_srv_migrations (e : MigrationEntry) (w : World) : World :=
  {| this := this w; botpress_config_version := botpress_config_version w;
     srv_metadata := srv_metadata w; srv_migrations := e :: srv_migrations w;
     cache_exists := cache_exists w; trace := trace w |}.

Definition set_cache_exists (b : bool) (w : World) : World :=
  {| this := this w; botpress_config_version := botpress_config_version w;
     srv_metadata := srv_metadata w; srv_migrations := srv_migrations w;
     cache_exists := b; trace := trace w |}.

Definition emit (e : Event) (w : World) : World :=
  {| this := this w; botpress_config_version := botpress_config_version w;
     srv_metadata := srv_metadata w; srv_migrations := srv_migrations w;
     cache_exists := cache_exists w; trace := (trace w ++ [e])%list |}.

(** ** Computations: a result, [process.exit], or an exception *)

Inductive Outcome (A : Type) : Type :=
| Returned (a : A) (w : World)
| Exited (code : Z) (w : World)
| Thrown (reason : string) (w : World).
Arguments Returned {A} a w.
Arguments Exited {A} code w.
Arguments Thrown {A} reason w.

Definition final {A : Type} (o : Outcome A) : World :=
  match o with
  | Returned _ w | Exited _ w | Thrown _ w => w
  end.

Definition M (A : Type) : Type := World -> Outcome A.

#[global] Instance M_ret : MRet M := fun A a w => Returned a w.

#[global] Instance M_bind : MBind M := fun A B f m w =>
  match m w with
  | Returned a w' => f a w'
  | Exited c w' => Exited c w'
  | Thrown e w' => Thrown e w'
  end.

Module Run.

Definition get : M World := fun w => Returned w w.
Definition modify (f : World -> World) : M unit := fun w => Returned tt (f w).
Definition exit {A : Type} (code : Z) : M A := fun w => Exited code w.
Definition throw {A : Type} (reason : string) : M A := fun w => Thrown reason w.

(** [try { m } catch (err) { h err }] *)
Definition try_catch {A : Type} (m : M A) (h : string -> M A) : M A := fun w =>
  match m w with
  | Thrown e w' => h e w'
  | o => o
  end.

Definition event (e : Event) : M unit := modify (emit e).
Definition log (l : Level) (m : Message) : M unit := event (EvLog l m).

(** [await p] *)
Definition await {A : Type} (p : Settled A) : M A :=
  match p with
  | Resolved a => mret a
  | Rejected e => throw e
  end.

(** A write that the host lets succeed or fail. *)
Definition write (error : option string) (effect : World -> World) : M unit :=
  match error with
  | Some e => throw e
  | None => modify effect
  end.

(** [Promise.mapSeries], for a body that updates a local variable. *)
Fixpoint mapSeries {A S : Type} (body : S -> A -> M S) (s : S) (l : list A) : M S :=
  match l with
  | [] => mret s
  | x :: l' => s' ← body s x; mapSeries body s' l'
  end.

(** [l.map(f)] for an [f] with effects, as [forEach]. *)
Definition each {A : Type} (f : A -> M unit) (l : list A) : M unit :=
  mapSeries (fun _ x => f x) tt l.

End Run.

(** The package [yn]: [yn(value)] trims the text of [value] and is [true]
    for [y], [yes], [true] and [1], in any case, and falsy for anything
    else ([undefined] reads as the text [undefined]).  The white space
    trimmed is that of ASCII. *)
Definition is_space (c : ascii) : bool :=
  let n := N_of_ascii c in
  (((9 <=? n) && (n <=? 13)) || (n =? 32))%N.

Fixpoint trim_start (s : string) : string :=
  match s with
  | EmptyString => EmptyString
  | String c s' => if is_space c then trim_start s' else s
  end.

Fixpoint trim_end (s : string) : string :=
  match s with
  | EmptyString => EmptyString
  | String c s' =>
      match trim_end s' with
      | EmptyString => if is_space c then EmptyString else String c EmptyString
      | t => String c t
      end
  end.

(** [s.trim()] *)
Definition trim (s : string) : string := trim_end (trim_start s).

Definition lower (c : ascii) : ascii :=
  let n := N_of_ascii c in
  if ((65 <=? n) && (n <=? 90))%N then ascii_of_N (n + 32) else c.

Fixpoint lowercase (s : string) : string :=
  match s with
  | EmptyString => EmptyString
  | String c s' => String (lower c) (lowercase s')
  end.

Definition yn (value : option string) : bool :=
  match value with
  | None => false
  | Some s =>
      bool_decide (lowercase (trim s) ∈ ["y"; "yes"; "true"; "1"])
  end.

Definition type_error : string := "TypeError".

(** ** The service *)

Section Service.

Context (host : Host).

Let proc : Process := process host.

(** [path.join(a, b)] *)
Definition path_join (a b : string) : string := a ++ "/" ++ b.

(** The constructor: the target version is the first truthy one of
    [process.MIGRATE_TARGET], [TESTMIG_BP_VERSION] and
    [process.BOTPRESS_VERSION]; nothing is loaded yet. *)
Definition constructor : MigrationService :=
  {| targetVersion :=
       Js.or (Js.of_option (MIGRATE_TARGET proc))
         (Js.or (Js.of_option (TESTMIG_BP_VERSION proc)) (JStr (BOTPRESS_VERSION proc)));
     configVersion := JUndefined;
     dbVersion := JUndefined;
     loadedMigrations := ∅ |}.

Definition _getMigrations (rootPath : string) : M (list MigrationFile) :=
  Run.event (EvGlob rootPath);;
  mret (Js.sortBy date (glob host rootPath)).

(** The loop of [getAllMigrations] over the files: the module of a file is
    required unless [this.loadedMigrations] holds a migration under the
    name of the file, and what it exports is stored under that name. *)
Definition load (file : MigrationFile) : M unit :=
  w ← Run.get;
  match loadedMigrations (this w) !! filename file with
  | Some _ => mret tt
  | None =>
      Run.event (EvRequire (location file));;
      Run.modify (set_this (fun s =>
        {| targetVersion := targetVersion s; configVersion := configVersion s;
           dbVersion := dbVersion s;
           loadedMigrations :=
             store (filename file) (require host (location file)) (loadedMigrations s) |}))
  end.

Definition getAllMigrations : M (list MigrationFile) :=
  coreMigrations ← _getMigrations (core_migrations_path host);
  moduleMigrations ←
    Run.mapSeries
      (fun acc module => found ← _getMigrations (path_join (snd module) "dist/migrations");
                         mret (acc ++ found)%list)
      [] (LOADED_MODULES proc);
  let migrations := (coreMigrations ++ moduleMigrations)%list in
  Run.each load migrations;;
  mret migrations.

(** [query?.server_version || this.configVersion], [query] being the most
    recent row of [srv_metadata]. *)
Definition _getCurrentDbVersion : M jsval :=
  w ← Run.get;
  mret (Js.or (match srv_metadata w with v :: _ => v | [] => JUndefined end)
              (configVersion (this w))).

(** [versions.sort(semver.compare)]: [semver.compare] throws on what is
    not a version, and is called as soon as there are two elements. *)
Definition sort_versions (versions : list (option string)) : option (list (option string)) :=
  match versions with
  | [] | [_] => Some versions
  | _ =>
      parsed ← mapM (fun v => p ← v ≫= Semver.parse; Some (v, p)) versions;
      Some (fst <$> Js.sort (fun a b => Semver.lte (snd a) (snd b)) parsed)
  end.

Definition last_version (versions : list (option string)) : jsval :=
  match Js.last versions with
  | None => JUndefined
  | Some None => JNull
  | Some (Some v) => JStr v
  end.

Definition set_versions (target cfg db : jsval) : M unit :=
  Run.modify (set_this (fun s =>
    {| targetVersion := target; configVersion := cfg; dbVersion := db;
       loadedMigrations := loadedMigrations s |})).

(** [process.MIGRATE_TARGET && !semver.valid(process.MIGRATE_TARGET)] *)
Definition invalid_target : bool :=
  match MIGRATE_TARGET proc with
  | Some t => Js.truthy (JStr t) && negb (Semver.valid t)
  | None => false
  end.

Definition detectAndSetupVersions (migrations : list MigrationFile) : M unit :=
  (if invalid_target
   then Run.log error_level MsgInvalidTargetFormat;; Run.exit 0
   else mret tt);;
  w ← Run.get;
  let s := this w in
  set_versions (targetVersion s)
    (Js.or (Js.of_option (TESTMIG_CONFIG_VERSION proc)) (botpress_config_version w))
    (dbVersion s);;
  db ← (if Js.truthy (Js.of_option (TESTMIG_DB_VERSION proc))
        then mret (Js.of_option (TESTMIG_DB_VERSION proc))
        else _getCurrentDbVersion);
  w ← Run.get;
  let s := this w in
  set_versions (targetVersion s) (configVersion s) db;;
  if Js.truthy (Js.of_option (TESTMIG_ALL proc)) || Js.truthy (Js.of_option (TESTMIG_NEW proc))
  then
    match sort_versions (version <$> migrations) with
    | None => Run.throw type_error
    | Some versions =>
        set_versions (last_version versions)
          (if yn (TESTMIG_NEW proc) then JStr (BOTPRESS_VERSION proc) else JStr "12.0.0")
          db
    end
  else mret tt.

Definition types : list MigrationType := [database; config; content].

Definition displayMigrationStatus (missingMigrations : list MigrationFile) : M unit :=
  w ← Run.get;
  let s := this w in
  let isDown := is_down (MIGRATE_CMD proc) in
  match mapM (fun x => info <$> loadedMigrations s !! filename x) missingMigrations with
  | None => Run.throw type_error
  | Some migrations =>
      Run.log warn_level
        (MsgStatus (MIGRATE_DRYRUN proc) (configVersion s) (dbVersion s) (targetVersion s)
           (length migrations));;
      Run.each (fun ty =>
        Run.log warn_level (MsgTypeHeader ty);;
        let filtered := List.filter (fun x => bool_decide (type x = ty)) migrations in
        match filtered with
        | [] => Run.log warn_level MsgNoChange
        | _ => Run.each (fun x => Run.log warn_level (MsgChange isDown (description x))) filtered
        end) types
  end.

(** The cache is cleared inside a [try]: [path.join] throws when
    [process.APP_DATA_PATH] is not a string, [removeSync] when the host
    says so; either way a warning is logged and the run goes on. *)
Definition clear_cache : M unit :=
  Run.try_catch
    (match APP_DATA_PATH proc with
     | None => Run.throw type_error
     | Some p =>
         w ← Run.get;
         if Js.truthy (JStr p) && cache_exists w
         then Run.event EvRemoveCache;;
              Run.write (removeSync_error host) (set_cache_exists false);;
              Run.log info_level MsgClearedCache
         else mret tt
     end)
    (fun err => Run.log warn_level (MsgCouldNotClearCache err)).

(** [process.env.TESTMIG_IGNORE_LIST?.split(',').filter(x => filename.includes(x)).length] *)
Definition ignored (file : string) : bool :=
  match TESTMIG_IGNORE_LIST proc with
  | None => false
  | Some l => negb (Nat.eqb (length (List.filter (Js.includes file) (Js.split "," l))) 0)
  end.

Definition text_or (m : option string) (default : string) : string :=
  match m with
  | Some t => if String.eqb t "" then default else t
  | None => default
  end.

(** The body of the [Promise.mapSeries] of [executeMigrations]; the state
    is the local variable [hasFailures]. *)
Definition run_one (isDown : bool) (hasFailures : bool) (file : MigrationFile) : M bool :=
  let filename := filename file in
  if ignored filename then Run.log info_level (MsgSkipping filename);; mret hasFailures
  else
    Run.log info_level (MsgRunning filename);;
    w ← Run.get;
    result ←
      (if isDown then
         match loadedMigrations (this w) !! filename with
         | None => Run.throw type_error
         | Some migration =>
             match down migration with
             | Some h => Run.event (EvDown filename);; r ← Run.await h; mret (Some r)
             | None => mret None
             end
         end
       else
         match loadedMigrations (this w) !! filename with
         | None => Run.throw type_error
         | Some migration => Run.event (EvUp filename);; r ← Run.await (up migration); mret (Some r)
         end);
    match result with
    | None => Run.throw type_error
    | Some r =>
        if success r
        then Run.log info_level (MsgStepSuccess (text_or (message r) "Success"));; mret hasFailures
        else Run.log error_level (MsgStepFailure (text_or (message r) "Failure"));; mret true
    end.

(** Modelled from the spec: [ConfigProvider.mergeBotpressConfig], whose
    code is missing; merging [{ version }] into the stored configuration
    writes the configuration marker, a field that is [undefined] leaving
    the stored one. *)
Definition mergeBotpressConfig (v : jsval) : M unit :=
  Run.write (mergeBotpressConfig_error host)
    (fun w => match v with
              | JUndefined => w
              | _ => set_botpress_config_version v w
              end).

(** [getMigrationOpts] builds the bundle handed to the handlers; it touches
    nothing of the world and is left out, as is the bundle. *)
Definition executeMigrations (missingMigrations : list MigrationFile) : M unit :=
  let isDown := is_down (MIGRATE_CMD proc) in
  Run.log info_level (MsgExecuting (length missingMigrations));;
  clear_cache;;
  hasFailures ← Run.mapSeries (run_one isDown) false missingMigrations;
  (if hasFailures : bool
   then Run.log error_level MsgSomeStepsFailed;;
        if negb (IS_FAILSAFE proc) then Run.exit 0 else mret tt
   else mret tt : M unit);;
  w ← Run.get;
  mergeBotpressConfig (targetVersion (this w));;
  Run.log info_level (MsgCompleted (length missingMigrations)).

Definition persistMigrationStatus (logs : list (Level * Message))
    (migrationsToExecute : list MigrationFile) : M unit :=
  w ← Run.get;
  let s := this w in
  let entry := {| initialVersion := configVersion s;
                  entryTargetVersion := targetVersion s;
                  details := logs |} in
  Run.try_catch
    (Run.write (srv_migrations_insert_error host) (push_srv_migrations entry))
    (fun err => Run.log warn_level (MsgCouldNotSaveLogs err));;
  (if Js.strict_ne (dbVersion s) (targetVersion s)
   then Run.write (srv_metadata_insert_error host) (push_srv_metadata (targetVersion s))
   else mret tt);;
  Run.event (EvBotMigrations entry migrationsToExecute);;
  Run.await (coreMigrationCompleted host entry migrationsToExecute).

(** The lines a listener registered when the trace was [before] has
    captured. *)
Definition captured (before : list Event) (w : World) : list (Level * Message) :=
  omap (fun e => match e with EvLog l m => Some (l, m) | _ => None end)
       (drop (length before) (trace w)).

Definition initialize : M unit :=
  if yn (SKIP_MIGRATIONS proc) then mret tt
  else
    allMigrations ← getAllMigrations;
    detectAndSetupVersions allMigrations;;
    w ← Run.get;
    let migrationsToExecute := getMigrationsToExecute (this w) (MIGRATE_CMD proc) allMigrations in
    if Nat.eqb (length migrationsToExecute) 0 && bool_decide (MIGRATE_CMD proc = None)
    then mret tt
    else
      let listening := trace w in
      displayMigrationStatus migrationsToExecute;;
      (if MIGRATE_DRYRUN proc then Run.exit 0 else mret tt);;
      if negb (AUTO_MIGRATE proc)
      then
        Run.log error_level MsgNeedsAutoMigrate;;
        if negb (IS_FAILSAFE proc) then Run.exit 0 else mret tt
      else
        executeMigrations migrationsToExecute;;
        w ← Run.get;
        persistMigrationStatus (captured listening w) migrationsToExecute;;
        if bool_decide (MIGRATE_CMD proc = None) then mret tt else Run.exit 0.

End Service.

(** * Vocabulary of the properties *)

Local Open Scope list_scope.

(** ** Versions and ranges *)

Module Spec.

(** [v] lies in the half-open interval [(lo, hi]] of the order of
    [semver.compare]. *)
Definition between (lo hi v : Semver.t) : Prop :=
  Semver.compare v lo = Gt /\ Semver.compare v hi <> Gt.

(** The interval of the specification: [(current, target]] for an
    upgrade, [(target, current]] for a downgrade. *)
Definition in_interval (down : bool) (current target v : Semver.t) : Prop :=
  if down then between target current v else between current target v.

(** The marker a unit is compared with: the database version for the type
    [database], the configuration version for [config] and [content]. *)
Definition current (this : MigrationService) (ty : MigrationType) : jsval :=
  match ty with
  | database => dbVersion this
  | config | content => configVersion this
  end.

(** A file whose version, read as a full version, lies in the interval of
    its type, the markers being full versions too. *)
Definition in_its_interval (this : MigrationService) (down : bool) (file : MigrationFile) : Prop :=
  exists m v c t,
    loadedMigrations this !! filename file = Some m
    /\ version file ≫= Semver.parse = Some v
    /\ Semver.parse (Js.interpolate (current this (type (info m)))) = Some c
    /\ Semver.parse (Js.interpolate (targetVersion this)) = Some t
    /\ in_interval down c t v.

End Spec.

(** The first filter: the version of the file satisfies the range. *)
Definition in_range (this : MigrationService) (down : bool) (currentVersion : jsval)
    (file : MigrationFile) : bool :=
  Semver.satisfies (version file) (comparator this down currentVersion).

(** What the three calls of [getMigrationsToExecute] select together, once
    something is loaded: a loaded file with a handler for the direction,
    whose version satisfies the range of its type. *)
Definition selected (this : MigrationService) (rollback : bool) (file : MigrationFile) : bool :=
  match loadedMigrations this !! filename file with
  | None => false
  | Some m =>
      (negb rollback || bool_decide (is_Some (down m)))
      && in_range this rollback (Spec.current this (type (info m))) file
  end.

(** The selection of one type, as a test on the file. *)
Definition selected_of (this : MigrationService) (rollback : bool) (ty : MigrationType)
    (file : MigrationFile) : bool :=
  selected this rollback file
  && bool_decide (type ∘ info <$> loadedMigrations this !! filename file = Some ty).

(** ** Runs *)

(** The events that act on something: removing the cache, calling a
    handler, running the migrations of the bots.  Reading the directories,
    loading the modules and logging are not among them. *)
Definition acts (e : Event) : bool :=
  match e with
  | EvGlob _ | EvRequire _ | EvLog _ _ => false
  | EvRemoveCache | EvUp _ | EvDown _ | EvBotMigrations _ _ => true
  end.

Definition effects (t : list Event) : list Event := List.filter acts t.

Definition emits (evs : list Event) (w : World) : World :=
  {| this := this w; botpress_config_version := botpress_config_version w;
     srv_metadata := srv_metadata w; srv_migrations := srv_migrations w;
     cache_exists := cache_exists w; trace := trace w ++ evs |}.

(** The event of a call of the handler of a direction. *)
Definition call (rollback : bool) (file : string) : Event :=
  if rollback then EvDown file else EvUp file.

(** The handler [run_one] picks for a direction. *)
Definition handler_of (rollback : bool) (m : Migration) : option Handler :=
  if rollback then down m else Some (up m).

(** What a unit that is not ignored and whose handler resolves to [r]
    leaves in the trace. *)
Definition unit_events (rollback : bool) (file : string) (r : MigrationResult) : list Event :=
  [EvLog info_level (MsgRunning file); call rollback file;
   if success r
   then EvLog info_level (MsgStepSuccess (text_or (message r) "Success"))
   else EvLog error_level (MsgStepFailure (text_or (message r) "Failure"))].

(** The calls of handlers a trace records, and those expected of a plan:
    one per unit that is not ignored, in the order of the plan. *)
Definition is_call (e : Event) : bool :=
  match e with
  | EvUp _ | EvDown _ => true
  | _ => false
  end.

Definition calls (t : list Event) : list Event := List.filter is_call t.

(** From [w] to [w'] no store has changed, the cache directory is as it
    was, and no handler, cache removal or bot migration has been added to
    the trace. *)
Definition quiet_step (w w' : World) : Prop :=
  botpress_config_version w' = botpress_config_version w
  /\ srv_metadata w' = srv_metadata w
  /\ srv_migrations w' = srv_migrations w
  /\ cache_exists w' = cache_exists w
  /\ effects (trace w') = effects (trace w).

Definition quiet {A : Type} (m : M A) : Prop := forall w, quiet_step w (final (m w)).

(** From [w] to [w'] the service has kept its versions and its modules,
    and the trace has grown. *)
Definition keeps_versions (w w' : World) : Prop :=
  targetVersion (this w') = targetVersion (this w)
  /\ configVersion (this w') = configVersion (this w)
  /\ dbVersion (this w') = dbVersion (this w).

Definition keeps_modules (w w' : World) : Prop :=
  forall k m, loadedMigrations (this w) !! k = Some m -> loadedMigrations (this w') !! k = Some m.

Definition extends_trace (w w' : World) : Prop :=
  exists evs, trace w' = trace w ++ evs.

(** The lines of the status for one type. *)
Definition listing (rollback : bool) (migrations : list MigrationInfo) (ty : MigrationType)
  : list Event :=
  EvLog warn_level (MsgTypeHeader ty)
  :: match List.filter (fun x => bool_decide (type x = ty)) migrations with
     | [] => [EvLog warn_level MsgNoChange]
     | filtered =>
         map (fun x => EvLog warn_level (MsgChange rollback (description x))) filtered
     end.

Section Vocabulary.

Context (host : Host).

(** How a planned unit fares in [run_one]: [Some None] when it is on the
    ignore list, [Some (Some r)] when its handler is called and resolves to
    [r], [None] when an exception is thrown (no module, no [down] in a
    downgrade, or a handler that rejects). *)
Definition outcome_of (rollback : bool) (loaded : Modules) (file : MigrationFile)
  : option (option MigrationResult) :=
  if ignored host (filename file) then Some None
  else match loaded !! filename file ≫= handler_of rollback with
       | Some (Resolved r) => Some (Some r)
       | _ => None
       end.

Definition goes_through (rollback : bool) (loaded : Modules)
    (file : MigrationFile) : Prop :=
  is_Some (outcome_of rollback loaded file).

Definition reports_failure (rollback : bool) (loaded : Modules)
    (file : MigrationFile) : bool :=
  match outcome_of rollback loaded file with
  | Some (Some r) => negb (success r)
  | _ => false
  end.

(** The events of the units that go through. *)
Definition loop_events (rollback : bool) (loaded : Modules)
    (plan : list MigrationFile) : list Event :=
  flat_map (fun file =>
    match outcome_of rollback loaded file with
    | Some None => [EvLog info_level (MsgSkipping (filename file))]
    | Some (Some r) => unit_events rollback (filename file) r
    | None => []
    end) plan.

Definition called (rollback : bool) (plan : list MigrationFile) : list Event :=
  map (fun file => call rollback (filename file))
      (List.filter (fun file => negb (ignored host (filename file))) plan).

(** The world once the banner is logged and the cache dealt with. *)
Definition prologue (count : nat) (w : World) : World :=
  final ((Run.log info_level (MsgExecuting count);; clear_cache host) w).

(** The end of [executeMigrations]: the version of the configuration is
    written and the completion logged. *)
Definition finish (count : nat) : M unit :=
  w ← Run.get;
  mergeBotpressConfig host (targetVersion (this w));;
  Run.log info_level (MsgCompleted count).

(** The descriptors [getAllMigrations] returns: those of the core
    directory, then those of each loaded module, each group ordered by
    date. *)
Definition catalog : list MigrationFile :=
  Js.sortBy date (glob host (core_migrations_path host))
  ++ flat_map (fun module => Js.sortBy date (glob host (path_join (snd module) "dist/migrations")))
       (LOADED_MODULES (process host)).

(** The testing hooks [TESTMIG_ALL] and [TESTMIG_NEW] are off, or the
    versions of the catalog can be sorted. *)
Definition hooks_ok (migrations : list MigrationFile) : Prop :=
  Js.truthy (Js.of_option (TESTMIG_ALL (process host)))
  || Js.truthy (Js.of_option (TESTMIG_NEW (process host))) = true ->
  is_Some (sort_versions (version <$> migrations)).

(** What [displayMigrationStatus] logs. *)
Definition status (s : MigrationService) (migrations : list MigrationInfo) : list Event :=
  EvLog warn_level
    (MsgStatus (MIGRATE_DRYRUN (process host)) (configVersion s) (dbVersion s) (targetVersion s)
       (length migrations))
  :: flat_map (listing (is_down (MIGRATE_CMD (process host))) migrations) types.

(** The world once the catalog is read and the versions are set. *)
Definition detected (w : World) : World :=
  final ((allMigrations ← getAllMigrations host; detectAndSetupVersions host allMigrations) w).

End Vocabulary.

(** ** Examples *)

Module Example.

(** A catalog of three files and their modules: [a] changes the database
    and cannot be rolled back, [b] changes the configuration, [c] the
    content. *)
Definition ok : MigrationResult := {| success := true; message := None |}.
Definition failed : MigrationResult := {| success := false; message := Some "boom" |}.

Definition module (ty : MigrationType) (u : Handler) (d : option Handler) : Migration :=
  {| info := {| description := "change"; target := Some core; type := ty |};
     up := u; down := d |}.

Definition file (v : string) (stamp : Z) (name : string) : MigrationFile :=
  {| date := stamp; version := Some v; location := ("migrations/" ++ name)%string;
     filename := name; title := name |}.

Definition a : MigrationFile := file "1.1.0" 30 "v1_1_0-30-a.js".
Definition b : MigrationFile := file "1.2.0" 20 "v1_2_0-20-b.js".
Definition c : MigrationFile := file "1.3.0" 10 "v1_3_0-10-c.js".

Definition modules : Modules :=
  <[filename a := module database (Resolved ok) None]>
    (<[filename b := module config (Resolved ok) (Some (Resolved ok))]>
       (<[filename c := module content (Resolved ok) (Some (Resolved ok))]> ∅)).

Definition service (target cfg db : string) : MigrationService :=
  {| targetVersion := JStr target; configVersion := JStr cfg; dbVersion := JStr db;
     loadedMigrations := modules |}.

End Example.

Module Fixture.

(** The directives of a process started with [--auto-migrate], release
    1.2.0, for a target, a migration command and the dry-run flag. *)
Definition directives (target cmd : option string) (dry : bool) : Process :=
  {| SKIP_MIGRATIONS := None; MIGRATE_TARGET := target; MIGRATE_CMD := cmd;
     MIGRATE_DRYRUN := dry; AUTO_MIGRATE := true; IS_FAILSAFE := false;
     BOTPRESS_VERSION := "1.2.0"; APP_DATA_PATH := Some "/data"; LOADED_MODULES := [];
     TESTMIG_ALL := None; TESTMIG_NEW := None; TESTMIG_BP_VERSION := None;
     TESTMIG_CONFIG_VERSION := None; TESTMIG_DB_VERSION := None;
     TESTMIG_IGNORE_LIST := None |}.

Definition plain : Process := directives None None false.

(** A machine whose core directory holds [catalog], each file exporting
    what [modules] holds under its name, if anything; there is no
    extension module, and every write succeeds but, on demand, the one to
    [srv_metadata]. *)
Definition machine (p : Process) (catalog : list MigrationFile)
    (modules : Modules) (metadata_error : option string) : Host :=
  {| process := p;
     core_migrations_path := "migrations";
     glob := fun root => if String.eqb root "migrations" then catalog else [];
     require := fun path =>
       match List.find (fun f => String.eqb (location f) path) catalog with
       | Some f => modules !! filename f
       | None => None
       end;
     removeSync_error := None;
     srv_migrations_insert_error := None;
     srv_metadata_insert_error := metadata_error;
     mergeBotpressConfig_error := None;
     coreMigrationCompleted := fun _ _ => Resolved tt |}.

(** A world whose stores agree with the markers of the service. *)
Definition world (s : MigrationService) : World :=
  {| this := s; botpress_config_version := configVersion s;
     srv_metadata := [dbVersion s]; srv_migrations := [];
     cache_exists := true; trace := [] |}.

(** Modules where [b] reports a failure, and where [b] raises. *)
Definition failing : Modules :=
  <[filename Example.b := Example.module config (Resolved Example.failed) None]> Example.modules.

Definition raising : Modules :=
  <[filename Example.b := Example.module config (Rejected "boom") None]> Example.modules.

Definition service (modules : Modules) : MigrationService :=
  {| targetVersion := JStr "1.2.0"; configVersion := JStr "1.0.0"; dbVersion := JStr "1.0.0";
     loadedMigrations := modules |}.

(** The world at start-up: a fresh service, the two stores at given
    versions. *)
Definition boot (host : Host) (cfg : string) (db : list string) : World :=
  {| this := constructor host; botpress_config_version := JStr cfg;
     srv_metadata := JStr <$> db; srv_migrations := [];
     cache_exists := true; trace := [] |}.

End Fixture.

(** ** Discovery *)

(** The directories [getAllMigrations] reads, in order: the core one, then
    that of each loaded module. *)
Definition discovery_reads (host : Host) : list Event :=
  EvGlob (core_migrations_path host)
  :: map (fun module => EvGlob (path_join (snd module) "dist/migrations"))
       (LOADED_MODULES (process host)).

(** The migration [getAllMigrations] leaves under a file name: the one that
    was there, else the first one that a file of that name exports, the
    files taken in the order of the catalog. *)
Definition loaded_after (host : Host) (loaded : Modules)
    (files : list MigrationFile) (name : string) : option Migration :=
  match loaded !! name with
  | Some m => Some m
  | None =>
      head (omap (fun f => if String.eqb (filename f) name
                           then require host (location f) else None) files)
  end.

(** A file name is a key of [this.loadedMigrations]. *)
Definition has_key (loaded : Modules) (name : string) : Prop :=
  is_Some (entries loaded !! name).

(** The files a discovery requires again when it follows another one:
    those whose name holds no migration. *)
Definition required_again (loaded : Modules) (files : list MigrationFile) : list Event :=
  map (fun f => EvRequire (location f))
      (List.filter (fun f => bool_decide (loaded !! filename f = None)) files).

(** ** The cache *)

(** Whether [executeMigrations] calls [removeSync] on the cache directory:
    [process.APP_DATA_PATH] is set and the directory exists. *)
Definition cache_attempt (host : Host) (w : World) : bool :=
  match APP_DATA_PATH (process host) with
  | Some p => Js.truthy (JStr p) && cache_exists w
  | None => false
  end.

(** What the clearing of the cache leaves in the trace. *)
Definition cache_events (host : Host) (w : World) : list Event :=
  match APP_DATA_PATH (process host) with
  | None => [EvLog warn_level (MsgCouldNotClearCache type_error)]
  | Some _ =>
      if cache_attempt host w
      then EvRemoveCache
           :: match removeSync_error host with
              | None => [EvLog info_level MsgClearedCache]
              | Some reason => [EvLog warn_level (MsgCouldNotClearCache reason)]
              end
      else []
  end.

(** ** Reading *)

(** The events of the discovery: reading a directory, loading a module. *)
Definition reads (e : Event) : bool :=
  match e with
  | EvGlob _ | EvRequire _ => true
  | _ => false
  end.

(** What [initialize] does once the status is displayed, [listening]
    being the trace when the listener was registered. *)
Definition after_status (host : Host) (plan : list MigrationFile) (listening : list Event)
  : M unit :=
  (if MIGRATE_DRYRUN (process host) then Run.exit 0 else mret tt);;
  if negb (AUTO_MIGRATE (process host))
  then
    Run.log error_level MsgNeedsAutoMigrate;;
    if negb (IS_FAILSAFE (process host)) then Run.exit 0 else mret tt
  else
    executeMigrations host plan;;
    w ← Run.get;
    persistMigrationStatus host (captured listening w) plan;;
    if bool_decide (MIGRATE_CMD (process host) = None) then mret tt else Run.exit 0.

(** The lines of the status that announce a change. *)
Definition is_change (e : Event) : bool :=
  match e with
  | EvLog _ (MsgChange _ _) => true
  | _ => false
  end.

(** ** More machines *)

Module Variant.

(** The machine of [Fixture], with a cache directory that cannot be
    removed. *)
Definition stuck_cache (p : Process) (catalog : list MigrationFile)
    (modules : Modules) : Host :=
  let host := Fixture.machine p catalog modules None in
  {| process := process host;
     core_migrations_path := core_migrations_path host;
     glob := glob host;
     require := require host;
     removeSync_error := Some "EBUSY";
     srv_migrations_insert_error := srv_migrations_insert_error host;
     srv_metadata_insert_error := srv_metadata_insert_error host;
     mergeBotpressConfig_error := mergeBotpressConfig_error host;
     coreMigrationCompleted := coreMigrationCompleted host |}.

(** The directives of [Fixture.plain] with the testing hooks of the
    environment set: the list of ignored files, the two stored versions,
    and [TESTMIG_ALL] or [TESTMIG_NEW]. *)
Definition testing (ignore cfg db all new : option string) : Process :=
  {| SKIP_MIGRATIONS := None; MIGRATE_TARGET := None; MIGRATE_CMD := None;
     MIGRATE_DRYRUN := false; AUTO_MIGRATE := true; IS_FAILSAFE := false;
     BOTPRESS_VERSION := "1.2.0"; APP_DATA_PATH := Some "/data"; LOADED_MODULES := [];
     TESTMIG_ALL := all; TESTMIG_NEW := new; TESTMIG_BP_VERSION := None;
     TESTMIG_CONFIG_VERSION := cfg; TESTMIG_DB_VERSION := db;
     TESTMIG_IGNORE_LIST := ignore |}.

(** The directives of a process started without [--auto-migrate]. *)
Definition manual (failsafe : bool) : Process :=
  {| SKIP_MIGRATIONS := None; MIGRATE_TARGET := None; MIGRATE_CMD := None;
     MIGRATE_DRYRUN := false; AUTO_MIGRATE := false; IS_FAILSAFE := failsafe;
     BOTPRESS_VERSION := "1.2.0"; APP_DATA_PATH := Some "/data"; LOADED_MODULES := [];
     TESTMIG_ALL := None; TESTMIG_NEW := None; TESTMIG_BP_VERSION := None;
     TESTMIG_CONFIG_VERSION := None; TESTMIG_DB_VERSION := None;
     TESTMIG_IGNORE_LIST := None |}.

(** Modules where [b] has not been loaded. *)
Definition without_b : Modules := delete (filename Example.b) Example.modules.

(** Modules where [b] reports a failure and [a] raises. *)
Definition failing_then_raising : Modules :=
  <[filename Example.a := Example.module database (Rejected "crash") None]> Fixture.failing.

(** The descriptor of [v1_1_5-fix.js], a file whose name has a version and
    no time stamp: its date is [Number("fix.js")]. *)
Definition untimed : MigrationFile :=
  {| date := NaN; version := Some "1.1.5"; location := "migrations/v1_1_5-fix.js";
     filename := "v1_1_5-fix.js"; title := "" |}.

Definition with_untimed : Modules :=
  <[filename untimed := Example.module config (Resolved Example.ok) None]> Example.modules.

End Variant.

(** ** Orders *)

(** A three-way comparison that is a strict total order: [Eq] means equal,
    swapping the arguments swaps the answer, and [Lt] is transitive. *)
Record Order {A : Type} (cmp : A -> A -> comparison) : Prop := {
  order_eq : forall a b, cmp a b = Eq <-> a = b;
  order_antisym : forall a b, cmp a b = CompOpp (cmp b a);
  order_trans : forall a b c, cmp a b = Lt -> cmp b c = Lt -> cmp a c = Lt
}.

(** * Properties *)

(** ** The object of the loaded modules *)

Lemma modules_lookup (m : Modules) (name : string) :
  m !! name = entries m !! name ≫= id.
Proof. reflexivity. Qed.

Lemma modules_lookup_empty (name : string) : (∅ : Modules) !! name = None.
Proof. rewrite modules_lookup. cbn. by rewrite lookup_empty. Qed.

Lemma modules_lookup_store_eq (name : string) (x : option Migration) (m : Modules) :
  store name x m !! name = x.
Proof. rewrite modules_lookup. cbn. rewrite lookup_insert_eq. by destruct x. Qed.

Lemma modules_lookup_store_ne (name name' : string) (x : option Migration) (m : Modules) :
  name <> name' -> store name x m !! name' = m !! name'.
Proof. intros Hne. rewrite !modules_lookup. cbn. by rewrite lookup_insert_ne. Qed.

Lemma modules_lookup_has_key (m : Modules) (name : string) (x : Migration) :
  m !! name = Some x -> has_key m name.
Proof.
  rewrite modules_lookup. unfold has_key.
  destruct (entries m !! name); [by eexists|done].
Qed.

Lemma has_key_nonempty (m : Modules) (name : string) : has_key m name -> m <> ∅.
Proof.
  intros [x Hx] ->. cbn in Hx. by rewrite lookup_empty in Hx.
Qed.

Lemma has_key_store (name name' : string) (x : option Migration) (m : Modules) :
  has_key (store name x m) name' <-> name = name' \/ has_key m name'.
Proof.
  unfold has_key, store. cbn.
  destruct (decide (name = name')) as [<-|Hne].
  - rewrite lookup_insert_eq. split; [by left|by eexists].
  - rewrite lookup_insert_ne by done. split; [by right|by intros [|]].
Qed.

(** A key that holds no migration holds [undefined]. *)
Lemma has_key_undefined (m : Modules) (name : string) :
  has_key m name -> m !! name = None -> entries m !! name = Some None.
Proof.
  rewrite modules_lookup. intros [x Hx]. rewrite Hx. cbn. by intros ->.
Qed.

Lemma store_same (m : Modules) (name : string) (x : option Migration) :
  entries m !! name = Some x -> store name x m = m.
Proof.
  intros Hx. destruct m as [e]. unfold store. cbn in *. f_equal.
  by apply insert_id.
Qed.

(** ** Sorting *)

Section SortFacts.
Context {A : Type} (le : A -> A -> bool).

Lemma insert_by_Permutation (x : A) (l : list A) :
  Permutation (Js.insert_by le x l) (x :: l).
Proof.
  induction l as [|y l IH]; simpl; [reflexivity|].
  destruct (le x y); [reflexivity|].
  rewrite IH. apply perm_swap.
Qed.

Lemma sort_Permutation (l : list A) : Permutation (Js.sort le l) l.
Proof.
  induction l as [|x l IH]; simpl; [reflexivity|].
  rewrite insert_by_Permutation. by constructor.
Qed.

Hypothesis le_total : forall x y, le x y = false -> le y x = true.

Lemma insert_by_HdRel (x a : A) (l : list A) :
  le a x = true -> HdRel (fun u v => le u v = true) a l ->
  HdRel (fun u v => le u v = true) a (Js.insert_by le x l).
Proof.
  intros Hax Hl. destruct l as [|y l]; simpl; [by constructor|].
  destruct (le x y); constructor; [done|]. by inversion Hl.
Qed.

Lemma insert_by_Sorted (x : A) (l : list A) :
  Sorted (fun u v => le u v = true) l ->
  Sorted (fun u v => le u v = true) (Js.insert_by le x l).
Proof.
  induction l as [|y l IH]; simpl; intros Hs.
  - repeat constructor.
  - destruct (le x y) eqn:Hxy.
    + constructor; [done|]. by constructor.
    + inversion Hs; subst. constructor; [by apply IH|].
      apply insert_by_HdRel; [by apply le_total|done].
Qed.

Lemma sort_Sorted (l : list A) : Sorted (fun u v => le u v = true) (Js.sort le l).
Proof.
  induction l as [|x l IH]; simpl; [constructor|]. by apply insert_by_Sorted.
Qed.
End SortFacts.

Lemma sortBy_Permutation {A : Type} (key : A -> number) (l : list A) :
  Permutation (Js.sortBy key l) l.
Proof. apply sort_Permutation. Qed.

Lemma ascending_total (a b : number) : Js.ascending a b = false -> Js.ascending b a = true.
Proof. destruct a, b; cbn; try done. lia. Qed.

(** [Js.ascending] in the words of [<=]: the first is at most the second,
    or the second is [NaN]. *)
Lemma ascending_le (a b : number) :
  Js.ascending a b = true <-> Js.le a b = true \/ b = NaN.
Proof.
  destruct a, b; cbn; split; try done; auto; intros [H|H]; done.
Qed.

Lemma Sorted_impl {A : Type} (R S : A -> A -> Prop) (l : list A) :
  (forall u v, R u v -> S u v) -> Sorted R l -> Sorted S l.
Proof.
  intros Himpl. induction 1 as [|a l _ IH Hd]; constructor; [done|].
  destruct Hd; constructor. by apply Himpl.
Qed.

Lemma sortBy_Sorted {A : Type} (key : A -> number) (l : list A) :
  Sorted (fun u v => Js.ascending (key u) (key v) = true) (Js.sortBy key l).
Proof. apply sort_Sorted. intros x y. apply ascending_total. Qed.

(** ** Lists *)

Lemma filter_filter_andb {A : Type} (p q : A -> bool) (l : list A) :
  List.filter q (List.filter p l) = List.filter (fun x => p x && q x) l.
Proof.
  induction l as [|x l IH]; simpl; [done|].
  destruct (p x); simpl; [destruct (q x)|]; by rewrite IH.
Qed.

Lemma filter_false {A : Type} (p : A -> bool) (l : list A) :
  (forall x, p x = false) -> List.filter p l = [].
Proof. intros H. induction l as [|x l IH]; simpl; [done|]. by rewrite H. Qed.

Lemma filter_app_exclusive {A : Type} (p q : A -> bool) (l : list A) :
  (forall x, p x = true -> q x = false) ->
  Permutation (List.filter p l ++ List.filter q l) (List.filter (fun x => p x || q x) l).
Proof.
  intros Hpq. induction l as [|x l IH]; simpl; [done|].
  destruct (p x) eqn:Hp; simpl.
  - rewrite (Hpq x Hp). by constructor.
  - destruct (q x); [|done].
    rewrite <- Permutation_middle. by constructor.
Qed.

(** ** Versions and ranges *)

Lemma gt_lte_same (v p : Semver.t) : Semver.gt v p && Semver.lte v p = false.
Proof. unfold Semver.gt, Semver.lte. by destruct (Semver.compare v p). Qed.

Lemma gt_lte_between (lo hi v : Semver.t) :
  Semver.gt v lo && Semver.lte v hi = true <-> Spec.between lo hi v.
Proof.
  unfold Spec.between, Semver.gt, Semver.lte.
  destruct (Semver.compare v lo), (Semver.compare v hi); simpl;
    split; try done; intros [? ?]; done.
Qed.

(** A range whose two bounds are the same full version is satisfied by
    nothing. *)
Lemma satisfies_same_bounds (version : option string) (s : string) (p : Semver.t) :
  Semver.parse s = Some p ->
  Semver.satisfies version [(Semver.OpGt, s); (Semver.OpLte, s)] = false.
Proof.
  intros Hp. unfold Semver.satisfies.
  destruct (version ≫= Semver.parse) as [v|]; [|done].
  cbn. unfold Semver.parse_comparator. cbn.
  rewrite Hp. cbn.
  unfold Semver.test; cbn.
  rewrite andb_true_r. by rewrite gt_lte_same.
Qed.

(** On a version without prerelease tag, and bounds that are full
    versions, the range [>lo <=hi] is the interval [(lo, hi]]. *)
Lemma satisfies_between (version : option string) (lo hi : string) (v l h : Semver.t) :
  version ≫= Semver.parse = Some v -> Semver.prerelease v = [] ->
  Semver.parse lo = Some l -> Semver.parse hi = Some h ->
  Semver.satisfies version [(Semver.OpGt, lo); (Semver.OpLte, hi)] = true
  <-> Spec.between l h v.
Proof.
  intros Hv Hpre Hl Hh. unfold Semver.satisfies. rewrite Hv.
  cbn. unfold Semver.parse_comparator. cbn. rewrite Hl, Hh. cbn.
  unfold Semver.prerelease_allowed. rewrite Hpre.
  unfold Semver.test; cbn. rewrite !andb_true_r. apply gt_lte_between.
Qed.

(** ** [filterMigrations] *)

Lemma filterMigrations_not_loaded this files currentVersion opts :
  loadedMigrations this = ∅ ->
  filterMigrations this files currentVersion opts
  = List.filter (in_range this (isDown opts) currentVersion) files.
Proof. intros H. unfold filterMigrations. by rewrite bool_decide_eq_true_2. Qed.

Lemma filterMigrations_loaded this files currentVersion opts :
  loadedMigrations this <> ∅ ->
  filterMigrations this files currentVersion opts
  = List.filter (fun file => in_range this (isDown opts) currentVersion file
                             && handler_filter opts (loadedMigrations this !! filename file))
      files.
Proof.
  intros H. unfold filterMigrations. rewrite bool_decide_eq_false_2 by done.
  apply filter_filter_andb.
Qed.

Lemma in_range_target this down file t :
  Semver.parse (Js.interpolate (targetVersion this)) = Some t ->
  in_range this down (targetVersion this) file = false.
Proof.
  intros Ht. unfold in_range, comparator.
  destruct down; by apply (satisfies_same_bounds _ _ t).
Qed.

Lemma filterMigrations_target this files opts t :
  Semver.parse (Js.interpolate (targetVersion this)) = Some t ->
  filterMigrations this files (targetVersion this) opts = [].
Proof.
  intros Ht. unfold filterMigrations.
  rewrite (filter_false (fun file => Semver.satisfies _ _)); [by case_bool_decide|].
  intros file. by apply (in_range_target _ _ _ t).
Qed.

Lemma handler_filter_type (rollback : bool) (ty : MigrationType) (content : option Migration) :
  handler_filter {| isDown := rollback; opt_type := Some ty; opt_target := None |} content
  = match content with
    | None => false
    | Some m => (negb rollback || bool_decide (is_Some (down m))) && bool_decide (type (info m) = ty)
    end.
Proof.
  unfold handler_filter; cbn.
  destruct content as [m|]; cbn; [destruct (down m); cbn|]; destruct rollback; cbn;
    rewrite ?andb_true_r; try done; apply bool_decide_ext; naive_solver.
Qed.

Lemma filterMigrations_type this files rollback ty :
  loadedMigrations this <> ∅ ->
  filterMigrations this files (Spec.current this ty)
    {| isDown := rollback; opt_type := Some ty; opt_target := None |}
  = List.filter (selected_of this rollback ty) files.
Proof.
  intros H. rewrite filterMigrations_loaded by done.
  apply List.filter_ext. intros file. rewrite handler_filter_type.
  unfold selected_of, selected. cbn.
  destruct (loadedMigrations this !! filename file) as [m|]; cbn; [|by rewrite andb_false_r].
  destruct (decide (type (info m) = ty)) as [->|Hne].
  - rewrite (bool_decide_eq_true_2 (ty = ty)), (bool_decide_eq_true_2 (Some ty = Some ty)) by done.
    rewrite !andb_true_r. apply andb_comm.
  - rewrite (bool_decide_eq_false_2 (type (info m) = ty)) by done.
    rewrite (bool_decide_eq_false_2 (Some _ = Some ty)) by congruence.
    by rewrite !andb_false_r.
Qed.

Lemma selected_split this rollback file :
  selected this rollback file
  = selected_of this rollback database file
    || (selected_of this rollback config file || selected_of this rollback content file).
Proof.
  unfold selected_of.
  destruct (selected this rollback file) eqn:Hs; cbn; [|done].
  unfold selected in Hs.
  destruct (loadedMigrations this !! filename file) as [m|]; [|done]. cbn.
  by destruct (type (info m)).
Qed.

Lemma selected_of_exclusive this rollback ty ty' file :
  ty <> ty' -> selected_of this rollback ty file = true -> selected_of this rollback ty' file = false.
Proof.
  intros Hne. unfold selected_of. rewrite !andb_true_iff. intros [_ H%bool_decide_eq_true].
  rewrite H. rewrite (bool_decide_eq_false_2 (Some ty = Some ty')) by congruence.
  apply andb_false_r.
Qed.

Lemma getMigrationsToExecute_selected this cmd all :
  loadedMigrations this <> ∅ ->
  Permutation (getMigrationsToExecute this cmd all)
              (List.filter (selected this (is_down cmd)) all).
Proof.
  intros H. unfold getMigrationsToExecute. rewrite sortBy_Permutation.
  change (dbVersion this) with (Spec.current this database).
  change (configVersion this) with (Spec.current this config) at 1.
  change (configVersion this) with (Spec.current this content).
  rewrite !filterMigrations_type by done.
  rewrite (filter_app_exclusive (selected_of this _ config) (selected_of this _ content))
    by (intros file; by apply selected_of_exclusive).
  rewrite filter_app_exclusive.
  - erewrite List.filter_ext; [reflexivity|]. intros file. symmetry. apply selected_split.
  - intros file Hd. apply orb_false_iff.
    split; eapply selected_of_exclusive; try exact Hd; done.
Qed.

(** ** The plan *)

(** C5, as amended. The plan is ordered by date, ascending, whatever the
    direction, the files whose name has no numeric time stamp coming last:
    each unit of the plan has a date at most that of the next one, or the
    next one has the date [NaN].  When every file of the catalog has a
    numeric time stamp, each unit has a date at most that of the next. *)
Theorem plan_sorted_by_date (this : MigrationService) (cmd : option string)
    (all : list MigrationFile) :
  let plan := getMigrationsToExecute this cmd all in
  Sorted (fun u v => Js.le (date u) (date v) = true \/ date v = NaN) plan
  /\ ((forall file, In file all -> date file <> NaN) ->
      Sorted (fun u v => Js.le (date u) (date v) = true) plan).
Proof.
  cbn zeta.
  assert (Hsorted : Sorted (fun u v => Js.le (date u) (date v) = true \/ date v = NaN)
                      (getMigrationsToExecute this cmd all)).
  { eapply Sorted_impl; [|apply sortBy_Sorted]. intros u v. apply ascending_le. }
  split; [exact Hsorted|].
  intros Hnum.
  assert (Hall : Forall (fun file => date file <> NaN) (getMigrationsToExecute this cmd all)).
  { apply Forall_forall. intros file Hin%list_elem_of_In. apply Hnum.
    unfold getMigrationsToExecute in Hin.
    eapply Permutation_in in Hin; [|apply sortBy_Permutation].
    rewrite !in_app_iff in Hin.
    unfold filterMigrations in Hin.
    destruct Hin as [Hin|[Hin|Hin]]; case_bool_decide;
      repeat (apply filter_In in Hin as [Hin _]); exact Hin. }
  induction Hsorted as [|u plan _ IH Hd]; [constructor|].
  inversion Hall as [|? ? Hu Hplan]; subst.
  constructor; [by apply IH|].
  destruct Hd as [|v plan [Hle|Hnan]]; constructor; [exact Hle|].
  inversion Hplan; subst. done.
Qed.

Lemma plan_sorted_by_date_witness :
  Sorted (fun u v => Js.le (date u) (date v) = true)
    (getMigrationsToExecute (Example.service "1.2.0" "1.0.0" "1.0.0") None
       [Example.a; Example.b; Example.c]).
Proof.
  apply (proj2 (plan_sorted_by_date (Example.service "1.2.0" "1.0.0" "1.0.0") None
                  [Example.a; Example.b; Example.c])).
  intros file [<-|[<-|[<-|[]]]]; discriminate.
Defined.

(** C5 as stated fails when a planned file has no numeric time stamp: the
    file comes last, and the date of the unit before it is not at most
    its date. *)
Lemma plan_sorted_by_date_counterexample :
  let this := {| targetVersion := JStr "1.2.0"; configVersion := JStr "1.0.0";
                 dbVersion := JStr "1.0.0"; loadedMigrations := Variant.with_untimed |} in
  let plan := getMigrationsToExecute this None
                [Variant.untimed; Example.a; Example.b; Example.c] in
  plan = [Example.b; Example.a; Variant.untimed]
  /\ Js.le (date Example.a) (date Variant.untimed) = false
  /\ ~ Sorted (fun u v => Js.le (date u) (date v) = true) plan.
Proof.
  cbn zeta.
  assert (Hplan : getMigrationsToExecute
                    {| targetVersion := JStr "1.2.0"; configVersion := JStr "1.0.0";
                       dbVersion := JStr "1.0.0"; loadedMigrations := Variant.with_untimed |}
                    None [Variant.untimed; Example.a; Example.b; Example.c]
                  = [Example.b; Example.a; Variant.untimed])
    by (vm_compute; reflexivity).
  split; [exact Hplan|]. split; [reflexivity|].
  rewrite Hplan. intros Hs.
  inversion Hs as [|? ? Hrest _]; subst.
  inversion Hrest as [|? ? _ Hd]; subst.
  inversion Hd as [|? ? Hle]; subst. discriminate Hle.
Qed.

(** C10. While nothing is loaded, [filterMigrations] applies the range of
    versions and nothing else: whatever the direction, the type and the
    target asked for, every file in the range is returned, so a file whose
    module has no [down], or is of another type, can be among them. *)
Theorem filterMigrations_nothing_loaded :
  (forall target cfg db files currentVersion opts,
     let this := {| targetVersion := target; configVersion := cfg; dbVersion := db;
                    loadedMigrations := ∅ |} in
     filterMigrations this files currentVersion opts
     = List.filter (fun file => Semver.satisfies (version file)
                                  (comparator this (isDown opts) currentVersion)) files)
  /\ (let this := {| targetVersion := JStr "1.0.0"; configVersion := JStr "1.2.0";
                     dbVersion := JStr "1.2.0"; loadedMigrations := ∅ |} in
      let file := {| date := 1; version := Some "1.1.0"; location := "migrations/v1_1_0-1-a.js";
                     filename := "v1_1_0-1-a.js"; title := "a" |} in
      let opts := {| isDown := true; opt_type := Some database; opt_target := Some bot |} in
      let module := {| info := {| description := "a"; target := Some core; type := config |};
                       up := Resolved {| success := true; message := None |};
                       down := None |} in
      filterMigrations this [file] (dbVersion this) opts = [file]
      /\ filterMigrations
           {| targetVersion := JStr "1.0.0"; configVersion := JStr "1.2.0";
              dbVersion := JStr "1.2.0";
              loadedMigrations := {[ filename file := module ]} |}
           [file] (dbVersion this) opts = []).
Proof.
  split.
  - intros. by apply filterMigrations_not_loaded.
  - split; vm_compute; reflexivity.
Qed.

(** C6. In a downgrade, a unit whose loaded module has no [down] is not in
    the plan; the plan is computed all the same. *)
Theorem plan_down_has_handler (this : MigrationService) (all : list MigrationFile)
    (file : MigrationFile) (m : Migration) :
  In file (getMigrationsToExecute this (Some "down") all) ->
  loadedMigrations this !! filename file = Some m ->
  is_Some (down m).
Proof.
  intros Hin Hm.
  assert (Hne : loadedMigrations this <> ∅).
  { intros He. rewrite He in Hm. by rewrite modules_lookup_empty in Hm. }
  eapply Permutation_in in Hin; [|by apply getMigrationsToExecute_selected].
  apply filter_In in Hin as [_ Hsel]. unfold selected in Hsel. rewrite Hm in Hsel.
  apply andb_true_iff in Hsel as [Hd _]. cbn in Hd. by apply bool_decide_eq_true in Hd.
Qed.

(** C1, as amended. Once modules are loaded, the plan holds exactly the
    files, each as often as the catalog has it, that have a loaded module
    with a handler for the direction (for a downgrade, a [down]) and whose
    version satisfies the range of the type of the module: for a version
    without prerelease tag and markers that are full versions, the interval
    [(current, target]] of an upgrade and [(target, current]] of a
    downgrade, [current] being the database version for the type
    [database] and the configuration version for [config] and [content].
    When both markers equal the target, the plan is empty. *)
Theorem plan_exact (this : MigrationService) (cmd : option string) (all : list MigrationFile) :
  (loadedMigrations this <> ∅ ->
     Permutation (getMigrationsToExecute this cmd all)
                 (List.filter (selected this (is_down cmd)) all)
     /\ forall file m v c t,
          loadedMigrations this !! filename file = Some m ->
          version file ≫= Semver.parse = Some v ->
          Semver.prerelease v = [] ->
          Semver.parse (Js.interpolate (Spec.current this (type (info m)))) = Some c ->
          Semver.parse (Js.interpolate (targetVersion this)) = Some t ->
          (selected this (is_down cmd) file = true
           <-> (is_down cmd = true -> is_Some (down m))
               /\ Spec.in_interval (is_down cmd) c t v))
  /\ (forall t,
        Semver.parse (Js.interpolate (targetVersion this)) = Some t ->
        dbVersion this = targetVersion this -> configVersion this = targetVersion this ->
        getMigrationsToExecute this cmd all = []).
Proof.
  split.
  - intros Hne. split; [by apply getMigrationsToExecute_selected|].
    intros file m v c t Hm Hv Hpre Hc Ht.
    unfold selected. rewrite Hm. rewrite andb_true_iff.
    unfold in_range, comparator, Spec.in_interval.
    destruct (is_down cmd); cbn.
    + rewrite satisfies_between by done. rewrite bool_decide_eq_true.
      split; [intros [Hd Hin]; by split|intros [Hd Hin]; split; [by apply Hd|done]].
    + rewrite satisfies_between by done.
      split; [intros [_ Hin]; by split|intros [_ Hin]; by split].
  - intros t Ht Hdb Hcfg. unfold getMigrationsToExecute.
    rewrite Hdb, Hcfg, !(filterMigrations_target _ _ _ t Ht). reflexivity.
Qed.

Lemma plan_exact_witness :
  loadedMigrations (Example.service "1.2.0" "1.0.0" "1.0.0") <> ∅
  /\ Permutation
       (getMigrationsToExecute (Example.service "1.2.0" "1.0.0" "1.0.0") None
          [Example.a; Example.b; Example.c])
       [Example.a; Example.b]
  /\ getMigrationsToExecute (Example.service "1.2.0" "1.2.0" "1.2.0") None
       [Example.a; Example.b; Example.c] = [].
Proof.
  assert (Hne : loadedMigrations (Example.service "1.2.0" "1.0.0" "1.0.0") <> ∅).
  { intros H. apply (f_equal (fun m => m !! filename Example.a)) in H. vm_compute in H. discriminate. }
  split; [exact Hne|]. split.
  - exact (proj1 (proj1 (plan_exact (Example.service "1.2.0" "1.0.0" "1.0.0") None
                           [Example.a; Example.b; Example.c]) Hne)).
  - apply (proj2 (plan_exact (Example.service "1.2.0" "1.2.0" "1.2.0") None
                    [Example.a; Example.b; Example.c]) (Semver.mk 1 2 0 []));
      [vm_compute; reflexivity|reflexivity|reflexivity].
Defined.

(** C1 as stated fails on a downgrade: [a], of type [database], has its
    version 1.1.0 in the interval [(1.0.0, 1.2.0]] of the database marker
    and is in the catalog, and is not in the plan, for want of a [down]. *)
Lemma plan_exact_counterexample :
  let this := Example.service "1.0.0" "1.2.0" "1.2.0" in
  let all := [Example.a; Example.b; Example.c] in
  In Example.a all
  /\ Spec.in_its_interval this true Example.a
  /\ ~ In Example.a (getMigrationsToExecute this (Some "down") all).
Proof.
  cbn zeta. split; [by left|]. split.
  - exists (Example.module database (Resolved Example.ok) None),
      (Semver.mk 1 1 0 []), (Semver.mk 1 2 0 []), (Semver.mk 1 0 0 []).
    repeat split; try (vm_compute; reflexivity). vm_compute. discriminate.
  - vm_compute. intros [H|[]]. discriminate.
Qed.

Lemma plan_down_has_handler_witness :
  let this := Example.service "1.0.0" "1.2.0" "1.2.0" in
  In Example.b (getMigrationsToExecute this (Some "down") [Example.a; Example.b; Example.c])
  /\ is_Some (down (Example.module config (Resolved Example.ok) (Some (Resolved Example.ok)))).
Proof.
  cbn zeta.
  assert (H : In Example.b (getMigrationsToExecute (Example.service "1.0.0" "1.2.0" "1.2.0")
                              (Some "down") [Example.a; Example.b; Example.c])).
  { vm_compute. left. reflexivity. }
  split; [exact H|].
  apply (plan_down_has_handler _ _ _ _ H). vm_compute. reflexivity.
Defined.

(** ** Runs *)

Lemma emit_emits e w : emit e w = emits [e] w.
Proof. reflexivity. Qed.

Lemma emits_emits a b w : emits b (emits a w) = emits (a ++ b) w.
Proof. unfold emits; cbn. by rewrite app_assoc. Qed.

Lemma effects_app a b : effects (a ++ b) = effects a ++ effects b.
Proof. apply List.filter_app. Qed.

Ltac run :=
  repeat (unfold mbind, M_bind, mret, M_ret, Run.log, Run.event, Run.modify, Run.get,
            Run.exit, Run.throw, Run.await, Run.write, Run.try_catch; cbn).

Ltac same_world :=
  unfold emits, emit, unit_events, call; cbn;
  rewrite <- ?app_assoc, ?orb_false_r, ?orb_true_r; cbn; try reflexivity.

Section Units.

Context (host : Host).

Lemma run_one_ignored rollback b file w :
  ignored host (filename file) = true ->
  run_one host rollback b file w
  = Returned b (emits [EvLog info_level (MsgSkipping (filename file))] w).
Proof. intros H. unfold run_one. rewrite H. run. same_world. Qed.

Lemma run_one_resolved rollback b file w m r :
  ignored host (filename file) = false ->
  loadedMigrations (this w) !! filename file = Some m ->
  handler_of rollback m = Some (Resolved r) ->
  run_one host rollback b file w
  = Returned (b || negb (success r)) (emits (unit_events rollback (filename file) r) w).
Proof.
  intros Hi Hm Hh. unfold run_one. rewrite Hi. run. rewrite Hm.
  destruct rollback; cbn in Hh.
  - rewrite Hh. run. unfold unit_events. destruct (success r); run; same_world.
  - injection Hh as ->. run. unfold unit_events. destruct (success r); run; same_world.
Qed.

Lemma run_one_rejected rollback b file w m reason :
  ignored host (filename file) = false ->
  loadedMigrations (this w) !! filename file = Some m ->
  handler_of rollback m = Some (Rejected reason) ->
  run_one host rollback b file w
  = Thrown reason (emits [EvLog info_level (MsgRunning (filename file));
                          call rollback (filename file)] w).
Proof.
  intros Hi Hm Hh. unfold run_one. rewrite Hi. run. rewrite Hm.
  destruct rollback; cbn in Hh.
  - rewrite Hh. run. same_world.
  - injection Hh as ->. run. same_world.
Qed.

Lemma calls_app a b : calls (a ++ b) = calls a ++ calls b.
Proof. apply List.filter_app. Qed.

Lemma calls_loop_events rollback loaded plan :
  Forall (goes_through host rollback loaded) plan ->
  calls (loop_events host rollback loaded plan) = called host rollback plan.
Proof.
  induction 1 as [|file plan [o Ho] _ IH]; [done|].
  unfold loop_events, called in *. cbn. rewrite calls_app, IH, Ho.
  unfold outcome_of in Ho.
  destruct (ignored host (filename file)); cbn.
  - by injection Ho as <-.
  - destruct (_ ≫= _) as [[r|]|]; try done. injection Ho as <-.
    unfold unit_events, call. by destruct rollback, (success r).
Qed.

(** The loop over units that all go through: it returns, the flag is set
    when a unit reported a failure, and nothing but the trace changes. *)
Lemma mapSeries_goes_through rollback plan : forall b w,
  Forall (goes_through host rollback (loadedMigrations (this w))) plan ->
  Run.mapSeries (run_one host rollback) b plan w
  = Returned (b || existsb (reports_failure host rollback (loadedMigrations (this w))) plan)
             (emits (loop_events host rollback (loadedMigrations (this w)) plan) w).
Proof.
  induction plan as [|file plan IH]; intros b w Hall.
  - cbn. rewrite orb_false_r. unfold emits. rewrite app_nil_r. by destruct w.
  - inversion Hall as [|? ? [o Ho] Hrest]; subst.
    cbn [Run.mapSeries]. unfold mbind, M_bind at 1.
    unfold loop_events, reports_failure. cbn [flat_map existsb]. rewrite Ho.
    unfold outcome_of in Ho.
    destruct (ignored host (filename file)) eqn:Hi.
    + injection Ho as <-. rewrite run_one_ignored by done.
      rewrite IH by done. cbn [this emits]. rewrite emits_emits. by rewrite orb_false_l.
    + destruct (loadedMigrations (this w) !! filename file) as [m|] eqn:Hm; [|done].
      cbn in Ho. destruct (handler_of rollback m) as [[r|]|] eqn:Hh; try done.
      injection Ho as <-.
      rewrite (run_one_resolved rollback b file w m r) by done.
      rewrite IH by done. cbn [this emits]. rewrite emits_emits. by rewrite orb_assoc.
Qed.

(** The loop stops at the first unit whose handler rejects. *)
Lemma mapSeries_rejected rollback pre file post b w m reason :
  Forall (goes_through host rollback (loadedMigrations (this w))) pre ->
  ignored host (filename file) = false ->
  loadedMigrations (this w) !! filename file = Some m ->
  handler_of rollback m = Some (Rejected reason) ->
  Run.mapSeries (run_one host rollback) b (pre ++ file :: post) w
  = Thrown reason
      (emits (loop_events host rollback (loadedMigrations (this w)) pre
              ++ [EvLog info_level (MsgRunning (filename file)); call rollback (filename file)])
         w).
Proof.
  revert b w. induction pre as [|first pre IH]; intros b w Hall Hi Hm Hh.
  - cbn [app Run.mapSeries]. unfold mbind, M_bind.
    by rewrite (run_one_rejected rollback b file w m reason).
  - inversion Hall as [|? ? Hfirst Hrest]; subst.
    cbn [app Run.mapSeries]. unfold mbind, M_bind at 1.
    pose proof (mapSeries_goes_through rollback [first] b w) as H1.
    cbn [Run.mapSeries] in H1. unfold mbind, M_bind, mret, M_ret in H1.
    specialize (H1 ltac:(by constructor)).
    destruct (run_one host rollback b first w) as [b' w'| |]; try done.
    injection H1 as -> ->.
    rewrite IH; cbn [this emits]; try done.
    rewrite emits_emits. unfold loop_events. cbn [flat_map].
    by rewrite app_nil_r, app_assoc.
Qed.

End Units.

(** ** [executeMigrations] *)

Section Execute.

Context (host : Host).

Lemma prologue_returns count w :
  (Run.log info_level (MsgExecuting count);; clear_cache host) w
  = Returned tt (prologue host count w).
Proof.
  unfold prologue, clear_cache. run.
  destruct (APP_DATA_PATH (process host)) as [p|]; run; [|done].
  destruct (negb (String.eqb p "") && cache_exists w); run; [|done].
  destruct (removeSync_error host); by run.
Qed.

Lemma prologue_frame count w :
  this (prologue host count w) = this w
  /\ botpress_config_version (prologue host count w) = botpress_config_version w
  /\ srv_metadata (prologue host count w) = srv_metadata w
  /\ srv_migrations (prologue host count w) = srv_migrations w
  /\ calls (trace (prologue host count w)) = calls (trace w).
Proof.
  unfold prologue, clear_cache. run.
  destruct (APP_DATA_PATH (process host)) as [p|]; run.
  - destruct (negb (String.eqb p "") && cache_exists w); run.
    + destruct (removeSync_error host); run;
        repeat split; rewrite <- ?app_assoc, calls_app; cbn; by rewrite app_nil_r.
    + repeat split. rewrite calls_app. cbn. by rewrite app_nil_r.
  - repeat split. rewrite <- app_assoc, calls_app. cbn. by rewrite app_nil_r.
Qed.

(** A run of [executeMigrations] over units that all go through. *)
Lemma executeMigrations_goes_through plan w :
  let rollback := is_down (MIGRATE_CMD (process host)) in
  let loaded := loadedMigrations (this w) in
  let w1 := emits (loop_events host rollback loaded plan) (prologue host (length plan) w) in
  Forall (goes_through host rollback loaded) plan ->
  executeMigrations host plan w
  = if existsb (reports_failure host rollback loaded) plan
    then if IS_FAILSAFE (process host)
         then finish host (length plan) (emits [EvLog error_level MsgSomeStepsFailed] w1)
         else Exited 0 (emits [EvLog error_level MsgSomeStepsFailed] w1)
    else finish host (length plan) w1.
Proof.
  intros rollback loaded w1 Hall. subst w1.
  destruct (prologue_frame (length plan) w) as (Hthis & _).
  unfold executeMigrations.
  change (?a ;; ?b ;; ?k) with ((a ;; b) ≫= fun _ => k).
  unfold mbind at 1, M_bind at 1. rewrite prologue_returns.
  unfold mbind at 1, M_bind at 1.
  rewrite mapSeries_goes_through by (by rewrite Hthis).
  rewrite Hthis. fold rollback loaded. cbn [orb].
  destruct (existsb _ plan); [destruct (IS_FAILSAFE (process host))|]; reflexivity.
Qed.

End Execute.

Section ExecuteFacts.

Context (host : Host).

Lemma finish_returns count w :
  mergeBotpressConfig_error host = None ->
  exists w', finish host count w = Returned tt w'
    /\ this w' = this w
    /\ botpress_config_version w'
       = match targetVersion (this w) with
         | JUndefined => botpress_config_version w
         | v => v
         end
    /\ srv_metadata w' = srv_metadata w
    /\ calls (trace w') = calls (trace w).
Proof.
  intros Hok. unfold finish, mergeBotpressConfig. run. rewrite Hok. run.
  eexists; split; [reflexivity|]. cbn.
  destruct (targetVersion (this w)); cbn; repeat split;
    rewrite calls_app; cbn; by rewrite app_nil_r.
Qed.

Lemma finish_not_exited count w c w' : finish host count w <> Exited c w'.
Proof.
  unfold finish, mergeBotpressConfig. run.
  by destruct (mergeBotpressConfig_error host).
Qed.

End ExecuteFacts.

(** C3, as amended. When every handler called resolves and at least one
    unit reports [success: false], every unit of the plan that is not on
    the ignore list is called, once and in the order of the plan, and
    nothing is written before the flag is looked at: after the last unit,
    without failsafe the process exits; with failsafe it does not, the end
    of [executeMigrations] runs and, the configuration being written,
    control returns to the caller. *)
Theorem failures_do_not_stop_the_plan (host : Host) (plan : list MigrationFile) (w : World) :
  let rollback := is_down (MIGRATE_CMD (process host)) in
  let loaded := loadedMigrations (this w) in
  Forall (goes_through host rollback loaded) plan ->
  Exists (fun file => reports_failure host rollback loaded file = true) plan ->
  exists w',
    calls (trace w') = calls (trace w) ++ called host rollback plan
    /\ botpress_config_version w' = botpress_config_version w
    /\ srv_metadata w' = srv_metadata w
    /\ (IS_FAILSAFE (process host) = false -> executeMigrations host plan w = Exited 0 w')
    /\ (IS_FAILSAFE (process host) = true ->
        (forall c w'', executeMigrations host plan w <> Exited c w'')
        /\ (mergeBotpressConfig_error host = None ->
            exists w'', executeMigrations host plan w = Returned tt w''
                        /\ calls (trace w'') = calls (trace w'))).
Proof.
  intros rollback loaded Hall Hfail.
  pose proof (executeMigrations_goes_through host plan w Hall) as Hrun.
  fold rollback loaded in Hrun.
  assert (Hex : existsb (reports_failure host rollback loaded) plan = true).
  { apply existsb_exists. apply Exists_exists in Hfail as (file & Hin & Hfile).
    exists file. split; [by apply list_elem_of_In|done]. }
  rewrite Hex in Hrun.
  destruct (prologue_frame host (length plan) w) as (_ & Hcfg & Hdb & _ & Hcalls).
  set (w' := emits [EvLog error_level MsgSomeStepsFailed]
               (emits (loop_events host rollback loaded plan) (prologue host (length plan) w)))
    in *.
  exists w'. split; [|split; [|split; [|split]]].
  - subst w'. cbn. rewrite !calls_app, Hcalls, calls_loop_events by done. cbn.
    by rewrite app_nil_r.
  - exact Hcfg.
  - exact Hdb.
  - intros Hstrict. rewrite Hstrict in Hrun. exact Hrun.
  - intros Hsafe. rewrite Hsafe in Hrun. rewrite Hrun. split.
    + intros c w''. apply finish_not_exited.
    + intros Hok.
      destruct (finish_returns host (length plan) w' Hok) as (w'' & -> & _ & _ & _ & Hc).
      eauto.
Qed.

Lemma failures_do_not_stop_the_plan_witness :
  let host := Fixture.machine Fixture.plain [Example.c; Example.b; Example.a] Fixture.failing None in
  let w := Fixture.world (Fixture.service Fixture.failing) in
  let plan := [Example.b; Example.a] in
  exists w',
    calls (trace w') = [EvUp (filename Example.b); EvUp (filename Example.a)]
    /\ executeMigrations host plan w = Exited 0 w'.
Proof.
  cbn zeta.
  destruct (failures_do_not_stop_the_plan
              (Fixture.machine Fixture.plain [Example.c; Example.b; Example.a] Fixture.failing None)
              [Example.b; Example.a] (Fixture.world (Fixture.service Fixture.failing)))
    as (w' & Hcalls & _ & _ & Hstrict & _).
  - repeat constructor; vm_compute; eauto.
  - apply Exists_cons_hd. vm_compute. reflexivity.
  - exists w'. split; [exact Hcalls|]. apply Hstrict. reflexivity.
Defined.

(** C3 as stated fails when a later handler raises: with [b] reporting a
    failure and [a] raising, the run of the plan [b; a; c] ends with the
    exception of [a]; [c] is never called and the process does not
    exit. *)
Lemma failures_counterexample :
  let host := Fixture.machine Fixture.plain [Example.c; Example.b; Example.a]
                Variant.failing_then_raising None in
  let w := Fixture.world (Fixture.service Variant.failing_then_raising) in
  let outcome := executeMigrations host [Example.b; Example.a; Example.c] w in
  In (EvLog error_level (MsgStepFailure "boom")) (trace (final outcome))
  /\ outcome = Thrown "crash" (final outcome)
  /\ calls (trace (final outcome)) = [EvUp (filename Example.b); EvUp (filename Example.a)].
Proof.
  cbn zeta. split; [|split]; vm_compute; [|reflexivity..].
  repeat (first [left; reflexivity|right]).
Qed.

(** C7, as amended. A handler that raises is not turned into an outcome:
    [executeMigrations] is rejected with what the handler raised, right
    after the call.  The units before it have run, no unit after it is
    called, no failure is logged and the version of the configuration is
    not written. *)
Theorem handler_exception_propagates (host : Host) (pre post : list MigrationFile)
    (file : MigrationFile) (w : World) (m : Migration) (reason : string) :
  let rollback := is_down (MIGRATE_CMD (process host)) in
  let loaded := loadedMigrations (this w) in
  Forall (goes_through host rollback loaded) pre ->
  ignored host (filename file) = false ->
  loaded !! filename file = Some m ->
  handler_of rollback m = Some (Rejected reason) ->
  exists w',
    executeMigrations host (pre ++ file :: post) w = Thrown reason w'
    /\ calls (trace w')
       = calls (trace w) ++ called host rollback pre ++ [call rollback (filename file)]
    /\ List.last (trace w') (EvLog error_level MsgSomeStepsFailed)
       = call rollback (filename file)
    /\ botpress_config_version w' = botpress_config_version w
    /\ srv_metadata w' = srv_metadata w.
Proof.
  intros rollback loaded Hpre Hi Hm Hh.
  set (plan := pre ++ file :: post).
  destruct (prologue_frame host (length plan) w) as (Hthis & Hcfg & Hdb & _ & Hcalls).
  eexists. split.
  - unfold executeMigrations.
    change (?a ;; ?b ;; ?k) with ((a ;; b) ≫= fun _ => k).
    unfold mbind at 1, M_bind at 1. rewrite prologue_returns.
    unfold mbind at 1, M_bind at 1.
    rewrite (mapSeries_rejected host _ pre file post false _ m reason);
      rewrite ?Hthis; try done.
  - cbn [trace emits botpress_config_version srv_metadata].
    fold rollback loaded. repeat split; try done.
    + rewrite !calls_app, Hcalls, calls_loop_events by done.
      unfold call. by destruct rollback.
    + change [?x; ?y] with ([x] ++ [y]). rewrite !app_assoc. apply last_last.
Qed.

Lemma handler_exception_propagates_witness :
  let host := Fixture.machine Fixture.plain [Example.c; Example.b; Example.a] Fixture.raising None in
  let w := Fixture.world (Fixture.service Fixture.raising) in
  exists w',
    executeMigrations host ([] ++ Example.b :: [Example.a]) w = Thrown "boom" w'
    /\ calls (trace w') = [EvUp (filename Example.b)].
Proof.
  cbn zeta.
  destruct (handler_exception_propagates
              (Fixture.machine Fixture.plain [Example.c; Example.b; Example.a] Fixture.raising None)
              [] [Example.a] Example.b (Fixture.world (Fixture.service Fixture.raising))
              (Example.module config (Rejected "boom") None) "boom")
    as (w' & Hrun & Hcalls & _); try (vm_compute; reflexivity); [constructor|].
  exists w'. split; [exact Hrun|exact Hcalls].
Defined.

(** C7 as stated fails: with [b] raising, the run of the plan [b; a] is
    rejected, [a] is never called, and neither a failure of [b] nor the
    failure of the run is recorded. *)
Lemma handler_exception_counterexample :
  let host := Fixture.machine Fixture.plain [Example.c; Example.b; Example.a] Fixture.raising None in
  let w := Fixture.world (Fixture.service Fixture.raising) in
  let outcome := executeMigrations host [Example.b; Example.a] w in
  outcome = Thrown "boom" (final outcome)
  /\ calls (trace (final outcome)) = [EvUp (filename Example.b)]
  /\ ~ In (EvLog error_level (MsgStepFailure "boom")) (trace (final outcome))
  /\ ~ In (EvLog error_level MsgSomeStepsFailed) (trace (final outcome)).
Proof.
  cbn zeta. repeat split; try (vm_compute; reflexivity);
    vm_compute; intros H; repeat (destruct H as [H|H]; [discriminate|]); exact H.
Qed.

(** ** [persistMigrationStatus] *)

Section Persist.

Context (host : Host) (logs : list (Level * Message)) (plan : list MigrationFile) (w : World).

Let entry : MigrationEntry :=
  {| initialVersion := configVersion (this w);
     entryTargetVersion := targetVersion (this w);
     details := logs |}.

Let moved : bool := Js.strict_ne (dbVersion (this w)) (targetVersion (this w)).

(** The recording goes through when the row of [srv_metadata], if one is
    due, can be written and the migrations of the bots resolve; whether the
    row of [srv_migrations] could be written changes only that table and
    the log. *)
Lemma persistMigrationStatus_returns :
  (moved = true -> srv_metadata_insert_error host = None) ->
  coreMigrationCompleted host entry plan = Resolved tt ->
  exists w',
    persistMigrationStatus host logs plan w = Returned tt w'
    /\ srv_metadata w'
       = (if moved then targetVersion (this w) :: srv_metadata w else srv_metadata w)
    /\ botpress_config_version w' = botpress_config_version w
    /\ match srv_migrations_insert_error host with
       | Some reason =>
           srv_migrations w' = srv_migrations w
           /\ In (EvLog warn_level (MsgCouldNotSaveLogs reason)) (trace w')
       | None => srv_migrations w' = entry :: srv_migrations w
       end
    /\ In (EvBotMigrations entry plan) (trace w').
Proof.
  intros Hmeta Hbot. unfold persistMigrationStatus. run.
  fold entry moved. rewrite Hbot.
  destruct (srv_migrations_insert_error host) as [reason|]; run;
    (destruct moved; [rewrite Hmeta by done|]; run);
    (eexists; split; [reflexivity|]; cbn; repeat split;
     rewrite ?in_app_iff; cbn; auto).
Qed.

(** A row of [srv_metadata] that cannot be written: the exception leaves
    [persistMigrationStatus], before the migrations of the bots. *)
Lemma persistMigrationStatus_thrown reason :
  moved = true -> srv_metadata_insert_error host = Some reason ->
  exists w',
    persistMigrationStatus host logs plan w = Thrown reason w'
    /\ srv_metadata w' = srv_metadata w
    /\ effects (trace w') = effects (trace w)
    /\ trace w'
       = trace w ++ match srv_migrations_insert_error host with
                    | Some audit => [EvLog warn_level (MsgCouldNotSaveLogs audit)]
                    | None => []
                    end.
Proof.
  intros Hmoved Hmeta. unfold persistMigrationStatus. run.
  fold entry moved. rewrite Hmoved, Hmeta.
  destruct (srv_migrations_insert_error host); run;
    (eexists; split; [reflexivity|]; cbn; split; [done|]);
    rewrite ?effects_app; cbn; by rewrite ?app_nil_r.
Qed.

End Persist.

(** C9, as amended. A failure of the write to [srv_migrations] is logged as
    a warning and the recording goes on: the row of [srv_metadata] is
    written if one is due, the migrations of the bots are run, and the
    function returns.  A failure of the write to [srv_metadata] is not
    caught: it leaves [persistMigrationStatus] as an exception, before the
    migrations of the bots are run, and nothing is logged about it: the
    trace has grown by the warning of the audit write, if that one failed
    too, and by nothing else. *)
Theorem audit_write_failure_is_logged (host : Host) (logs : list (Level * Message))
    (plan : list MigrationFile) (w : World) :
  let entry := {| initialVersion := configVersion (this w);
                  entryTargetVersion := targetVersion (this w);
                  details := logs |} in
  let moved := Js.strict_ne (dbVersion (this w)) (targetVersion (this w)) in
  (forall reason,
     srv_migrations_insert_error host = Some reason ->
     (moved = true -> srv_metadata_insert_error host = None) ->
     coreMigrationCompleted host entry plan = Resolved tt ->
     exists w',
       persistMigrationStatus host logs plan w = Returned tt w'
       /\ In (EvLog warn_level (MsgCouldNotSaveLogs reason)) (trace w')
       /\ srv_migrations w' = srv_migrations w
       /\ srv_metadata w'
          = (if moved then targetVersion (this w) :: srv_metadata w else srv_metadata w)
       /\ In (EvBotMigrations entry plan) (trace w'))
  /\ (forall reason,
        moved = true -> srv_metadata_insert_error host = Some reason ->
        exists w',
          persistMigrationStatus host logs plan w = Thrown reason w'
          /\ srv_metadata w' = srv_metadata w
          /\ effects (trace w') = effects (trace w)
          /\ trace w'
             = trace w ++ match srv_migrations_insert_error host with
                          | Some audit => [EvLog warn_level (MsgCouldNotSaveLogs audit)]
                          | None => []
                          end).
Proof.
  intros entry moved. split.
  - intros reason Haudit Hmeta Hbot.
    destruct (persistMigrationStatus_returns host logs plan w Hmeta Hbot)
      as (w' & Hrun & Hdb & _ & Hrows & Hbots).
    rewrite Haudit in Hrows. destruct Hrows as [Hrows Hlog].
    exists w'. repeat split; done.
  - intros reason Hmoved Hmeta.
    by apply persistMigrationStatus_thrown.
Qed.

Lemma audit_write_failure_is_logged_witness :
  let w := Fixture.world (Fixture.service Example.modules) in
  let audit_down :=
    {| process := Fixture.plain; core_migrations_path := "migrations";
       glob := fun _ => []; require := fun _ => Some (Example.module config (Resolved Example.ok) None);
       removeSync_error := None; srv_migrations_insert_error := Some "SQLITE_BUSY";
       srv_metadata_insert_error := None; mergeBotpressConfig_error := None;
       coreMigrationCompleted := fun _ _ => Resolved tt |} in
  let metadata_down := Fixture.machine Fixture.plain [] Example.modules (Some "SQLITE_BUSY") in
  (exists w', persistMigrationStatus audit_down [] [Example.b] w = Returned tt w'
              /\ In (EvLog warn_level (MsgCouldNotSaveLogs "SQLITE_BUSY")) (trace w')
              /\ srv_metadata w' = [JStr "1.2.0"; JStr "1.0.0"])
  /\ (exists w', persistMigrationStatus metadata_down [] [Example.b] w = Thrown "SQLITE_BUSY" w'
                 /\ srv_metadata w' = [JStr "1.0.0"]).
Proof.
  cbn zeta. split.
  - edestruct (proj1 (audit_write_failure_is_logged
                 {| process := Fixture.plain; core_migrations_path := "migrations";
                    glob := fun _ => [];
                    require := fun _ => Some (Example.module config (Resolved Example.ok) None);
                    removeSync_error := None; srv_migrations_insert_error := Some "SQLITE_BUSY";
                    srv_metadata_insert_error := None; mergeBotpressConfig_error := None;
                    coreMigrationCompleted := fun _ _ => Resolved tt |}
                 [] [Example.b] (Fixture.world (Fixture.service Example.modules))))
      as (w' & Hrun & Hlog & _ & Hdb & _); try reflexivity.
    exists w'. repeat split; [exact Hrun|exact Hlog|exact Hdb].
  - edestruct (proj2 (audit_write_failure_is_logged
                 (Fixture.machine Fixture.plain [] Example.modules (Some "SQLITE_BUSY"))
                 [] [Example.b] (Fixture.world (Fixture.service Example.modules))))
      as (w' & Hrun & Hdb & _); try reflexivity.
    exists w'. split; [exact Hrun|exact Hdb].
Defined.

(** C9 as stated fails for the version marker: when the row of
    [srv_metadata] cannot be written, [persistMigrationStatus] does not
    complete; the error propagates and nothing is logged about it. *)
Lemma marker_write_failure_counterexample :
  let host := Fixture.machine Fixture.plain [] Example.modules (Some "SQLITE_BUSY") in
  let w := Fixture.world (Fixture.service Example.modules) in
  let outcome := persistMigrationStatus host [] [Example.b] w in
  outcome = Thrown "SQLITE_BUSY" (final outcome)
  /\ List.filter (fun e => match e with EvLog warn_level _ => true | _ => false end)
       (trace (final outcome)) = [].
Proof. cbn zeta. split; vm_compute; reflexivity. Qed.

(** C4, as amended. The markers do not follow the plans of the types.  A
    run whose units all go through and report no failure, whatever their
    types and also when there is none, writes the target version to the
    configuration; the recording that follows adds a row with the target
    version to [srv_metadata] whenever the database version differs from
    it, and none otherwise.  When the units all go through, one of them
    reports a failure and failsafe is off, the process exits with both
    markers untouched. *)
Theorem markers_after_a_run (host : Host) (plan : list MigrationFile)
    (logs : list (Level * Message)) (w : World) :
  let rollback := is_down (MIGRATE_CMD (process host)) in
  let loaded := loadedMigrations (this w) in
  let target := targetVersion (this w) in
  let entry := {| initialVersion := configVersion (this w);
                  entryTargetVersion := target; details := logs |} in
  (Forall (goes_through host rollback loaded) plan ->
   existsb (reports_failure host rollback loaded) plan = false ->
   mergeBotpressConfig_error host = None ->
   exists w',
     executeMigrations host plan w = Returned tt w'
     /\ botpress_config_version w'
        = match target with JUndefined => botpress_config_version w | v => v end
     /\ srv_metadata w' = srv_metadata w
     /\ this w' = this w)
  /\ (Forall (goes_through host rollback loaded) plan ->
      existsb (reports_failure host rollback loaded) plan = true ->
      IS_FAILSAFE (process host) = false ->
      exists w',
        executeMigrations host plan w = Exited 0 w'
        /\ botpress_config_version w' = botpress_config_version w
        /\ srv_metadata w' = srv_metadata w)
  /\ ((Js.strict_ne (dbVersion (this w)) target = true -> srv_metadata_insert_error host = None) ->
      coreMigrationCompleted host entry plan = Resolved tt ->
      exists w',
        persistMigrationStatus host logs plan w = Returned tt w'
        /\ srv_metadata w'
           = (if Js.strict_ne (dbVersion (this w)) target
              then target :: srv_metadata w else srv_metadata w)
        /\ botpress_config_version w' = botpress_config_version w).
Proof.
  intros rollback loaded target entry.
  destruct (prologue_frame host (length plan) w) as (Hthis & Hcfg & Hdb & _ & _).
  split; [|split].
  - intros Hall Hnone Hok.
    rewrite (executeMigrations_goes_through host plan w Hall).
    fold rollback loaded. rewrite Hnone.
    destruct (finish_returns host (length plan)
                (emits (loop_events host rollback loaded plan) (prologue host (length plan) w)) Hok)
      as (w' & Hrun & Hthis' & Hcfg' & Hdb' & _).
    exists w'. cbn in Hthis', Hcfg', Hdb'.
    rewrite Hthis in Hthis', Hcfg'. rewrite Hcfg in Hcfg'. rewrite Hdb in Hdb'.
    repeat split; try done.
    rewrite Hcfg'. subst target. by destruct (targetVersion (this w)).
  - intros Hall Hsome Hstrict.
    rewrite (executeMigrations_goes_through host plan w Hall).
    fold rollback loaded. rewrite Hsome, Hstrict.
    eexists. split; [reflexivity|]. by cbn.
  - intros Hmeta Hbot.
    destruct (persistMigrationStatus_returns host logs plan w Hmeta Hbot)
      as (w' & Hrun & Hdb' & Hcfg' & _).
    exists w'. by repeat split.
Qed.

Lemma markers_after_a_run_witness :
  let host := Fixture.machine Fixture.plain [Example.b] Example.modules None in
  let w := Fixture.world (Fixture.service Example.modules) in
  (exists w', executeMigrations host [Example.b] w = Returned tt w'
              /\ botpress_config_version w' = JStr "1.2.0"
              /\ srv_metadata w' = [JStr "1.0.0"])
  /\ (exists w', persistMigrationStatus host [] [Example.b] w = Returned tt w'
                 /\ srv_metadata w' = [JStr "1.2.0"; JStr "1.0.0"]).
Proof.
  cbn zeta.
  pose proof (markers_after_a_run
                (Fixture.machine Fixture.plain [Example.b] Example.modules None)
                [Example.b] [] (Fixture.world (Fixture.service Example.modules)))
    as (Hrun & _ & Hrecord).
  split.
  - destruct Hrun as (w' & Hrun & Hcfg & Hdb & _);
      [repeat constructor; vm_compute; eauto|vm_compute; reflexivity|reflexivity|].
    exists w'. repeat split; [exact Hrun|exact Hcfg|exact Hdb].
  - destruct Hrecord as (w' & Hrun' & Hdb & _); [reflexivity|reflexivity|].
    exists w'. split; [exact Hrun'|exact Hdb].
Defined.

(** C4 as stated fails: the catalog holds one unit, of type [config], so
    that nothing is planned for the type [database]; the run of
    [initialize] moves the database marker to the target all the same. *)
Lemma markers_counterexample :
  let host := Fixture.machine Fixture.plain [Example.b] Example.modules None in
  let w := Fixture.boot host "1.0.0" ["1.0.0"] in
  let outcome := initialize host w in
  let plan := getMigrationsToExecute (this (final outcome)) None [Example.b] in
  plan = [Example.b]
  /\ type ∘ info <$> loadedMigrations (this (final outcome)) !! filename Example.b = Some config
  /\ outcome = Returned tt (final outcome)
  /\ srv_metadata w = [JStr "1.0.0"]
  /\ srv_metadata (final outcome) = [JStr "1.2.0"; JStr "1.0.0"].
Proof.
  cbn zeta.
  split; [|split; [|split; [|split]]]; vm_compute; reflexivity.
Qed.

(** ** Runs that act on nothing *)

Lemma quiet_step_refl w : quiet_step w w.
Proof. by repeat split. Qed.

Lemma quiet_step_trans w1 w2 w3 : quiet_step w1 w2 -> quiet_step w2 w3 -> quiet_step w1 w3.
Proof.
  intros (? & ? & ? & ? & ?) (? & ? & ? & ? & ?). repeat split; congruence.
Qed.

Lemma quiet_ret {A : Type} (a : A) : quiet (mret a).
Proof. intros w. apply quiet_step_refl. Qed.

Lemma quiet_exit {A : Type} code : quiet (Run.exit (A := A) code).
Proof. intros w. apply quiet_step_refl. Qed.

Lemma quiet_throw {A : Type} reason : quiet (Run.throw (A := A) reason).
Proof. intros w. apply quiet_step_refl. Qed.

Lemma quiet_bind {A B : Type} (m : M A) (k : A -> M B) :
  quiet m -> (forall a, quiet (k a)) -> quiet (m ≫= k).
Proof.
  intros Hm Hk w. specialize (Hm w). unfold mbind, M_bind.
  destruct (m w) as [a w'| |]; cbn in *; try done.
  eapply quiet_step_trans; [exact Hm|apply Hk].
Qed.

Lemma quiet_exit_bind {A B : Type} code (k : A -> M B) : quiet (Run.exit code ≫= k).
Proof. intros w. apply quiet_step_refl. Qed.

Lemma quiet_try_catch {A : Type} (m : M A) (h : string -> M A) :
  quiet m -> (forall e, quiet (h e)) -> quiet (Run.try_catch m h).
Proof.
  intros Hm Hh w. specialize (Hm w). unfold Run.try_catch.
  destruct (m w) as [a w'| |e w']; cbn in *; try done.
  eapply quiet_step_trans; [exact Hm|apply Hh].
Qed.

Lemma quiet_mapSeries {A B : Type} (body : B -> A -> M B) (l : list A) :
  (forall s x, quiet (body s x)) -> forall s, quiet (Run.mapSeries body s l).
Proof.
  intros Hbody. induction l as [|x l IH]; intros s; cbn.
  - apply quiet_ret.
  - apply quiet_bind; [apply Hbody|apply IH].
Qed.

Lemma quiet_get : quiet Run.get.
Proof. intros w. apply quiet_step_refl. Qed.

Lemma quiet_event e : acts e = false -> quiet (Run.event e).
Proof.
  intros He w. unfold quiet_step. cbn. rewrite effects_app. cbn. rewrite He.
  by rewrite app_nil_r.
Qed.

Lemma quiet_log l m : quiet (Run.log l m).
Proof. by apply quiet_event. Qed.

Lemma quiet_set_this f : quiet (Run.modify (set_this f)).
Proof. intros w. by repeat split. Qed.

Lemma quiet_each {A : Type} (f : A -> M unit) (l : list A) :
  (forall x, quiet (f x)) -> quiet (Run.each f l).
Proof. intros Hf. apply quiet_mapSeries. intros _ x. apply Hf. Qed.

Lemma bind_returned {A B : Type} (m : M A) (k : A -> M B) w a w' :
  m w = Returned a w' -> (m ≫= k) w = k a w'.
Proof. intros H. unfold mbind, M_bind. by rewrite H. Qed.

Ltac quiet :=
  repeat first
    [ apply quiet_ret | apply quiet_exit | apply quiet_throw | apply quiet_get
    | apply quiet_log | apply quiet_set_this | apply quiet_exit_bind
    | apply quiet_event; reflexivity
    | apply quiet_bind; [|intros ?]
    | apply quiet_each; intros ?
    | apply quiet_mapSeries; intros ? ? ].

Section QuietService.

Context (host : Host).

Lemma quiet_getAllMigrations : quiet (getAllMigrations host).
Proof.
  unfold getAllMigrations, _getMigrations, load. quiet.
  destruct (_ !! _); quiet.
Qed.

Lemma quiet_detectAndSetupVersions migrations : quiet (detectAndSetupVersions host migrations).
Proof.
  unfold detectAndSetupVersions, set_versions, _getCurrentDbVersion. quiet.
  - destruct (invalid_target host); quiet.
  - destruct (Js.truthy _); quiet.
  - destruct (_ || _); quiet. destruct (sort_versions _); quiet.
Qed.

Lemma quiet_displayMigrationStatus plan : quiet (displayMigrationStatus host plan).
Proof.
  unfold displayMigrationStatus. quiet.
  destruct (mapM _ plan); quiet.
  all: destruct (List.filter _ _); quiet.
Qed.

End QuietService.

(** ** Discovery *)

Section Discovery.

Context (host : Host).

Lemma module_migrations_returns (modules : list (string * string)) : forall acc w,
  exists evs,
    Run.mapSeries
      (fun acc module => found ← _getMigrations host (path_join (snd module) "dist/migrations");
                         mret (acc ++ found))
      acc modules w
    = Returned
        (acc ++ flat_map (fun module =>
                   Js.sortBy date (glob host (path_join (snd module) "dist/migrations"))) modules)
        (emits evs w).
Proof.
  induction modules as [|module modules IH]; intros acc w.
  - exists []. cbn. rewrite app_nil_r. unfold emits. rewrite app_nil_r. by destruct w.
  - cbn [Run.mapSeries flat_map].
    erewrite bind_returned; [|erewrite bind_returned; reflexivity].
    destruct (IH (acc ++ Js.sortBy date (glob host (path_join (snd module) "dist/migrations")))
                 (emit (EvGlob (path_join (snd module) "dist/migrations")) w)) as (evs & ->).
    eexists. rewrite emit_emits, emits_emits, app_assoc. reflexivity.
Qed.

Lemma load_all_returns (files : list MigrationFile) : forall w,
  exists w',
    Run.each (load host) files w = Returned tt w'
    /\ keeps_versions w w' /\ keeps_modules w w' /\ extends_trace w w'
    /\ (forall name, has_key (loadedMigrations (this w)) name ->
        has_key (loadedMigrations (this w')) name)
    /\ forall file, In file files ->
         has_key (loadedMigrations (this w')) (filename file)
         /\ (is_Some (require host (location file)) ->
             is_Some (loadedMigrations (this w') !! filename file)).
Proof.
  induction files as [|file files IH]; intros w.
  - exists w. split; [done|]. split; [done|]. split; [by intros ? ?|].
    split; [exists []; by rewrite app_nil_r|]. split; [done|]. by intros ? [].
  - unfold Run.each. cbn [Run.mapSeries].
    destruct (loadedMigrations (this w) !! filename file) as [m|] eqn:Hm.
    + erewrite bind_returned; [|unfold load; run; rewrite Hm; reflexivity].
      destruct (IH w) as (w' & Hrun & Hv & Hk & Ht & Hkeys & Hall).
      exists w'. split; [exact Hrun|]. repeat split; try apply Hv; try done;
        destruct H as [<-|Hin]; try (by apply Hall).
      * apply Hkeys. by eapply modules_lookup_has_key.
      * intros _. eexists. by apply Hk.
    + erewrite bind_returned; [|unfold load; run; rewrite Hm; run; reflexivity].
      match goal with |- context [Run.mapSeries _ tt files ?w1] =>
        destruct (IH w1) as (w' & Hrun & Hv & Hk & Ht & Hkeys & Hall) end.
      exists w'. split; [exact Hrun|]. split; [apply Hv|].
      split; [|split; [|split]].
      * intros k m Hkm. apply Hk. cbn. rewrite modules_lookup_store_ne; [done|]. congruence.
      * destruct Ht as [evs Ht]. cbn in Ht. exists (EvRequire (location file) :: evs).
        by rewrite Ht, <- app_assoc.
      * intros name Hname. apply Hkeys. cbn. apply has_key_store. by right.
      * intros f [<-|Hin]; [|by apply Hall]. split.
        -- apply Hkeys. cbn. apply has_key_store. by left.
        -- intros [m Hreq]. exists m. apply Hk. cbn.
           by rewrite modules_lookup_store_eq.
Qed.

(** [getAllMigrations] returns the catalog, having read the core
    directory and stored, under the name of each file, what a file of that
    name exports. *)
Lemma getAllMigrations_returns w :
  exists w',
    getAllMigrations host w = Returned (catalog host) w'
    /\ keeps_versions w w' /\ keeps_modules w w'
    /\ (exists evs, trace w' = trace w ++ EvGlob (core_migrations_path host) :: evs)
    /\ forall file, In file (catalog host) ->
         has_key (loadedMigrations (this w')) (filename file)
         /\ (is_Some (require host (location file)) ->
             is_Some (loadedMigrations (this w') !! filename file)).
Proof.
  unfold getAllMigrations.
  erewrite bind_returned; [|reflexivity].
  destruct (module_migrations_returns (LOADED_MODULES (process host)) []
              (emit (EvGlob (core_migrations_path host)) w)) as (evs & Hmods).
  erewrite bind_returned; [|exact Hmods].
  cbn [app]. fold (catalog host).
  destruct (load_all_returns (catalog host) (emits evs (emit (EvGlob (core_migrations_path host)) w)))
    as (w' & Hload & Hv & Hk & [evs' Ht] & _ & Hall).
  erewrite bind_returned; [|exact Hload].
  exists w'. split; [done|]. split; [apply Hv|]. split; [exact Hk|].
  split; [|exact Hall].
  exists (evs ++ evs'). rewrite Ht. cbn. by rewrite <- !app_assoc.
Qed.

End Discovery.

(** ** Versions and status *)

Lemma filterMigrations_In this files currentVersion opts file :
  In file (filterMigrations this files currentVersion opts) -> In file files.
Proof.
  unfold filterMigrations. case_bool_decide; intros Hin.
  - by apply filter_In in Hin as [? _].
  - apply filter_In in Hin as [Hin _]. by apply filter_In in Hin as [? _].
Qed.

Lemma getMigrationsToExecute_In this cmd all file :
  In file (getMigrationsToExecute this cmd all) -> In file all.
Proof.
  unfold getMigrationsToExecute. intros H.
  eapply Permutation_in in H; [|apply sortBy_Permutation].
  rewrite !in_app_iff in H. destruct H as [H|[H|H]]; by eapply filterMigrations_In.
Qed.

(** Once the name of a file is a key, the file is selected only with a
    migration under that name. *)
Lemma filterMigrations_module this files currentVersion opts file :
  has_key (loadedMigrations this) (filename file) ->
  In file (filterMigrations this files currentVersion opts) ->
  is_Some (loadedMigrations this !! filename file).
Proof.
  intros Hkey%has_key_nonempty Hin. unfold filterMigrations in Hin.
  rewrite bool_decide_eq_false_2 in Hin by done.
  apply filter_In in Hin as [_ Hf]. unfold handler_filter in Hf.
  destruct (loadedMigrations this !! filename file) as [m|]; [by eexists|].
  exfalso. apply andb_true_iff in Hf as [Hf _]. apply andb_true_iff in Hf as [Hf _].
  apply orb_true_iff in Hf as [Hf|Hf]; apply andb_true_iff in Hf as [_ Hf];
    apply bool_decide_eq_true in Hf; by destruct Hf.
Qed.

Lemma getMigrationsToExecute_module this cmd all file :
  (forall f, In f all -> has_key (loadedMigrations this) (filename f)) ->
  In file (getMigrationsToExecute this cmd all) ->
  is_Some (loadedMigrations this !! filename file).
Proof.
  intros Hkeys Hin.
  pose proof (Hkeys file (getMigrationsToExecute_In _ _ _ _ Hin)) as Hkey.
  unfold getMigrationsToExecute in Hin.
  eapply Permutation_in in Hin; [|apply sortBy_Permutation].
  rewrite !in_app_iff in Hin.
  destruct Hin as [Hin|[Hin|Hin]]; by eapply filterMigrations_module.
Qed.

Section Status.

Context (host : Host).

Lemma detectAndSetupVersions_exits migrations w :
  invalid_target host = true ->
  detectAndSetupVersions host migrations w
  = Exited 0 (emit (EvLog error_level MsgInvalidTargetFormat) w).
Proof. intros H. unfold detectAndSetupVersions. rewrite H. reflexivity. Qed.

Lemma detectAndSetupVersions_returns migrations w :
  invalid_target host = false -> hooks_ok host migrations ->
  exists w',
    detectAndSetupVersions host migrations w = Returned tt w'
    /\ loadedMigrations (this w') = loadedMigrations (this w)
    /\ trace w' = trace w.
Proof.
  intros Hvalid Hhooks. unfold detectAndSetupVersions, set_versions, _getCurrentDbVersion.
  rewrite Hvalid. run. unfold hooks_ok in Hhooks.
  destruct (Js.truthy (Js.of_option (TESTMIG_DB_VERSION (process host)))); run;
    (destruct (Js.truthy _ || Js.truthy _);
     [destruct (Hhooks eq_refl) as [versions ->]|]; run;
     eexists; split; try reflexivity; done).
Qed.

Lemma each_log {A : Type} (l : Level) (g : A -> Message) (xs : list A) : forall w,
  Run.each (fun x => Run.log l (g x)) xs w
  = Returned tt (emits (map (fun x => EvLog l (g x)) xs) w).
Proof.
  induction xs as [|x xs IH]; intros w.
  - cbn. unfold emits. rewrite app_nil_r. by destruct w.
  - unfold Run.each. cbn [Run.mapSeries map].
    erewrite bind_returned; [|reflexivity].
    unfold Run.each in IH. rewrite IH. by rewrite emit_emits, emits_emits.
Qed.

Lemma listing_returns rollback migrations ty w :
  (Run.log warn_level (MsgTypeHeader ty);;
   let filtered := List.filter (fun x => bool_decide (type x = ty)) migrations in
   match filtered with
   | [] => Run.log warn_level MsgNoChange
   | _ => Run.each (fun x => Run.log warn_level (MsgChange rollback (description x))) filtered
   end) w
  = Returned tt (emits (listing rollback migrations ty) w).
Proof.
  erewrite bind_returned; [|reflexivity]. unfold listing. cbn zeta.
  destruct (List.filter _ migrations) as [|x filtered].
  - run. same_world.
  - rewrite each_log. by rewrite emit_emits, emits_emits.
Qed.

Lemma displayMigrationStatus_returns plan migrations w :
  mapM (fun x => info <$> loadedMigrations (this w) !! filename x) plan = Some migrations ->
  displayMigrationStatus host plan w = Returned tt (emits (status host (this w) migrations) w).
Proof.
  intros Hmap. unfold displayMigrationStatus.
  erewrite bind_returned; [|reflexivity]. rewrite Hmap.
  erewrite bind_returned; [|reflexivity].
  unfold types, status. unfold Run.each at 1. cbn [Run.mapSeries flat_map].
  do 3 (erewrite bind_returned; [|apply listing_returns]).
  unfold mret, M_ret.
  rewrite !emit_emits, !emits_emits. cbn. by rewrite ?app_nil_r, <- ?app_assoc.
Qed.

End Status.

(** ** [initialize] *)

Section Initialize.

Context (host : Host).

Lemma initialize_invalid_target w :
  yn (SKIP_MIGRATIONS (process host)) = false ->
  invalid_target host = true ->
  exists w1,
    getAllMigrations host w = Returned (catalog host) w1
    /\ initialize host w = Exited 0 (emit (EvLog error_level MsgInvalidTargetFormat) w1).
Proof.
  intros Hskip Hinv.
  destruct (getAllMigrations_returns host w) as (w1 & Hall & _).
  exists w1. split; [done|].
  unfold initialize. rewrite Hskip.
  erewrite bind_returned; [|exact Hall].
  unfold mbind at 1, M_bind at 1. by rewrite detectAndSetupVersions_exits.
Qed.

(** A run that gets to the status and has the dry-run directive. *)
Lemma initialize_dry_run w :
  MIGRATE_DRYRUN (process host) = true ->
  yn (SKIP_MIGRATIONS (process host)) = false ->
  invalid_target host = false ->
  hooks_ok host (catalog host) ->
  let plan := getMigrationsToExecute (this (detected host w)) (MIGRATE_CMD (process host))
                (catalog host) in
  plan <> [] \/ MIGRATE_CMD (process host) <> None ->
  exists migrations,
    mapM (fun x => info <$> loadedMigrations (this (detected host w)) !! filename x) plan
    = Some migrations
    /\ initialize host w = Exited 0 (emits (status host (this (detected host w)) migrations) (detected host w)).
Proof.
  intros Hdry Hskip Hvalid Hhooks plan Hplan.
  destruct (getAllMigrations_returns host w) as (w1 & Hall & _ & _ & _ & Hloaded).
  destruct (detectAndSetupVersions_returns host (catalog host) w1 Hvalid Hhooks)
    as (w2 & Hdetect & Hmods & _).
  assert (Hw2 : detected host w = w2).
  { unfold detected. erewrite bind_returned; [|exact Hall]. by rewrite Hdetect. }
  subst plan. rewrite Hw2 in *.
  set (plan := getMigrationsToExecute (this w2) (MIGRATE_CMD (process host)) (catalog host)) in *.
  assert (Hmap : is_Some (mapM (fun x => info <$> loadedMigrations (this w2) !! filename x) plan)).
  { apply mapM_is_Some. apply Forall_forall. intros file Hin%list_elem_of_In.
    apply getMigrationsToExecute_module in Hin as [m Hm];
      [|rewrite Hmods; intros f Hf; by apply Hloaded].
    cbn. rewrite Hm. by eexists. }
  destruct Hmap as [migrations Hmap]. exists migrations. split; [done|].
  unfold initialize. rewrite Hskip.
  erewrite bind_returned; [|exact Hall].
  erewrite bind_returned; [|exact Hdetect].
  erewrite bind_returned; [|reflexivity].
  fold plan.
  assert (Hgate : Nat.eqb (length plan) 0 && bool_decide (MIGRATE_CMD (process host) = None) = false).
  { destruct Hplan as [Hne|Hcmd].
    - destruct plan; [done|reflexivity].
    - rewrite (bool_decide_eq_false_2 _ Hcmd). apply andb_false_r. }
  rewrite Hgate.
  erewrite bind_returned; [|by apply displayMigrationStatus_returns].
  rewrite Hdry. reflexivity.
Qed.

Lemma quiet_initialize_dry_run :
  MIGRATE_DRYRUN (process host) = true -> quiet (initialize host).
Proof.
  intros Hdry. unfold initialize. rewrite Hdry.
  destruct (yn _); [apply quiet_ret|].
  apply quiet_bind; [apply quiet_getAllMigrations|intros allMigrations].
  apply quiet_bind; [apply quiet_detectAndSetupVersions|intros _].
  apply quiet_bind; [apply quiet_get|intros w].
  destruct (_ && _); [apply quiet_ret|].
  apply quiet_bind; [apply quiet_displayMigrationStatus|intros _].
  apply quiet_exit_bind.
Qed.

End Initialize.

Lemma status_lists host s migrations x :
  In x migrations ->
  In (EvLog warn_level (MsgChange (is_down (MIGRATE_CMD (process host))) (description x)))
     (status host s migrations).
Proof.
  intros Hin. unfold status. right. apply in_flat_map.
  exists (type x). split; [unfold types; destruct (type x); cbn; auto|].
  unfold listing. right.
  assert (Hx : In x (List.filter (fun y => bool_decide (type y = type x)) migrations)).
  { apply filter_In. split; [done|]. by apply bool_decide_eq_true. }
  destruct (List.filter _ migrations) as [|y l]; [done|].
  by apply (in_map (fun y => EvLog warn_level (MsgChange _ (description y)))).
Qed.

(** C2, as amended. With an explicit target that is not a version, and
    migrations not skipped, [initialize] exits at the check of the target,
    which comes after the discovery: the migration directories have been
    read and the name of every file of the catalog is a key of the loaded
    modules, holding a migration whenever the file exports one; no cache
    is cleared, no handler is called, no marker and no audit row is
    written. *)
Theorem invalid_target_exits_after_discovery (host : Host) (w : World) (t : string) :
  yn (SKIP_MIGRATIONS (process host)) = false ->
  MIGRATE_TARGET (process host) = Some t -> t <> "" -> Semver.valid t = false ->
  exists w',
    initialize host w = Exited 0 w'
    /\ quiet_step w w'
    /\ (exists evs, trace w' = trace w ++ EvGlob (core_migrations_path host) :: evs
                                ++ [EvLog error_level MsgInvalidTargetFormat])
    /\ forall file, In file (catalog host) ->
         has_key (loadedMigrations (this w')) (filename file)
         /\ (is_Some (require host (location file)) ->
             is_Some (loadedMigrations (this w') !! filename file)).
Proof.
  intros Hskip Ht Hne Hinv.
  assert (Hbad : invalid_target host = true).
  { unfold invalid_target. rewrite Ht. cbn. rewrite Hinv.
    destruct (String.eqb_spec t ""); done. }
  destruct (initialize_invalid_target host w Hskip Hbad) as (w1 & Hall & Hrun).
  destruct (getAllMigrations_returns host w) as (w1' & Hall' & _ & _ & [evs Ht1] & Hloaded).
  rewrite Hall in Hall'. injection Hall' as <-.
  eexists. split; [exact Hrun|]. split; [|split].
  - eapply quiet_step_trans.
    + pose proof (quiet_getAllMigrations host w) as Hq. rewrite Hall in Hq. exact Hq.
    + apply (quiet_log error_level MsgInvalidTargetFormat w1).
  - exists evs. cbn. rewrite Ht1. by rewrite <- app_assoc.
  - exact Hloaded.
Qed.

(** C8, as amended. A run with the dry-run directive calls no handler,
    clears no cache and writes no marker, however it ends.  When it gets to
    the status, that is when migrations are not skipped, the explicit
    target if any is a version, and there is something to migrate or a
    migration command was given, the status of the plan is logged, each
    planned unit on a line, and the process exits. *)
Theorem dry_run_changes_nothing (host : Host) (w : World) :
  MIGRATE_DRYRUN (process host) = true ->
  quiet_step w (final (initialize host w))
  /\ (yn (SKIP_MIGRATIONS (process host)) = false ->
      invalid_target host = false ->
      hooks_ok host (catalog host) ->
      let s := this (detected host w) in
      let plan := getMigrationsToExecute s (MIGRATE_CMD (process host)) (catalog host) in
      plan <> [] \/ MIGRATE_CMD (process host) <> None ->
      exists w',
        initialize host w = Exited 0 w'
        /\ In (EvLog warn_level
                 (MsgStatus true (configVersion s) (dbVersion s) (targetVersion s) (length plan)))
              (trace w')
        /\ forall file m,
             In file plan -> loadedMigrations s !! filename file = Some m ->
             In (EvLog warn_level
                   (MsgChange (is_down (MIGRATE_CMD (process host))) (description (info m))))
                (trace w')).
Proof.
  intros Hdry. split; [by apply quiet_initialize_dry_run|].
  intros Hskip Hvalid Hhooks s plan Hplan.
  destruct (initialize_dry_run host w Hdry Hskip Hvalid Hhooks Hplan)
    as (migrations & Hmap & Hrun).
  fold s plan in Hmap, Hrun.
  eexists. split; [exact Hrun|]. cbn [trace emits]. split.
  - apply in_or_app. right. unfold status. left.
    rewrite Hdry. by rewrite <- (length_mapM _ _ _ Hmap).
  - intros file m Hin Hm. apply in_or_app. right. apply status_lists.
    apply mapM_Some in Hmap.
    apply list_elem_of_In, list_elem_of_lookup in Hin as [i Hi].
    destruct (Forall2_lookup_l _ _ _ _ _ Hmap Hi) as (x & Hx & Hfx).
    rewrite Hm in Hfx. injection Hfx as <-.
    apply list_elem_of_In. by eapply list_elem_of_lookup_2.
Qed.

Lemma invalid_target_exits_after_discovery_witness :
  let host := Fixture.machine (Fixture.directives (Some "not-a-version") (Some "up") false)
                [Example.a; Example.b; Example.c] Example.modules None in
  let w := Fixture.boot host "1.0.0" ["1.0.0"] in
  Semver.valid "not-a-version" = false
  /\ exists w', initialize host w = Exited 0 w' /\ quiet_step w w'.
Proof.
  cbn zeta.
  assert (Hinv : Semver.valid "not-a-version" = false) by (vm_compute; reflexivity).
  split; [exact Hinv|].
  destruct (invalid_target_exits_after_discovery
              (Fixture.machine (Fixture.directives (Some "not-a-version") (Some "up") false)
                 [Example.a; Example.b; Example.c] Example.modules None)
              (Fixture.boot
                 (Fixture.machine (Fixture.directives (Some "not-a-version") (Some "up") false)
                    [Example.a; Example.b; Example.c] Example.modules None)
                 "1.0.0" ["1.0.0"])
              "not-a-version")
    as (w' & Hrun & Hquiet & _); [reflexivity|reflexivity|discriminate|exact Hinv|].
  exists w'. split; [exact Hrun|exact Hquiet].
Defined.

(** C2 as stated fails: with the target [not-a-version] the run exits, but
    only after the core directory has been read and the three modules
    loaded. *)
Lemma invalid_target_counterexample :
  let host := Fixture.machine (Fixture.directives (Some "not-a-version") (Some "up") false)
                [Example.a; Example.b; Example.c] Example.modules None in
  let w := Fixture.boot host "1.0.0" ["1.0.0"] in
  let outcome := initialize host w in
  outcome = Exited 0 (final outcome)
  /\ trace (final outcome)
     = [EvGlob "migrations";
        EvRequire (location Example.c); EvRequire (location Example.b);
        EvRequire (location Example.a);
        EvLog error_level MsgInvalidTargetFormat]
  /\ loadedMigrations (this w) = ∅
  /\ loadedMigrations (this (final outcome)) = Example.modules.
Proof.
  cbn zeta. split; [|split; [|split]]; vm_compute; reflexivity.
Qed.

Lemma dry_run_changes_nothing_witness :
  let host := Fixture.machine (Fixture.directives None (Some "up") true)
                [Example.a; Example.b; Example.c] Example.modules None in
  let w := Fixture.boot host "1.0.0" ["1.0.0"] in
  quiet_step w (final (initialize host w))
  /\ exists w',
       initialize host w = Exited 0 w'
       /\ In (EvLog warn_level (MsgStatus true (JStr "1.0.0") (JStr "1.0.0") (JStr "1.2.0") 2))
             (trace w').
Proof.
  cbn zeta.
  destruct (dry_run_changes_nothing
              (Fixture.machine (Fixture.directives None (Some "up") true)
                 [Example.a; Example.b; Example.c] Example.modules None)
              (Fixture.boot
                 (Fixture.machine (Fixture.directives None (Some "up") true)
                    [Example.a; Example.b; Example.c] Example.modules None)
                 "1.0.0" ["1.0.0"])
              eq_refl) as [Hquiet Hstatus].
  split; [exact Hquiet|].
  destruct Hstatus as (w' & Hrun & Hbanner & _).
  - reflexivity.
  - vm_compute. reflexivity.
  - intros H. vm_compute in H. discriminate H.
  - right. discriminate.
  - exists w'. split; [exact Hrun|].
    vm_compute in Hbanner. vm_compute. exact Hbanner.
Defined.

(** C8 as stated fails for the display: a dry run of the command [up] with
    the target [not-a-version] exits at the check of the target, and no
    status of the plan is logged. *)
Lemma dry_run_counterexample :
  let host := Fixture.machine (Fixture.directives (Some "not-a-version") (Some "up") true)
                [Example.a; Example.b; Example.c] Example.modules None in
  let w := Fixture.boot host "1.0.0" ["1.0.0"] in
  let outcome := initialize host w in
  MIGRATE_DRYRUN (process host) = true
  /\ outcome = Exited 0 (final outcome)
  /\ List.filter (fun e => match e with EvLog _ (MsgStatus _ _ _ _ _) => true | _ => false end)
       (trace (final outcome)) = [].
Proof.
  cbn zeta. split; [|split]; vm_compute; reflexivity.
Qed.

(** ** Scenarios *)

(** Versions as [semver.valid] sees them. *)
Example valid_versions :
  Semver.parse "v12.10.3-beta.1+b7"
  = Some (Semver.mk 12 10 3 [Semver.Alphanum "beta"; Semver.Numeric 1])
  /\ Semver.valid "12.0.0" = true
  /\ Semver.valid "not-a-version" = false
  /\ Semver.valid "1.2" = false
  /\ Semver.valid "01.2.3" = false
  /\ Semver.valid "1.2.3-01" = false.
Proof. vm_compute. repeat split. Qed.

(** A prerelease of a version inside the interval does not satisfy a
    range whose bounds have no prerelease tag. *)
Example prerelease_outside_range :
  Semver.satisfies (Some "1.1.0") [(Semver.OpGt, "1.0.0"); (Semver.OpLte, "1.2.0")] = true
  /\ Semver.satisfies (Some "1.1.0-beta") [(Semver.OpGt, "1.0.0"); (Semver.OpLte, "1.2.0")]
     = false.
Proof. vm_compute. split; reflexivity. Qed.

(** An upgrade from 1.0.0 to 1.2.0 with the three files in the catalog:
    [b] and [a] run in the order of their dates, [c] is beyond the target,
    and both markers end at 1.2.0. *)
Example upgrade_run :
  let host := Fixture.machine Fixture.plain [Example.a; Example.b; Example.c]
                Example.modules None in
  let outcome := initialize host (Fixture.boot host "1.0.0" ["1.0.0"]) in
  outcome = Returned tt (final outcome)
  /\ calls (trace (final outcome)) = [EvUp (filename Example.b); EvUp (filename Example.a)]
  /\ botpress_config_version (final outcome) = JStr "1.2.0"
  /\ srv_metadata (final outcome) = [JStr "1.2.0"; JStr "1.0.0"]
  /\ cache_exists (final outcome) = false.
Proof. cbn zeta. split; [|split; [|split; [|split]]]; vm_compute; reflexivity. Qed.

(** A downgrade from 1.2.0 to 1.0.0: [b] is rolled back, [a] has no [down]
    and is left out. *)
Example downgrade_run :
  let host := Fixture.machine (Fixture.directives (Some "1.0.0") (Some "down") false)
                [Example.a; Example.b; Example.c] Example.modules None in
  let outcome := initialize host (Fixture.boot host "1.2.0" ["1.2.0"]) in
  outcome = Exited 0 (final outcome)
  /\ calls (trace (final outcome)) = [EvDown (filename Example.b)]
  /\ botpress_config_version (final outcome) = JStr "1.0.0"
  /\ srv_metadata (final outcome) = [JStr "1.0.0"; JStr "1.2.0"].
Proof. cbn zeta. split; [|split; [|split]]; vm_compute; reflexivity. Qed.

(** * Further properties *)

(** ** The order of versions *)

Lemma Order_N : Order N.compare.
Proof.
  split.
  - apply N.compare_eq_iff.
  - intros a b. apply N.compare_antisym.
  - intros a b c. rewrite !N.compare_lt_iff. lia.
Qed.

Lemma Order_string : Order String.compare.
Proof.
  split.
  - intros a b. split; [apply String.compare_eq_iff|intros ->].
    apply (proj2 (OrderedTypeEx.String_as_OT.cmp_eq b b)). reflexivity.
  - apply String.compare_antisym.
  - intros a b c Hab Hbc.
    apply OrderedTypeEx.String_as_OT.cmp_lt.
    eapply OrderedTypeEx.String_as_OT.lt_trans;
      by apply OrderedTypeEx.String_as_OT.cmp_lt.
Qed.

Lemma order_refl {A : Type} (cmp : A -> A -> comparison) (a : A) : Order cmp -> cmp a a = Eq.
Proof. intros H. by apply (order_eq cmp H). Qed.

Lemma order_gt {A : Type} (cmp : A -> A -> comparison) (a b : A) :
  Order cmp -> cmp a b = Gt <-> cmp b a = Lt.
Proof. intros H. rewrite (order_antisym cmp H a b). by destruct (cmp b a). Qed.

Lemma Order_ident : Order Semver.compare_ident.
Proof.
  split.
  - intros [x|x] [y|y]; cbn; split; try done.
    + intros ->%N.compare_eq_iff. done.
    + intros [= ->]. apply N.compare_refl.
    + intros ->%String.compare_eq_iff. done.
    + intros [= ->]. apply (order_refl _ _ Order_string).
  - intros [x|x] [y|y]; cbn; try done.
    + apply N.compare_antisym.
    + apply String.compare_antisym.
  - intros [x|x] [y|y] [z|z]; cbn; try done.
    + apply (order_trans _ Order_N).
    + apply (order_trans _ Order_string).
Qed.

Lemma Order_pre_list : Order Semver.compare_pre_list.
Proof.
  pose proof Order_ident as Hi.
  split.
  - induction a as [|x a IH]; intros [|y b]; cbn; split; try done.
    + destruct (Semver.compare_ident x y) eqn:Hxy; try done.
      apply (order_eq _ Hi) in Hxy as ->. by intros ->%IH.
    + intros [= -> ->]. rewrite (order_refl _ _ Hi). by apply IH.
  - induction a as [|x a IH]; intros [|y b]; cbn; try done.
    rewrite (order_antisym _ Hi x y), IH.
    by destruct (Semver.compare_ident y x).
  - induction a as [|x a IH]; intros [|y b] [|z c]; cbn; try done.
    destruct (Semver.compare_ident x y) eqn:Hxy; try done;
      destruct (Semver.compare_ident y z) eqn:Hyz; try done.
    + apply (order_eq _ Hi) in Hxy as ->. rewrite Hyz. apply IH.
    + apply (order_eq _ Hi) in Hxy as ->. by rewrite Hyz.
    + apply (order_eq _ Hi) in Hyz as <-. by rewrite Hxy.
    + by rewrite (order_trans _ Hi x y z Hxy Hyz).
Qed.

Lemma Order_pre : Order Semver.compare_pre.
Proof.
  pose proof Order_pre_list as Hl.
  split.
  - intros [|x a] [|y b]; try (split; done). apply (order_eq _ Hl (x :: a) (y :: b)).
  - intros [|x a] [|y b]; try done. apply (order_antisym _ Hl (x :: a) (y :: b)).
  - intros [|x a] [|y b] [|z c]; try done.
    apply (order_trans _ Hl (x :: a) (y :: b) (z :: c)).
Qed.

(** [semver.compare] is a strict total order on versions. *)
Lemma Order_semver : Order Semver.compare.
Proof.
  pose proof Order_pre as Hp.
  split.
  - intros [a1 a2 a3 a4] [b1 b2 b3 b4]. unfold Semver.compare, Semver.compare_main. cbn.
    split.
    + destruct (N.compare_spec a1 b1); try done.
      destruct (N.compare_spec a2 b2); try done.
      destruct (N.compare_spec a3 b3); try done.
      intros ->%(order_eq _ Hp). by subst.
    + intros [= -> -> -> ->]. rewrite !N.compare_refl. apply (order_refl _ _ Hp).
  - intros [a1 a2 a3 a4] [b1 b2 b3 b4]. unfold Semver.compare, Semver.compare_main. cbn.
    rewrite (N.compare_antisym b1 a1), (N.compare_antisym b2 a2), (N.compare_antisym b3 a3),
      (order_antisym _ Hp a4 b4).
    by destruct (b1 ?= a1)%N, (b2 ?= a2)%N, (b3 ?= a3)%N.
  - intros [a1 a2 a3 a4] [b1 b2 b3 b4] [c1 c2 c3 c4].
    unfold Semver.compare, Semver.compare_main. cbn.
    destruct (N.compare_spec a1 b1), (N.compare_spec b1 c1); try done; subst;
      rewrite ?N.compare_refl; try (destruct (N.compare_spec b1 c1); try done; lia);
      try (destruct (N.compare_spec a1 b1); try done; lia);
      try (destruct (N.compare_spec a1 c1); try done; lia).
    destruct (N.compare_spec a2 b2), (N.compare_spec b2 c2); try done; subst;
      rewrite ?N.compare_refl; try (destruct (N.compare_spec b2 c2); try done; lia);
      try (destruct (N.compare_spec a2 b2); try done; lia);
      try (destruct (N.compare_spec a2 c2); try done; lia).
    destruct (N.compare_spec a3 b3), (N.compare_spec b3 c3); try done; subst;
      rewrite ?N.compare_refl; try (destruct (N.compare_spec b3 c3); try done; lia);
      try (destruct (N.compare_spec a3 b3); try done; lia);
      try (destruct (N.compare_spec a3 c3); try done; lia).
    apply (order_trans _ Hp).
Qed.


Lemma lte_trans (a b c : Semver.t) :
  Semver.lte a b = true -> Semver.lte b c = true -> Semver.lte a c = true.
Proof.
  pose proof Order_semver as Ho. unfold Semver.lte.
  destruct (Semver.compare a b) eqn:Hab; try done;
    destruct (Semver.compare b c) eqn:Hbc; try done; intros _ _.
  - apply (order_eq _ Ho) in Hab as ->. by rewrite Hbc.
  - apply (order_eq _ Ho) in Hab as ->. by rewrite Hbc.
  - apply (order_eq _ Ho) in Hbc as <-. by rewrite Hab.
  - by rewrite (order_trans _ Ho a b c Hab Hbc).
Qed.

(** Nothing lies in [(lo, hi]] when [hi] is not above [lo]. *)
Lemma between_empty (lo hi v : Semver.t) :
  Semver.lte hi lo = true -> ~ Spec.between lo hi v.
Proof.
  intros Hle [Hgt Hnot].
  assert (Hv : Semver.lte v hi = true).
  { unfold Semver.lte. by destruct (Semver.compare v hi). }
  pose proof (lte_trans v hi lo Hv Hle) as Hvl. unfold Semver.lte in Hvl.
  by rewrite Hgt in Hvl.
Qed.

(** ** What [filterMigrations] returns *)

(** A version that satisfies the range [>lo <=hi], the bounds being full
    versions, lies in the interval [(lo, hi]]. *)
Lemma satisfies_inv (version : option string) (lo hi : string) (l h : Semver.t) :
  Semver.parse lo = Some l -> Semver.parse hi = Some h ->
  Semver.satisfies version [(Semver.OpGt, lo); (Semver.OpLte, hi)] = true ->
  exists v, version ≫= Semver.parse = Some v /\ Spec.between l h v.
Proof.
  intros Hl Hh. unfold Semver.satisfies.
  destruct (version ≫= Semver.parse) as [v|]; [|done].
  cbn. unfold Semver.parse_comparator. cbn.
  rewrite Hl, Hh. cbn.
  unfold Semver.test; cbn. rewrite andb_true_r. intros [H _]%andb_true_iff.
  exists v. split; [done|]. by apply gt_lte_between.
Qed.

Lemma filterMigrations_in_range this files currentVersion opts file :
  In file (filterMigrations this files currentVersion opts) ->
  In file files /\ in_range this (isDown opts) currentVersion file = true.
Proof.
  unfold filterMigrations. case_bool_decide; intros Hin.
  - by apply filter_In in Hin.
  - apply filter_In in Hin as [Hin _]. by apply filter_In in Hin.
Qed.

Lemma getMigrationsToExecute_in_range this cmd all file :
  In file (getMigrationsToExecute this cmd all) ->
  In file all
  /\ (in_range this (is_down cmd) (dbVersion this) file = true
      \/ in_range this (is_down cmd) (configVersion this) file = true).
Proof.
  unfold getMigrationsToExecute. intros H.
  eapply Permutation_in in H; [|apply sortBy_Permutation].
  rewrite !in_app_iff in H.
  destruct H as [H|[H|H]]; apply filterMigrations_in_range in H as [? ?]; auto.
Qed.

(** X1. A file whose version is [null], its name not starting with a
    version, is never returned by [filterMigrations] and never planned:
    whatever the markers, the direction and the modules loaded. *)
Theorem null_version_never_planned (this : MigrationService) (files : list MigrationFile)
    (file : MigrationFile) :
  version file = None ->
  (forall currentVersion opts, ~ In file (filterMigrations this files currentVersion opts))
  /\ (forall cmd, ~ In file (getMigrationsToExecute this cmd files)).
Proof.
  intros Hnull.
  assert (Hout : forall rollback cur, in_range this rollback cur file = false).
  { intros rollback cur. unfold in_range, Semver.satisfies. by rewrite Hnull. }
  split.
  - intros cur opts [_ Hin]%filterMigrations_in_range. by rewrite Hout in Hin.
  - intros cmd [_ [Hin|Hin]]%getMigrationsToExecute_in_range; by rewrite Hout in Hin.
Qed.

Lemma null_version_never_planned_witness :
  let stray := {| date := 5; version := None; location := "migrations/README.js";
                  filename := "README.js"; title := "" |} in
  version stray = None
  /\ ~ In stray (getMigrationsToExecute (Example.service "1.2.0" "1.0.0" "1.0.0") None
                   [stray; Example.a; Example.b]).
Proof.
  cbn zeta. split; [reflexivity|].
  apply (null_version_never_planned (Example.service "1.2.0" "1.0.0" "1.0.0")
           [ {| date := 5; version := None; location := "migrations/README.js";
                filename := "README.js"; title := "" |}; Example.a; Example.b ]
           {| date := 5; version := None; location := "migrations/README.js";
              filename := "README.js"; title := "" |} eq_refl).
Defined.

(** X2. For the same markers, both of them full versions, no file is
    selected both for an upgrade and for a downgrade. *)
Theorem directions_exclusive (this : MigrationService) (files : list MigrationFile)
    (currentVersion : jsval) (ty ty' : option MigrationType) (tg tg' : option MigrationTarget)
    (file : MigrationFile) (c t : Semver.t) :
  Semver.parse (Js.interpolate currentVersion) = Some c ->
  Semver.parse (Js.interpolate (targetVersion this)) = Some t ->
  In file (filterMigrations this files currentVersion
             {| isDown := false; opt_type := ty; opt_target := tg |}) ->
  ~ In file (filterMigrations this files currentVersion
               {| isDown := true; opt_type := ty'; opt_target := tg' |}).
Proof.
  intros Hc Ht [_ Hup]%filterMigrations_in_range [_ Hdown]%filterMigrations_in_range.
  unfold in_range, comparator in *. cbn [isDown] in *.
  apply (satisfies_inv _ _ _ c t Hc Ht) in Hup as (v & Hv & _ & Hle).
  apply (satisfies_inv _ _ _ t c Ht Hc) in Hdown as (v' & Hv' & Hgt & _).
  rewrite Hv in Hv'. injection Hv' as <-.
  done.
Qed.

Lemma directions_exclusive_witness :
  let this := Example.service "1.2.0" "1.0.0" "1.0.0" in
  let files := [Example.a; Example.b; Example.c] in
  In Example.b (filterMigrations this files (JStr "1.0.0") default_options)
  /\ ~ In Example.b (filterMigrations this files (JStr "1.0.0")
                       {| isDown := true; opt_type := None; opt_target := None |}).
Proof.
  cbn zeta.
  assert (H : In Example.b (filterMigrations (Example.service "1.2.0" "1.0.0" "1.0.0")
                              [Example.a; Example.b; Example.c] (JStr "1.0.0") default_options)).
  { vm_compute. right. left. reflexivity. }
  split; [exact H|].
  apply (directions_exclusive _ _ _ None None None None _
           (Semver.mk 1 0 0 []) (Semver.mk 1 2 0 [])); [vm_compute; reflexivity..|exact H].
Defined.

(** X3. An upgrade whose target is not above the markers plans nothing, and
    so does a downgrade whose target is not below them: the service never
    turns one direction into the other. *)
Theorem wrong_side_target_plans_nothing (this : MigrationService) (cmd : option string)
    (all : list MigrationFile) (t cfg db : Semver.t) :
  Semver.parse (Js.interpolate (targetVersion this)) = Some t ->
  Semver.parse (Js.interpolate (configVersion this)) = Some cfg ->
  Semver.parse (Js.interpolate (dbVersion this)) = Some db ->
  (if is_down cmd
   then Semver.lte cfg t && Semver.lte db t
   else Semver.lte t cfg && Semver.lte t db) = true ->
  getMigrationsToExecute this cmd all = [].
Proof.
  intros Ht Hcfg Hdb Hside.
  destruct (getMigrationsToExecute this cmd all) as [|file plan] eqn:Hplan; [done|].
  exfalso.
  assert (Hin : In file (getMigrationsToExecute this cmd all)) by (rewrite Hplan; by left).
  apply getMigrationsToExecute_in_range in Hin as [_ Hin].
  unfold in_range, comparator in Hin.
  destruct (is_down cmd); apply andb_true_iff in Hside as [Hc Hd];
    destruct Hin as [Hin|Hin];
    (eapply satisfies_inv in Hin as (v & _ & Hb); [|eassumption..]);
    (eapply between_empty; [|exact Hb]; assumption).
Qed.

Lemma wrong_side_target_plans_nothing_witness :
  getMigrationsToExecute (Example.service "1.0.0" "1.2.0" "1.3.0") (Some "up")
    [Example.a; Example.b; Example.c] = [].
Proof.
  apply (wrong_side_target_plans_nothing (Example.service "1.0.0" "1.2.0" "1.3.0") (Some "up")
           [Example.a; Example.b; Example.c]
           (Semver.mk 1 0 0 []) (Semver.mk 1 2 0 []) (Semver.mk 1 3 0 []));
    vm_compute; reflexivity.
Defined.

(** ** Discovery, again *)

Section DiscoveryFacts.

Context (host : Host).

Lemma module_migrations_reads (modules : list (string * string)) : forall acc w,
  Run.mapSeries
    (fun acc module => found ← _getMigrations host (path_join (snd module) "dist/migrations");
                       mret (acc ++ found))
    acc modules w
  = Returned
      (acc ++ flat_map (fun module =>
                 Js.sortBy date (glob host (path_join (snd module) "dist/migrations"))) modules)
      (emits (map (fun module => EvGlob (path_join (snd module) "dist/migrations")) modules) w).
Proof.
  induction modules as [|module modules IH]; intros acc w.
  - cbn. rewrite app_nil_r. unfold emits. rewrite app_nil_r. by destruct w.
  - cbn [Run.mapSeries flat_map map].
    erewrite bind_returned; [|erewrite bind_returned; reflexivity].
    rewrite IH. by rewrite emit_emits, emits_emits, app_assoc.
Qed.

Lemma load_all_modules (files : list MigrationFile) : forall w,
  exists w',
    Run.each (load host) files w = Returned tt w'
    /\ forall name,
         loadedMigrations (this w') !! name
         = loaded_after host (loadedMigrations (this w)) files name.
Proof.
  induction files as [|file files IH]; intros w.
  - exists w. split; [done|]. intros name. unfold loaded_after. cbn.
    by destruct (_ !! name).
  - unfold Run.each. cbn [Run.mapSeries].
    destruct (loadedMigrations (this w) !! filename file) as [m|] eqn:Hm.
    + erewrite bind_returned; [|unfold load; run; rewrite Hm; reflexivity].
      destruct (IH w) as (w' & Hrun & Hmap). exists w'. split; [exact Hrun|].
      intros name. rewrite Hmap. unfold loaded_after.
      destruct (loadedMigrations (this w) !! name) eqn:Hname; [done|].
      cbn [omap list_omap].
      destruct (String.eqb_spec (filename file) name) as [<-|_]; [congruence|done].
    + erewrite bind_returned; [|unfold load; run; rewrite Hm; run; reflexivity].
      match goal with |- context [Run.mapSeries _ tt files ?w1] =>
        destruct (IH w1) as (w' & Hrun & Hmap) end.
      exists w'. split; [exact Hrun|].
      intros name. rewrite Hmap. unfold loaded_after.
      cbn [this set_this loadedMigrations omap list_omap].
      destruct (String.eqb_spec (filename file) name) as [<-|Hne].
      * rewrite modules_lookup_store_eq, Hm.
        by destruct (require host (location file)).
      * by rewrite modules_lookup_store_ne.
Qed.

(** A discovery that follows another one: the files whose name holds no
    migration export none, and are required again to no avail. *)
Lemma load_all_again (files : list MigrationFile) : forall w,
  (forall file, In file files ->
     loadedMigrations (this w) !! filename file = None ->
     has_key (loadedMigrations (this w)) (filename file)
     /\ require host (location file) = None) ->
  Run.each (load host) files w
  = Returned tt (emits (required_again (loadedMigrations (this w)) files) w).
Proof.
  induction files as [|file files IH]; intros w Hall.
  - cbn. unfold emits. rewrite app_nil_r. by destruct w.
  - unfold Run.each, required_again. cbn [Run.mapSeries List.filter].
    destruct (loadedMigrations (this w) !! filename file) as [m|] eqn:Hm.
    + erewrite bind_returned; [|unfold load; run; rewrite Hm; reflexivity].
      rewrite bool_decide_eq_false_2 by done.
      apply IH. intros f Hf. apply Hall. by right.
    + destruct (Hall file (or_introl eq_refl) Hm) as [Hkey Hreq].
      assert (Hsame : store (filename file) None (loadedMigrations (this w))
                      = loadedMigrations (this w)).
      { apply store_same. by apply has_key_undefined. }
      erewrite bind_returned;
        [|unfold load; run; rewrite Hm, Hreq; run; reflexivity].
      rewrite bool_decide_eq_true_2 by done. cbn [map].
      assert (Hw1 : set_this
                      (fun s => {| targetVersion := targetVersion s;
                                   configVersion := configVersion s;
                                   dbVersion := dbVersion s;
                                   loadedMigrations :=
                                     store (filename file) None (loadedMigrations s) |})
                      (emit (EvRequire (location file)) w)
                    = emit (EvRequire (location file)) w).
      { unfold set_this, emit. cbn. rewrite Hsame. by destruct w as [[]]. }
      unfold Run.each in IH. rewrite Hw1, IH.
      * unfold required_again. cbn [this emit]. f_equal. unfold emits, emit. cbn.
        by rewrite <- app_assoc.
      * intros f Hf. cbn [this emit]. apply Hall. by right.
Qed.

End DiscoveryFacts.

(** X4. [getAllMigrations] returns the catalog and leaves, under every file
    name, the migration that was there before the call if there was one,
    and otherwise the first migration that a file of that name exports,
    the files taken in the order of the catalog: a migration is never
    replaced, a file that exports nothing leaves its name for the next
    file of that name, and every name of the catalog has become a key. *)
Theorem getAllMigrations_loads (host : Host) (w : World) :
  exists w',
    getAllMigrations host w = Returned (catalog host) w'
    /\ (forall name,
          loadedMigrations (this w') !! name
          = loaded_after host (loadedMigrations (this w)) (catalog host) name)
    /\ (forall file, In file (catalog host) ->
          has_key (loadedMigrations (this w')) (filename file)).
Proof.
  destruct (getAllMigrations_returns host w) as (w1 & Hrun & _ & _ & _ & Hkeys).
  exists w1. split; [exact Hrun|]. split; [|intros file Hin; by apply Hkeys].
  revert Hrun. unfold getAllMigrations.
  erewrite bind_returned; [|reflexivity].
  erewrite bind_returned; [|apply module_migrations_reads].
  cbn [app]. fold (catalog host).
  match goal with |- context [(Run.each (load host) (catalog host) ≫= ?k) ?w1] =>
    destruct (load_all_modules host (catalog host) w1) as (w' & Hload & Hmap) end.
  erewrite bind_returned; [|exact Hload].
  intros [= <-]. exact Hmap.
Qed.

(** X5. Once a discovery has been made, another one reads the directories
    again and requires again the files whose name holds no migration,
    which are files that export none: the catalog returned is the same and
    the service is left as it was. *)
Theorem getAllMigrations_again (host : Host) (w : World) :
  let w1 := final (getAllMigrations host w) in
  getAllMigrations host w1
  = Returned (catalog host)
      (emits (discovery_reads host
              ++ required_again (loadedMigrations (this w1)) (catalog host)) w1)
  /\ forall file, In file (catalog host) ->
       loadedMigrations (this w1) !! filename file = None ->
       require host (location file) = None.
Proof.
  cbn zeta.
  destruct (getAllMigrations_returns host w) as (w1 & Hfirst & _ & _ & _ & Hloaded).
  rewrite Hfirst. cbn [final].
  assert (Hnone : forall file, In file (catalog host) ->
            loadedMigrations (this w1) !! filename file = None ->
            has_key (loadedMigrations (this w1)) (filename file)
            /\ require host (location file) = None).
  { intros file Hin Hm. destruct (Hloaded file Hin) as [Hkey Hreq]. split; [exact Hkey|].
    destruct (require host (location file)) as [m|]; [|done].
    destruct Hreq as [m' Hm']; [by eexists|congruence]. }
  split; [|intros file Hin Hm; by apply Hnone].
  unfold getAllMigrations.
  erewrite bind_returned; [|reflexivity].
  erewrite bind_returned; [|apply module_migrations_reads].
  cbn [app]. fold (catalog host).
  erewrite bind_returned; [|by apply load_all_again].
  unfold mret, M_ret, discovery_reads. cbn [this emits emit].
  by rewrite emit_emits, !emits_emits.
Qed.

(** A file that exports nothing: its name becomes a key that holds no
    migration, and the next discovery requires the file again. *)
Example discovery_without_export :
  let host := Fixture.machine Fixture.plain [Example.c; Example.b; Example.a]
                Variant.without_b None in
  let w1 := final (getAllMigrations host (Fixture.boot host "1.0.0" ["1.0.0"])) in
  loadedMigrations (this w1) !! filename Example.b = None
  /\ loadedMigrations (this w1) <> ∅
  /\ entries (loadedMigrations (this w1)) !! filename Example.b = Some None
  /\ trace (final (getAllMigrations host w1))
     = trace w1 ++ [EvGlob "migrations"; EvRequire (location Example.b)].
Proof.
  cbn zeta. split; [|split; [|split]]; try (vm_compute; reflexivity).
  intros H. apply (f_equal (fun m => m !! filename Example.a)) in H.
  vm_compute in H. discriminate.
Qed.

(** ** The calls of a run *)

Ltac calls_shown :=
  rewrite <- ?app_assoc, ?calls_app; cbn; rewrite ?app_nil_r;
  split; [reflexivity|]; split; [auto|]; intros; try reflexivity; try discriminate.

Section Calls.

Context (host : Host).

(** Whatever becomes of it, [run_one] does not leave the process, keeps
    the service and the stores, and adds to the trace at most the call of
    its own unit, none when the unit is ignored and one when it returns for
    a unit that is not. *)
Lemma run_one_frame rollback b file w :
  let o := run_one host rollback b file w in
  (forall c w', o <> Exited c w')
  /\ this (final o) = this w
  /\ botpress_config_version (final o) = botpress_config_version w
  /\ srv_metadata (final o) = srv_metadata w
  /\ exists cs,
       calls (trace (final o)) = calls (trace w) ++ cs
       /\ (cs = [] \/ cs = [call rollback (filename file)]
                      /\ ignored host (filename file) = false)
       /\ forall b' w', o = Returned b' w' ->
            cs = if ignored host (filename file) then [] else [call rollback (filename file)].
Proof.
  cbn zeta. unfold run_one.
  destruct (ignored host (filename file)) eqn:Hi.
  { run. repeat split; try done. exists []. calls_shown. }
  run.
  destruct rollback; destruct (loadedMigrations (this w) !! filename file) as [m|]; run;
    try (repeat split; try done; exists []; calls_shown).
  - destruct (down m) as [[r|reason]|]; run.
    + destruct (success r); run; (repeat split; try done);
        exists [EvDown (filename file)]; calls_shown.
    + repeat split; try done. exists [EvDown (filename file)]. calls_shown.
    + repeat split; try done. exists []. calls_shown.
  - destruct (up m) as [r|reason]; run.
    + destruct (success r); run; (repeat split; try done);
        exists [EvUp (filename file)]; calls_shown.
    + repeat split; try done. exists [EvUp (filename file)]. calls_shown.
Qed.

Lemma mapSeries_frame rollback plan : forall b w,
  let o := Run.mapSeries (run_one host rollback) b plan w in
  (forall c w', o <> Exited c w')
  /\ this (final o) = this w
  /\ botpress_config_version (final o) = botpress_config_version w
  /\ srv_metadata (final o) = srv_metadata w
  /\ exists cs rest,
       calls (trace (final o)) = calls (trace w) ++ cs
       /\ called host rollback plan = cs ++ rest
       /\ forall b' w', o = Returned b' w' -> rest = [].
Proof.
  induction plan as [|file plan IH]; intros b w; cbn zeta.
  - cbn. repeat split; try done. exists [], []. by rewrite app_nil_r.
  - cbn [Run.mapSeries]. unfold mbind, M_bind.
    destruct (run_one_frame rollback b file w)
      as (Hexit & Hthis & Hcfg & Hdb & cs & Hcalls & Hcs & Hret).
    cbn zeta in *.
    assert (Hcalled : called host rollback (file :: plan)
                      = (if ignored host (filename file) then []
                         else [call rollback (filename file)]) ++ called host rollback plan).
    { unfold called. cbn. by destruct (ignored host (filename file)). }
    destruct (run_one host rollback b file w) as [b1 w1|c w1|e w1] eqn:Hone; cbn in *.
    + destruct (IH b1 w1) as (Hexit' & Hthis' & Hcfg' & Hdb' & cs' & rest & Hcalls' & Hplan & Hret').
      cbn zeta in *.
      split; [done|]. split; [congruence|]. split; [congruence|]. split; [congruence|].
      exists (cs ++ cs'), rest. rewrite Hcalls', Hcalls, Hcalled, Hplan.
      rewrite (Hret b1 w1 eq_refl). rewrite <- !app_assoc. repeat split; try done.
    + by destruct (Hexit c w1).
    + split; [done|]. do 3 (split; [done|]).
      exists cs. rewrite Hcalled. destruct Hcs as [->|[-> Hi]].
      * eexists. repeat split; try done.
      * rewrite Hi. eexists. repeat split; try done.
Qed.

End Calls.

Lemma bind_thrown {A B : Type} (m : M A) (k : A -> M B) w e w' :
  m w = Thrown e w' -> (m ≫= k) w = Thrown e w'.
Proof. intros H. unfold mbind, M_bind. by rewrite H. Qed.

Lemma bind_exited {A B : Type} (m : M A) (k : A -> M B) w c w' :
  m w = Exited c w' -> (m ≫= k) w = Exited c w'.
Proof. intros H. unfold mbind, M_bind. by rewrite H. Qed.

Section ExecuteMore.

Context (host : Host).

Lemma prologue_trace count w :
  trace (prologue host count w)
  = trace w ++ EvLog info_level (MsgExecuting count) :: cache_events host w
  /\ cache_exists (prologue host count w)
     = cache_exists w
       && negb (cache_attempt host w && bool_decide (removeSync_error host = None)).
Proof.
  unfold prologue, clear_cache, cache_events, cache_attempt. run.
  destruct (APP_DATA_PATH (process host)) as [p|]; run.
  - destruct (negb (String.eqb p "")); cbn;
      [destruct (cache_exists w) eqn:Hc; cbn|]; run;
      [destruct (removeSync_error host); run| |];
      rewrite <- ?app_assoc, ?andb_true_r; cbn; rewrite ?Hc; split; try done.
  - rewrite <- app_assoc, andb_true_r. by cbn.
Qed.

(** The end of [executeMigrations], from the flag on: it calls no handler
    and touches neither the cache nor [srv_metadata]. *)
Lemma epilogue_frame (hasFailures : bool) count w :
  let o := ((if hasFailures
             then Run.log error_level MsgSomeStepsFailed;;
                  if negb (IS_FAILSAFE (process host)) then Run.exit 0 else mret tt
             else mret tt : M unit);;
            w ← Run.get;
            mergeBotpressConfig host (targetVersion (this w));;
            Run.log info_level (MsgCompleted count)) w in
  calls (trace (final o)) = calls (trace w)
  /\ srv_metadata (final o) = srv_metadata w
  /\ cache_exists (final o) = cache_exists w
  /\ this (final o) = this w
  /\ extends_trace w (final o).
Proof.
  cbn zeta. unfold mergeBotpressConfig, extends_trace. run.
  destruct hasFailures; run;
    [destruct (IS_FAILSAFE (process host)); run|];
    try (destruct (mergeBotpressConfig_error host); run);
    try (destruct (targetVersion (this w)); cbn);
    rewrite <- ?app_assoc, ?calls_app; cbn; rewrite ?app_nil_r;
    repeat split; try done; try (eexists; reflexivity);
    exists []; by rewrite app_nil_r.
Qed.

Lemma executeMigrations_split plan w :
  executeMigrations host plan w
  = (hasFailures ← Run.mapSeries (run_one host (is_down (MIGRATE_CMD (process host)))) false plan;
     (if hasFailures : bool
      then Run.log error_level MsgSomeStepsFailed;;
           if negb (IS_FAILSAFE (process host)) then Run.exit 0 else mret tt
      else mret tt : M unit);;
     w ← Run.get;
     mergeBotpressConfig host (targetVersion (this w));;
     Run.log info_level (MsgCompleted (length plan))) (prologue host (length plan) w).
Proof.
  unfold executeMigrations.
  change (?a ;; ?b ;; ?k) with ((a ;; b) ≫= fun _ => k).
  unfold mbind at 1, M_bind at 1. by rewrite prologue_returns.
Qed.

End ExecuteMore.

(** X6. [executeMigrations] calls handlers only for units of the plan that
    are not on the ignore list, each at most once and in the order of the
    plan: the calls made are a beginning of that list, and all of it unless
    an exception ends the run.  It never writes to [srv_metadata] and
    leaves the service object as it was. *)
Theorem executeMigrations_calls_in_order (host : Host) (plan : list MigrationFile) (w : World) :
  let rollback := is_down (MIGRATE_CMD (process host)) in
  let o := executeMigrations host plan w in
  srv_metadata (final o) = srv_metadata w
  /\ this (final o) = this w
  /\ exists made rest,
       calls (trace (final o)) = calls (trace w) ++ made
       /\ called host rollback plan = made ++ rest
       /\ ((forall reason w', o <> Thrown reason w') -> rest = []).
Proof.
  cbn zeta. rewrite executeMigrations_split.
  destruct (prologue_frame host (length plan) w) as (Hthis & _ & Hdb & _ & Hcalls).
  destruct (mapSeries_frame host (is_down (MIGRATE_CMD (process host))) plan false
              (prologue host (length plan) w))
    as (Hexit & Hthis' & _ & Hdb' & made & rest & Hmade & Hplan & Hret).
  cbn zeta in *.
  destruct (Run.mapSeries _ false plan _) as [b w1|c w1|e w1] eqn:Hloop; cbn in *.
  - erewrite bind_returned; [|exact Hloop].
    destruct (epilogue_frame host b (length plan) w1) as (Hc & Hd & _ & Ht & _).
    cbn zeta in Hc, Hd, Ht.
    split; [etrans; [exact Hd|congruence]|]. split; [etrans; [exact Ht|congruence]|].
    exists made, rest. split; [etrans; [exact Hc|congruence]|]. split; [done|].
    intros _. by apply (Hret b w1).
  - by destruct (Hexit c w1).
  - erewrite bind_thrown; [|exact Hloop]. cbn.
    split; [congruence|]. split; [congruence|].
    exists made, rest. split; [congruence|]. split; [done|].
    intros Hne. by destruct (Hne e w1).
Qed.

Section CacheFacts.

Context (host : Host).

Lemma extends_trace_trans w1 w2 w3 :
  extends_trace w1 w2 -> extends_trace w2 w3 -> extends_trace w1 w3.
Proof.
  intros [a Ha] [b Hb]. exists (a ++ b). by rewrite Hb, Ha, app_assoc.
Qed.

Lemma run_one_extends rollback b file w :
  let o := run_one host rollback b file w in
  extends_trace w (final o) /\ cache_exists (final o) = cache_exists w.
Proof.
  cbn zeta. unfold run_one, extends_trace.
  destruct (ignored host (filename file)); run; [split; [eexists|]; reflexivity|].
  destruct rollback; destruct (loadedMigrations (this w) !! filename file) as [m|]; run;
    try (split; [eexists|]; reflexivity).
  - destruct (down m) as [[r|reason]|]; run;
      [destruct (success r); run| |];
      rewrite <- ?app_assoc; (split; [eexists|]; reflexivity).
  - destruct (up m) as [r|reason]; run;
      [destruct (success r); run|];
      rewrite <- ?app_assoc; (split; [eexists|]; reflexivity).
Qed.

Lemma mapSeries_extends rollback plan : forall b w,
  let o := Run.mapSeries (run_one host rollback) b plan w in
  extends_trace w (final o) /\ cache_exists (final o) = cache_exists w.
Proof.
  induction plan as [|file plan IH]; intros b w; cbn zeta.
  - cbn. split; [|done]. exists []. by rewrite app_nil_r.
  - cbn [Run.mapSeries]. unfold mbind, M_bind.
    destruct (run_one_extends rollback b file w) as [Ht Hc]. cbn zeta in *.
    destruct (run_one host rollback b file w) as [b1 w1|c w1|e w1]; cbn in *; try done.
    destruct (IH b1 w1) as [Ht' Hc']. cbn zeta in *.
    split; [by eapply extends_trace_trans|congruence].
Qed.

End CacheFacts.

(** X7. The clearing of the cache comes first and never ends the run: the
    trace of [executeMigrations] goes on from the banner and the events of
    the clearing, a removal that fails or a data path that is not set
    leaving a warning; the cache directory is gone at the end exactly when
    it was there, the data path is set and the removal went through; and
    when the units all go through, every unit not ignored is called
    whatever became of the cache. *)
Theorem cache_cleared_first (host : Host) (plan : list MigrationFile) (w : World) :
  let rollback := is_down (MIGRATE_CMD (process host)) in
  let o := executeMigrations host plan w in
  (exists rest,
     trace (final o)
     = trace w ++ EvLog info_level (MsgExecuting (length plan)) :: cache_events host w ++ rest)
  /\ cache_exists (final o)
     = cache_exists w
       && negb (cache_attempt host w && bool_decide (removeSync_error host = None))
  /\ (Forall (goes_through host rollback (loadedMigrations (this w))) plan ->
      calls (trace (final o)) = calls (trace w) ++ called host rollback plan).
Proof.
  cbn zeta.
  destruct (prologue_trace host (length plan) w) as [Htrace Hcache].
  destruct (prologue_frame host (length plan) w) as (Hthis & _).
  assert (Hgrow : extends_trace (prologue host (length plan) w)
                    (final (executeMigrations host plan w))
                  /\ cache_exists (final (executeMigrations host plan w))
                     = cache_exists (prologue host (length plan) w)).
  { rewrite executeMigrations_split.
    destruct (mapSeries_extends host (is_down (MIGRATE_CMD (process host))) plan false
                (prologue host (length plan) w)) as [Ht Hc]. cbn zeta in *.
    destruct (Run.mapSeries _ false plan _) as [b w1|c w1|e w1] eqn:Hloop; cbn in *.
    - erewrite bind_returned; [|exact Hloop].
      destruct (epilogue_frame host b (length plan) w1) as (_ & _ & Hc' & _ & Ht').
      cbn zeta in Hc', Ht'.
      split; [eapply extends_trace_trans; [exact Ht|exact Ht']|].
      etrans; [exact Hc'|exact Hc].
    - erewrite bind_exited; [|exact Hloop]. done.
    - erewrite bind_thrown; [|exact Hloop]. done. }
  destruct Hgrow as [[rest Hrest] Hc].
  split; [|split].
  - exists rest. rewrite Hrest, Htrace. by rewrite <- app_assoc.
  - by rewrite Hc.
  - intros Hall.
    destruct (prologue_frame host (length plan) w) as (Hthis' & _ & _ & _ & Hcalls).
    rewrite executeMigrations_split.
    erewrite bind_returned;
      [|apply mapSeries_goes_through; by rewrite Hthis'].
    match goal with
    | |- context [final (?k ?w1)] =>
        destruct (epilogue_frame host
                    (false || existsb (reports_failure host (is_down (MIGRATE_CMD (process host)))
                                         (loadedMigrations (this (prologue host (length plan) w))))
                                plan)
                    (length plan) w1) as (Hc' & _)
    end.
    cbn zeta in Hc'. etrans; [exact Hc'|].
    unfold emits. cbn [trace]. rewrite calls_app, Hcalls, Hthis'.
    by rewrite calls_loop_events.
Qed.

(** A cache directory that cannot be removed: the two planned units run
    all the same. *)
Example stuck_cache_run :
  let host := Variant.stuck_cache Fixture.plain [Example.c; Example.b; Example.a]
                Example.modules in
  let w := Fixture.world (Fixture.service Example.modules) in
  let w' := final (executeMigrations host [Example.b; Example.a] w) in
  cache_exists w' = true
  /\ calls (trace w') = [EvUp (filename Example.b); EvUp (filename Example.a)].
Proof. cbn zeta. split; vm_compute; reflexivity. Qed.

Section IgnoreList.

Context (host : Host).

Lemma includes_empty s : Js.includes s "" = true.
Proof. by destruct s. Qed.

Lemma empty_piece_ignores l file :
  TESTMIG_IGNORE_LIST (process host) = Some l ->
  In "" (Js.split "," l) ->
  ignored host file = true.
Proof.
  intros Hl Hin. unfold ignored. rewrite Hl.
  destruct (List.filter _ _) as [|x rest] eqn:Hf; [|done].
  exfalso. eapply in_nil. rewrite <- Hf. apply filter_In. split; [exact Hin|].
  apply includes_empty.
Qed.

Lemma all_ignored_goes_through rollback loaded plan :
  (forall file, ignored host file = true) ->
  Forall (goes_through host rollback loaded) plan
  /\ existsb (reports_failure host rollback loaded) plan = false
  /\ called host rollback plan = [].
Proof.
  intros Hall. split; [|split].
  - apply Forall_forall. intros file _. exists None. unfold outcome_of. by rewrite Hall.
  - induction plan as [|file plan IH]; [done|]. cbn. rewrite IH.
    unfold reports_failure, outcome_of. by rewrite Hall.
  - unfold called. induction plan as [|file plan IH]; [done|]. cbn. by rewrite Hall.
Qed.

End IgnoreList.

(** X8. An empty piece in [TESTMIG_IGNORE_LIST], as an empty list or a
    trailing comma gives, is included in every file name: every planned
    unit is skipped, no handler is called, and the run still completes and
    writes the target version to the configuration. *)
Theorem empty_ignore_piece_skips_all (host : Host) (plan : list MigrationFile) (w : World)
    (l : string) :
  TESTMIG_IGNORE_LIST (process host) = Some l ->
  In "" (Js.split "," l) ->
  mergeBotpressConfig_error host = None ->
  exists w',
    executeMigrations host plan w = Returned tt w'
    /\ calls (trace w') = calls (trace w)
    /\ botpress_config_version w'
       = match targetVersion (this w) with
         | JUndefined => botpress_config_version w
         | v => v
         end.
Proof.
  intros Hl Hin Hmerge.
  pose proof (empty_piece_ignores host l) as Hignored.
  destruct (all_ignored_goes_through host (is_down (MIGRATE_CMD (process host)))
              (loadedMigrations (this w)) plan) as (Hall & Hnone & Hcalled);
    [intros file; by apply Hignored|].
  destruct (prologue_frame host (length plan) w) as (Hthis & Hcfg & _ & _ & Hcalls).
  rewrite (executeMigrations_goes_through host plan w Hall). cbn zeta. rewrite Hnone.
  destruct (finish_returns host (length plan)
              (emits (loop_events host (is_down (MIGRATE_CMD (process host)))
                        (loadedMigrations (this w)) plan)
                 (prologue host (length plan) w)) Hmerge)
    as (w' & Hrun & Hthis' & Hcfg' & _ & Hcalls').
  exists w'. split; [exact Hrun|]. split.
  - rewrite Hcalls'. unfold emits. cbn [trace]. rewrite calls_app, Hcalls.
    rewrite calls_loop_events by exact Hall. by rewrite Hcalled, app_nil_r.
  - rewrite Hcfg'. unfold emits. cbn [this botpress_config_version]. by rewrite Hthis, Hcfg.
Qed.

Lemma empty_ignore_piece_skips_all_witness :
  let host := Fixture.machine (Variant.testing (Some "zzz,") None None None None)
                [Example.c; Example.b; Example.a] Example.modules None in
  let w := Fixture.world (Fixture.service Example.modules) in
  exists w',
    executeMigrations host [Example.b; Example.a] w = Returned tt w'
    /\ calls (trace w') = []
    /\ botpress_config_version w' = JStr "1.2.0".
Proof.
  cbn zeta.
  apply (empty_ignore_piece_skips_all
           (Fixture.machine (Variant.testing (Some "zzz,") None None None None)
              [Example.c; Example.b; Example.a] Example.modules None)
           [Example.b; Example.a] (Fixture.world (Fixture.service Example.modules)) "zzz,").
  - reflexivity.
  - vm_compute. right. left. reflexivity.
  - reflexivity.
Defined.

Section MissingHandler.

Context (host : Host).

Lemma run_one_missing rollback b file w :
  ignored host (filename file) = false ->
  loadedMigrations (this w) !! filename file ≫= handler_of rollback = None ->
  run_one host rollback b file w
  = Thrown type_error (emits [EvLog info_level (MsgRunning (filename file))] w).
Proof.
  intros Hi Hm. unfold run_one. rewrite Hi. run.
  destruct (loadedMigrations (this w) !! filename file) as [m|]; cbn in Hm.
  - destruct rollback; cbn in Hm; [|done]. rewrite Hm. run. same_world.
  - destruct rollback; run; same_world.
Qed.

(** The loop stops at the first unit that has no handler to call. *)
Lemma mapSeries_missing rollback pre file post b w :
  Forall (goes_through host rollback (loadedMigrations (this w))) pre ->
  ignored host (filename file) = false ->
  loadedMigrations (this w) !! filename file ≫= handler_of rollback = None ->
  Run.mapSeries (run_one host rollback) b (pre ++ file :: post) w
  = Thrown type_error
      (emits (loop_events host rollback (loadedMigrations (this w)) pre
              ++ [EvLog info_level (MsgRunning (filename file))])
         w).
Proof.
  revert b w. induction pre as [|first pre IH]; intros b w Hall Hi Hm.
  - cbn [app Run.mapSeries]. unfold mbind, M_bind.
    by rewrite (run_one_missing rollback b file w).
  - inversion Hall as [|? ? Hfirst Hrest]; subst.
    cbn [app Run.mapSeries]. unfold mbind, M_bind at 1.
    pose proof (mapSeries_goes_through host rollback [first] b w) as H1.
    cbn [Run.mapSeries] in H1. unfold mbind, M_bind, mret, M_ret in H1.
    specialize (H1 ltac:(by constructor)).
    destruct (run_one host rollback b first w) as [b' w'| |]; try done.
    injection H1 as -> ->.
    rewrite IH; cbn [this emits]; try done.
    rewrite emits_emits. unfold loop_events. cbn [flat_map].
    by rewrite app_nil_r, app_assoc.
Qed.

End MissingHandler.

(** X9. A planned unit that is not ignored and has no handler to call, its
    module not being loaded or, in a downgrade, having no [down], ends
    [executeMigrations] with a [TypeError] right after its [Running] line:
    the units before it have run, neither it nor any unit after it is
    called, and the version of the configuration is not written. *)
Theorem missing_handler_aborts (host : Host) (pre post : list MigrationFile)
    (file : MigrationFile) (w : World) :
  let rollback := is_down (MIGRATE_CMD (process host)) in
  let loaded := loadedMigrations (this w) in
  Forall (goes_through host rollback loaded) pre ->
  ignored host (filename file) = false ->
  loaded !! filename file ≫= handler_of rollback = None ->
  exists w',
    executeMigrations host (pre ++ file :: post) w = Thrown type_error w'
    /\ calls (trace w') = calls (trace w) ++ called host rollback pre
    /\ List.last (trace w') (EvLog error_level MsgSomeStepsFailed)
       = EvLog info_level (MsgRunning (filename file))
    /\ botpress_config_version w' = botpress_config_version w
    /\ srv_metadata w' = srv_metadata w.
Proof.
  intros rollback loaded Hpre Hi Hm.
  set (plan := pre ++ file :: post).
  destruct (prologue_frame host (length plan) w) as (Hthis & Hcfg & Hdb & _ & Hcalls).
  eexists. split.
  - rewrite executeMigrations_split.
    erewrite bind_thrown; [reflexivity|].
    apply mapSeries_missing; rewrite ?Hthis; done.
  - cbn [trace emits botpress_config_version srv_metadata].
    rewrite Hthis. fold rollback loaded. repeat split; try done.
    + rewrite !calls_app, Hcalls, calls_loop_events by done.
      cbn. by rewrite app_nil_r.
    + rewrite !app_assoc. apply last_last.
Qed.

Lemma missing_handler_aborts_witness :
  let host := Fixture.machine (Fixture.directives (Some "1.0.0") (Some "down") false)
                [Example.c; Example.b; Example.a] Example.modules None in
  let w := Fixture.world (Example.service "1.0.0" "1.3.0" "1.3.0") in
  exists w',
    executeMigrations host [Example.b; Example.a; Example.c] w = Thrown type_error w'
    /\ calls (trace w') = [EvDown (filename Example.b)].
Proof.
  cbn zeta.
  destruct (missing_handler_aborts
              (Fixture.machine (Fixture.directives (Some "1.0.0") (Some "down") false)
                 [Example.c; Example.b; Example.a] Example.modules None)
              [Example.b] [Example.c] Example.a
              (Fixture.world (Example.service "1.0.0" "1.3.0" "1.3.0")))
    as (w' & Hrun & Hcalls & _).
  - repeat constructor. vm_compute. eauto.
  - reflexivity.
  - vm_compute. reflexivity.
  - exists w'. split; [exact Hrun|exact Hcalls].
Defined.

(** ** The versions [detectAndSetupVersions] settles on *)

Lemma detectAndSetupVersions_plain (host : Host) (migrations : list MigrationFile) (w : World) :
  invalid_target host = false ->
  Js.truthy (Js.of_option (TESTMIG_ALL (process host)))
  || Js.truthy (Js.of_option (TESTMIG_NEW (process host))) = false ->
  let cfg := Js.or (Js.of_option (TESTMIG_CONFIG_VERSION (process host)))
                   (botpress_config_version w) in
  let db := Js.or (Js.of_option (TESTMIG_DB_VERSION (process host)))
                  (Js.or (match srv_metadata w with v :: _ => v | [] => JUndefined end) cfg) in
  detectAndSetupVersions host migrations w
  = Returned tt
      (set_this (fun s => {| targetVersion := targetVersion s; configVersion := cfg;
                             dbVersion := db; loadedMigrations := loadedMigrations s |}) w).
Proof.
  intros Hvalid Hoff. cbn zeta.
  unfold detectAndSetupVersions, set_versions, _getCurrentDbVersion.
  rewrite Hvalid, Hoff. unfold Js.or.
  destruct (Js.truthy (Js.of_option (TESTMIG_DB_VERSION (process host)))); run;
    unfold set_this; cbn; reflexivity.
Qed.

(** X10. With a well-formed target and the hooks [TESTMIG_ALL] and
    [TESTMIG_NEW] off, [detectAndSetupVersions] keeps the target of the
    constructor, takes the configuration version from
    [TESTMIG_CONFIG_VERSION] or else from the stored configuration, and the
    database version from [TESTMIG_DB_VERSION], else from the latest row of
    [srv_metadata], else from the configuration version it has just set;
    the catalog plays no part, and the stores, the modules and the trace
    are left alone. *)
Theorem versions_detected (host : Host) (migrations : list MigrationFile) (w : World) :
  invalid_target host = false ->
  Js.truthy (Js.of_option (TESTMIG_ALL (process host)))
  || Js.truthy (Js.of_option (TESTMIG_NEW (process host))) = false ->
  let cfg := Js.or (Js.of_option (TESTMIG_CONFIG_VERSION (process host)))
                   (botpress_config_version w) in
  let db := Js.or (Js.of_option (TESTMIG_DB_VERSION (process host)))
                  (Js.or (match srv_metadata w with v :: _ => v | [] => JUndefined end) cfg) in
  exists w',
    detectAndSetupVersions host migrations w = Returned tt w'
    /\ this w' = {| targetVersion := targetVersion (this w); configVersion := cfg;
                    dbVersion := db; loadedMigrations := loadedMigrations (this w) |}
    /\ botpress_config_version w' = botpress_config_version w
    /\ srv_metadata w' = srv_metadata w
    /\ srv_migrations w' = srv_migrations w
    /\ trace w' = trace w.
Proof.
  intros Hvalid Hoff. cbn zeta. eexists. split.
  - by apply detectAndSetupVersions_plain.
  - by cbn.
Qed.

Lemma versions_detected_witness :
  let host := Fixture.machine (Variant.testing None (Some "1.1.0") None None None)
                [Example.c; Example.b; Example.a] Example.modules None in
  exists w',
    detectAndSetupVersions host [] (Fixture.boot host "1.0.0" []) = Returned tt w'
    /\ targetVersion (this w') = JStr "1.2.0"
    /\ configVersion (this w') = JStr "1.1.0"
    /\ dbVersion (this w') = JStr "1.1.0".
Proof.
  cbn zeta.
  destruct (versions_detected
              (Fixture.machine (Variant.testing None (Some "1.1.0") None None None)
                 [Example.c; Example.b; Example.a] Example.modules None)
              []
              (Fixture.boot
                 (Fixture.machine (Variant.testing None (Some "1.1.0") None None None)
                    [Example.c; Example.b; Example.a] Example.modules None)
                 "1.0.0" []))
    as (w' & Hrun & Hthis & _); [reflexivity|reflexivity|].
  exists w'. split; [exact Hrun|]. rewrite Hthis. vm_compute.
  split; [|split]; reflexivity.
Defined.

Section Latest.

Lemma lte_refl (a : Semver.t) : Semver.lte a a = true.
Proof. unfold Semver.lte. by rewrite (order_refl _ a Order_semver). Qed.

Lemma lte_total (a b : Semver.t) : Semver.lte a b = false -> Semver.lte b a = true.
Proof.
  unfold Semver.lte. rewrite (order_antisym _ Order_semver b a).
  by destruct (Semver.compare a b).
Qed.

(** The last element of a sorted list is above every element. *)
Lemma sorted_last_max {A : Type} (R : A -> A -> Prop) (l : list A) (d : A) :
  (forall a, R a a) -> (forall a b c, R a b -> R b c -> R a c) ->
  Sorted R l -> forall x, In x l -> R x (List.last l d).
Proof.
  intros Hrefl Htrans Hs%Sorted_StronglySorted; [|exact Htrans].
  induction Hs as [|a l Hs IH Hall]; intros x Hin; [done|].
  destruct l as [|b l]; [destruct Hin as [<-|[]]; apply Hrefl|].
  change (List.last (a :: b :: l) d) with (List.last (b :: l) d).
  destruct Hin as [<-|Hin]; [|by apply IH].
  eapply Htrans; [|apply IH; by left].
  rewrite Forall_forall in Hall. apply Hall. by apply list_elem_of_In; left.
Qed.

Lemma last_In {A : Type} (l : list A) (d : A) : l <> [] -> In (List.last l d) l.
Proof.
  induction l as [|a l IH]; [done|]. intros _.
  destruct l as [|b l]; [by left|]. right. by apply IH.
Qed.

Lemma last_map {A B : Type} (f : A -> B) (l : list A) (d : A) (d' : B) :
  l <> [] -> List.last (map f l) d' = f (List.last l d).
Proof.
  induction l as [|a l IH]; [done|]. intros _.
  destruct l as [|b l]; [done|]. by apply IH.
Qed.

(** The versions that parse, paired with what they parse to. *)
Lemma parsed_versions (versions : list (option string)) :
  Forall (fun v => is_Some (v ≫= Semver.parse)) versions ->
  exists parsed,
    mapM (fun v => p ← v ≫= Semver.parse; Some (v, p)) versions = Some parsed
    /\ fst <$> parsed = versions
    /\ forall v p, In (v, p) parsed -> v ≫= Semver.parse = Some p.
Proof.
  induction 1 as [|v versions [p Hp] _ (parsed & Hmap & Hfst & Hall)].
  - exists []. by repeat split.
  - exists ((v, p) :: parsed). cbn. rewrite Hp. cbn.
    change (mapM ?f versions) with (mapM f versions). rewrite Hmap. cbn.
    split; [done|]. split; [by rewrite Hfst|].
    intros v' p' [[= <- <-]|Hin]; [done|by apply Hall].
Qed.

(** The result of [versions.sort(semver.compare)] on versions that parse:
    a rearrangement whose last element is the greatest. *)
Lemma sort_versions_latest (versions : list (option string)) :
  versions <> [] ->
  Forall (fun v => is_Some (v ≫= Semver.parse)) versions ->
  exists sorted latest top,
    sort_versions versions = Some sorted
    /\ last_version sorted = JStr latest
    /\ In (Some latest) versions
    /\ Semver.parse latest = Some top
    /\ forall v p, In v versions -> v ≫= Semver.parse = Some p -> Semver.lte p top = true.
Proof.
  intros Hne Hall.
  destruct (parsed_versions versions Hall) as (parsed & Hmap & Hfst & Hparsed).
  set (le := fun a b : option string * Semver.t => Semver.lte (snd a) (snd b)).
  assert (Hsorted : sort_versions versions = Some (fst <$> Js.sort le parsed)).
  { unfold sort_versions. destruct versions as [|v [|v' versions]]; [done| |].
    - destruct parsed as [|[u p] [|? ?]]; try done. cbn in Hfst. by injection Hfst as ->.
    - fold le. by rewrite Hmap. }
  pose proof (sort_Permutation le parsed) as Hperm.
  assert (Hne' : Js.sort le parsed <> []).
  { intros Hnil. rewrite Hnil in Hperm. apply Permutation_nil in Hperm.
    rewrite Hperm in Hfst. by destruct versions. }
  destruct versions as [|v0 versions0] eqn:Hv; [done|]. rewrite <- Hv in *. clear Hne.
  destruct parsed as [|d parsed0] eqn:Hp; [by rewrite Hv in Hfst|]. rewrite <- Hp in *.
  set (top := List.last (Js.sort le parsed) d).
  assert (Htop : In top parsed).
  { eapply Permutation_in; [exact Hperm|]. by apply last_In. }
  destruct top as [latest p] eqn:Htopeq.
  pose proof (Hparsed latest p Htop) as Hlatest.
  destruct latest as [latest|]; [|done]. cbn in Hlatest.
  exists (fst <$> Js.sort le parsed), latest, p.
  split; [exact Hsorted|]. split; [|split; [|split]].
  - unfold last_version, Js.last.
    change (map Some (fst <$> Js.sort le parsed))
      with (map Some (map fst (Js.sort le parsed))).
    rewrite map_map.
    rewrite (last_map (fun x => Some (fst x)) _ d) by exact Hne'.
    fold top. by rewrite Htopeq.
  - rewrite <- Hfst. apply (in_map fst) in Htop. exact Htop.
  - exact Hlatest.
  - intros v q Hin Hq. rewrite <- Hfst in Hin.
    apply in_map_iff in Hin as ([v' q'] & Heq & Hin). cbn in Heq. subst v'.
    pose proof (Hparsed v q' Hin) as Hq'. rewrite Hq in Hq'. injection Hq' as <-.
    assert (Hle : le (v, q) top = true).
    { unfold top.
      apply (sorted_last_max (fun a b => le a b = true)).
      - intros a. apply lte_refl.
      - intros a b c. apply lte_trans.
      - apply sort_Sorted. intros a b. apply lte_total.
      - eapply Permutation_in; [symmetry; exact Hperm|exact Hin]. }
    by rewrite Htopeq in Hle.
Qed.

End Latest.

(** X11. With [TESTMIG_ALL] or [TESTMIG_NEW] set and a catalog whose
    versions are all valid, [detectAndSetupVersions] replaces the target,
    whatever the constructor chose, by a version of the catalog that no
    version of the catalog exceeds; the configuration version becomes
    [process.BOTPRESS_VERSION] when [yn] accepts [TESTMIG_NEW], and
    [12.0.0] otherwise, also for a [TESTMIG_NEW] that is set but not
    affirmative.  The stores and the trace are left alone. *)
Theorem testing_hooks_target_latest (host : Host) (migrations : list MigrationFile) (w : World) :
  invalid_target host = false ->
  Js.truthy (Js.of_option (TESTMIG_ALL (process host)))
  || Js.truthy (Js.of_option (TESTMIG_NEW (process host))) = true ->
  migrations <> [] ->
  Forall (fun file => is_Some (version file ≫= Semver.parse)) migrations ->
  exists w' latest top,
    detectAndSetupVersions host migrations w = Returned tt w'
    /\ targetVersion (this w') = JStr latest
    /\ In (Some latest) (version <$> migrations)
    /\ Semver.parse latest = Some top
    /\ (forall file v, In file migrations -> version file ≫= Semver.parse = Some v ->
        Semver.lte v top = true)
    /\ configVersion (this w')
       = JStr (if yn (TESTMIG_NEW (process host)) then BOTPRESS_VERSION (process host)
               else "12.0.0")
    /\ botpress_config_version w' = botpress_config_version w
    /\ srv_metadata w' = srv_metadata w
    /\ trace w' = trace w.
Proof.
  intros Hvalid Hon Hne Hall.
  destruct (sort_versions_latest (version <$> migrations))
    as (sorted & latest & top & Hsort & Hlast & Hin & Hparse & Hmax).
  { by destruct migrations. }
  { apply Forall_forall. intros v Hv%list_elem_of_In.
    apply in_map_iff in Hv as (file & <- & Hfile).
    rewrite Forall_forall in Hall. by apply Hall, list_elem_of_In. }
  unfold detectAndSetupVersions, set_versions, _getCurrentDbVersion.
  rewrite Hvalid, Hon, Hsort. run.
  destruct (Js.truthy (Js.of_option (TESTMIG_DB_VERSION (process host)))); run;
    (eexists _, latest, top; split; [reflexivity|]; cbn;
     split; [exact Hlast|]; split; [exact Hin|]; split; [exact Hparse|];
     split; [|by destruct (yn _)];
     intros file v Hfile Hv; apply (Hmax (version file)); [by apply in_map|exact Hv]).
Qed.

Lemma testing_hooks_target_latest_witness :
  let host := Fixture.machine (Variant.testing None None None None (Some "false"))
                [Example.c; Example.b; Example.a] Example.modules None in
  exists w',
    detectAndSetupVersions host [Example.c; Example.b; Example.a]
      (Fixture.boot host "1.0.0" ["1.0.0"]) = Returned tt w'
    /\ targetVersion (this w') = JStr "1.3.0"
    /\ configVersion (this w') = JStr "12.0.0".
Proof.
  cbn zeta.
  destruct (testing_hooks_target_latest
              (Fixture.machine (Variant.testing None None None None (Some "false"))
                 [Example.c; Example.b; Example.a] Example.modules None)
              [Example.c; Example.b; Example.a]
              (Fixture.boot
                 (Fixture.machine (Variant.testing None None None None (Some "false"))
                    [Example.c; Example.b; Example.a] Example.modules None)
                 "1.0.0" ["1.0.0"]))
    as (w' & latest & top & Hrun & Htarget & _ & _ & _ & Hcfg & _).
  - reflexivity.
  - reflexivity.
  - discriminate.
  - repeat constructor; vm_compute; eauto.
  - exists w'. split; [exact Hrun|].
    vm_compute in Hrun. injection Hrun as <-. split; reflexivity.
Defined.

(** X12. With [TESTMIG_ALL] or [TESTMIG_NEW] set, a catalog of two files
    or more one of which has no valid version makes
    [detectAndSetupVersions] throw, [semver.compare] refusing what is not a
    version: the target is not replaced and nothing is logged. *)
Theorem testing_hooks_unparsable (host : Host) (migrations : list MigrationFile) (w : World) :
  invalid_target host = false ->
  Js.truthy (Js.of_option (TESTMIG_ALL (process host)))
  || Js.truthy (Js.of_option (TESTMIG_NEW (process host))) = true ->
  (2 <= length migrations)%nat ->
  Exists (fun file => version file ≫= Semver.parse = None) migrations ->
  exists w',
    detectAndSetupVersions host migrations w = Thrown type_error w'
    /\ targetVersion (this w') = targetVersion (this w)
    /\ botpress_config_version w' = botpress_config_version w
    /\ srv_metadata w' = srv_metadata w
    /\ trace w' = trace w.
Proof.
  intros Hvalid Hon Hlen Hbad.
  assert (Hsort : sort_versions (version <$> migrations) = None).
  { unfold sort_versions.
    destruct migrations as [|a [|b rest]]; cbn in Hlen; try lia.
    cbn [fmap list_fmap].
    assert (Hmap : mapM (fun v => p ← v ≫= Semver.parse; Some (v, p))
                     (version <$> a :: b :: rest) = None).
    { apply mapM_None. apply Exists_exists in Hbad as (file & Hin & Hfile).
      apply Exists_exists. exists (version file). split.
      - apply list_elem_of_fmap. by exists file.
      - by rewrite Hfile. }
    cbn [fmap list_fmap] in Hmap. by rewrite Hmap. }
  unfold detectAndSetupVersions, set_versions, _getCurrentDbVersion.
  rewrite Hvalid, Hon, Hsort. run.
  destruct (Js.truthy (Js.of_option (TESTMIG_DB_VERSION (process host)))); run;
    (eexists; split; [reflexivity|]; by cbn).
Qed.

Lemma testing_hooks_unparsable_witness :
  let host := Fixture.machine (Variant.testing None None None (Some "1") None) [] ∅ None in
  let odd := {| date := 5; version := None; location := "migrations/readme.js";
                filename := "readme.js"; title := "" |} in
  exists w',
    detectAndSetupVersions host [odd; Example.a] (Fixture.boot host "1.0.0" ["1.0.0"])
    = Thrown type_error w'.
Proof.
  cbn zeta.
  destruct (testing_hooks_unparsable
              (Fixture.machine (Variant.testing None None None (Some "1") None) [] ∅ None)
              [{| date := 5; version := None; location := "migrations/readme.js";
                  filename := "readme.js"; title := "" |}; Example.a]
              (Fixture.boot
                 (Fixture.machine (Variant.testing None None None (Some "1") None) [] ∅ None)
                 "1.0.0" ["1.0.0"]))
    as (w' & Hrun & _).
  - reflexivity.
  - reflexivity.
  - cbn. lia.
  - apply Exists_cons_hd. reflexivity.
  - exists w'. exact Hrun.
Defined.

(** ** Whole starts *)

Section Starts.

Context (host : Host).

(** The discovery adds nothing to the trace but its readings. *)
Lemma load_all_reads (files : list MigrationFile) : forall w,
  exists evs,
    trace (final (Run.each (load host) files w)) = trace w ++ evs
    /\ Forall (fun e => reads e = true) evs.
Proof.
  induction files as [|file files IH]; intros w.
  - exists []. split; [by rewrite app_nil_r|constructor].
  - unfold Run.each. cbn [Run.mapSeries].
    destruct (loadedMigrations (this w) !! filename file) as [m|] eqn:Hm.
    + erewrite bind_returned; [|unfold load; run; rewrite Hm; reflexivity].
      apply IH.
    + erewrite bind_returned; [|unfold load; run; rewrite Hm; run; reflexivity].
      match goal with |- context [Run.mapSeries _ tt files ?w1] =>
        destruct (IH w1) as (evs & Ht & Hall) end.
      exists (EvRequire (location file) :: evs). split.
      * unfold Run.each in Ht. rewrite Ht. cbn. by rewrite <- app_assoc.
      * by constructor.
Qed.

Lemma getAllMigrations_reads w :
  exists evs,
    trace (final (getAllMigrations host w)) = trace w ++ evs
    /\ Forall (fun e => reads e = true) evs.
Proof.
  unfold getAllMigrations.
  erewrite bind_returned; [|reflexivity].
  erewrite bind_returned; [|apply module_migrations_reads].
  cbn [app]. fold (catalog host).
  match goal with |- context [(Run.each (load host) (catalog host) ≫= ?k) ?w1] =>
    destruct (load_all_reads (catalog host) w1) as (evs & Ht & Hall);
    destruct (load_all_returns host (catalog host) w1) as (w' & Hload & _)
  end.
  rewrite Hload in Ht. cbn [final] in Ht.
  erewrite bind_returned; [|exact Hload].
  unfold mret, M_ret. cbn [final]. rewrite Ht. cbn [trace emits emit].
  eexists. split; [rewrite <- !app_assoc; reflexivity|].
  apply Forall_app. split; [by repeat constructor|].
  apply Forall_app. split; [|exact Hall].
  apply Forall_forall. intros e He%list_elem_of_In. apply in_map_iff in He as (? & <- & _). done.
Qed.

(** The world when the versions are set: the names of the catalog are
    keys of the loaded modules, no store has changed, and the trace has
    grown by readings only. *)
Lemma detected_returns w :
  invalid_target host = false -> hooks_ok host (catalog host) ->
  exists w1,
    getAllMigrations host w = Returned (catalog host) w1
    /\ detectAndSetupVersions host (catalog host) w1 = Returned tt (detected host w)
    /\ (forall file, In file (catalog host) ->
        has_key (loadedMigrations (this (detected host w))) (filename file))
    /\ quiet_step w (detected host w)
    /\ exists evs, trace (detected host w) = trace w ++ evs
                   /\ Forall (fun e => reads e = true) evs.
Proof.
  intros Hvalid Hhooks.
  destruct (getAllMigrations_returns host w) as (w1 & Hall & _ & _ & _ & Hloaded).
  destruct (detectAndSetupVersions_returns host (catalog host) w1 Hvalid Hhooks)
    as (w2 & Hdetect & Hmods & Htrace).
  assert (Hw2 : detected host w = w2).
  { unfold detected. erewrite bind_returned; [|exact Hall]. by rewrite Hdetect. }
  rewrite Hw2. exists w1. split; [exact Hall|]. split; [exact Hdetect|].
  split; [|split].
  - intros file Hin. rewrite Hmods. by apply Hloaded.
  - eapply quiet_step_trans.
    + pose proof (quiet_getAllMigrations host w) as H1. rewrite Hall in H1. exact H1.
    + pose proof (quiet_detectAndSetupVersions host (catalog host) w1) as H2.
      rewrite Hdetect in H2. exact H2.
  - destruct (getAllMigrations_reads w) as (evs & Ht & Hevs).
    rewrite Hall in Ht. cbn [final] in Ht.
    exists evs. split; [congruence|exact Hevs].
Qed.

(** A start with nothing to do and no command ends after the detection. *)
Lemma initialize_nothing_to_do w :
  yn (SKIP_MIGRATIONS (process host)) = false ->
  invalid_target host = false -> hooks_ok host (catalog host) ->
  MIGRATE_CMD (process host) = None ->
  getMigrationsToExecute (this (detected host w)) None (catalog host) = [] ->
  initialize host w = Returned tt (detected host w).
Proof.
  intros Hskip Hvalid Hhooks Hcmd Hplan.
  destruct (detected_returns w Hvalid Hhooks) as (w1 & Hall & Hdetect & _).
  unfold initialize. rewrite Hskip.
  erewrite bind_returned; [|exact Hall].
  erewrite bind_returned; [|exact Hdetect].
  erewrite bind_returned; [|reflexivity].
  rewrite Hcmd, Hplan. reflexivity.
Qed.

(** A start that has something to do, or a command: the status is
    displayed and the rest follows. *)
Lemma initialize_after_status w :
  yn (SKIP_MIGRATIONS (process host)) = false ->
  invalid_target host = false -> hooks_ok host (catalog host) ->
  let w2 := detected host w in
  let plan := getMigrationsToExecute (this w2) (MIGRATE_CMD (process host)) (catalog host) in
  plan <> [] \/ MIGRATE_CMD (process host) <> None ->
  exists migrations,
    mapM (fun x => info <$> loadedMigrations (this w2) !! filename x) plan = Some migrations
    /\ initialize host w
       = after_status host plan (trace w2) (emits (status host (this w2) migrations) w2).
Proof.
  intros Hskip Hvalid Hhooks w2 plan Hplan.
  destruct (detected_returns w Hvalid Hhooks) as (w1 & Hall & Hdetect & Hloaded & _).
  fold w2 in Hdetect, Hloaded.
  assert (Hmap : is_Some (mapM (fun x => info <$> loadedMigrations (this w2) !! filename x) plan)).
  { apply mapM_is_Some. apply Forall_forall. intros file Hin%list_elem_of_In.
    apply getMigrationsToExecute_module in Hin as [m Hm]; [|exact Hloaded].
    cbn. rewrite Hm. by eexists. }
  destruct Hmap as [migrations Hmap]. exists migrations. split; [done|].
  unfold initialize. rewrite Hskip.
  erewrite bind_returned; [|exact Hall].
  erewrite bind_returned; [|exact Hdetect].
  erewrite bind_returned; [|reflexivity].
  fold w2 plan.
  assert (Hgate : Nat.eqb (length plan) 0 && bool_decide (MIGRATE_CMD (process host) = None) = false).
  { destruct Hplan as [Hne|Hcmd].
    - destruct plan; [done|reflexivity].
    - rewrite (bool_decide_eq_false_2 _ Hcmd). apply andb_false_r. }
  rewrite Hgate.
  erewrite bind_returned; [|by apply displayMigrationStatus_returns].
  reflexivity.
Qed.

End Starts.

Section Manual.

Context (host : Host).

Lemma quiet_initialize_manual :
  AUTO_MIGRATE (process host) = false -> quiet (initialize host).
Proof.
  intros Hauto. unfold initialize. rewrite Hauto.
  destruct (yn _); [apply quiet_ret|].
  apply quiet_bind; [apply quiet_getAllMigrations|intros allMigrations].
  apply quiet_bind; [apply quiet_detectAndSetupVersions|intros _].
  apply quiet_bind; [apply quiet_get|intros w].
  destruct (_ && _); [apply quiet_ret|].
  apply quiet_bind; [apply quiet_displayMigrationStatus|intros _].
  cbn [negb].
  apply quiet_bind; [destruct (MIGRATE_DRYRUN _); [apply quiet_exit|apply quiet_ret]|intros _].
  apply quiet_bind; [apply quiet_log|intros _].
  destruct (negb _); [apply quiet_exit|apply quiet_ret].
Qed.

End Manual.

(** X13. Without [--auto-migrate] nothing is migrated: however
    [initialize] ends, no store has changed, the cache is as it was and no
    handler has been called.  When there is something to do, and no dry
    run, the status is displayed, the request to restart with
    [--auto-migrate] is the last line logged, and the process exits with
    code 0 unless it is failsafe, in which case [initialize] returns. *)
Theorem without_auto_migrate_nothing_runs (host : Host) (w : World) :
  AUTO_MIGRATE (process host) = false ->
  quiet_step w (final (initialize host w))
  /\ (yn (SKIP_MIGRATIONS (process host)) = false ->
      invalid_target host = false ->
      hooks_ok host (catalog host) ->
      MIGRATE_DRYRUN (process host) = false ->
      let s := this (detected host w) in
      let plan := getMigrationsToExecute s (MIGRATE_CMD (process host)) (catalog host) in
      plan <> [] \/ MIGRATE_CMD (process host) <> None ->
      exists w',
        initialize host w
        = (if IS_FAILSAFE (process host) then Returned tt w' else Exited 0 w')
        /\ In (EvLog warn_level
                 (MsgStatus false (configVersion s) (dbVersion s) (targetVersion s)
                    (length plan)))
              (trace w')
        /\ List.last (trace w') (EvLog warn_level MsgNoChange)
           = EvLog error_level MsgNeedsAutoMigrate).
Proof.
  intros Hauto. split; [by apply quiet_initialize_manual|].
  intros Hskip Hvalid Hhooks Hdry s plan Hplan.
  destruct (initialize_after_status host w Hskip Hvalid Hhooks Hplan)
    as (migrations & Hmap & Hrun).
  fold s plan in Hmap, Hrun.
  exists (emits (status host s migrations ++ [EvLog error_level MsgNeedsAutoMigrate])
            (detected host w)).
  split; [|split].
  - rewrite Hrun. unfold after_status. rewrite Hdry, Hauto.
    generalize (status host s migrations). intros st.
    destruct (IS_FAILSAFE (process host)); run; unfold emit, emits; cbn;
      by rewrite <- app_assoc.
  - cbn [trace emits]. apply in_or_app. right. apply in_or_app. left.
    unfold status. left. rewrite Hdry. by rewrite <- (length_mapM _ _ _ Hmap).
  - cbn [trace emits]. rewrite !app_assoc. apply last_last.
Qed.

Lemma without_auto_migrate_nothing_runs_witness :
  let host := Fixture.machine (Variant.manual true) [Example.c; Example.b; Example.a]
                Example.modules None in
  let w := Fixture.boot host "1.0.0" ["1.0.0"] in
  exists w',
    initialize host w = Returned tt w'
    /\ quiet_step w w'
    /\ List.last (trace w') (EvLog warn_level MsgNoChange)
       = EvLog error_level MsgNeedsAutoMigrate.
Proof.
  cbn zeta.
  destruct (without_auto_migrate_nothing_runs
              (Fixture.machine (Variant.manual true) [Example.c; Example.b; Example.a]
                 Example.modules None)
              (Fixture.boot
                 (Fixture.machine (Variant.manual true) [Example.c; Example.b; Example.a]
                    Example.modules None)
                 "1.0.0" ["1.0.0"]) eq_refl)
    as [Hquiet Hrun].
  destruct Hrun as (w' & Hrun & _ & Hlast).
  - reflexivity.
  - reflexivity.
  - intros Hon. discriminate Hon.
  - reflexivity.
  - left. vm_compute. discriminate.
  - exists w'. cbn [IS_FAILSAFE process Fixture.machine Variant.manual] in Hrun.
    split; [exact Hrun|]. split; [|exact Hlast].
    rewrite Hrun in Hquiet. exact Hquiet.
Defined.

(** An upgrade whose target is not above the two versions has nothing to
    select. *)
Lemma plan_empty_not_behind (this : MigrationService) (all : list MigrationFile)
    (t cfg db : Semver.t) :
  Semver.parse (Js.interpolate (targetVersion this)) = Some t ->
  Semver.parse (Js.interpolate (configVersion this)) = Some cfg ->
  Semver.parse (Js.interpolate (dbVersion this)) = Some db ->
  Semver.lte t cfg = true -> Semver.lte t db = true ->
  getMigrationsToExecute this None all = [].
Proof.
  intros Ht Hcfg Hdb Hc Hd.
  destruct (getMigrationsToExecute this None all) as [|file plan] eqn:Hplan; [done|].
  exfalso.
  assert (Hin : In file (getMigrationsToExecute this None all)) by (rewrite Hplan; by left).
  apply getMigrationsToExecute_in_range in Hin as [_ Hin].
  unfold in_range, comparator in Hin. cbn [is_down] in Hin.
  destruct Hin as [Hin|Hin];
    (eapply satisfies_inv in Hin as (v & _ & Hb); [|eassumption..]);
    (eapply between_empty; [|exact Hb]; assumption).
Qed.

Section Silent.

Context (host : Host).

(** The world after the detection, the hooks being off. *)
Lemma detected_plain w :
  invalid_target host = false ->
  Js.truthy (Js.of_option (TESTMIG_ALL (process host)))
  || Js.truthy (Js.of_option (TESTMIG_NEW (process host))) = false ->
  let cfg := Js.or (Js.of_option (TESTMIG_CONFIG_VERSION (process host)))
                   (botpress_config_version w) in
  let db := Js.or (Js.of_option (TESTMIG_DB_VERSION (process host)))
                  (Js.or (match srv_metadata w with v :: _ => v | [] => JUndefined end) cfg) in
  hooks_ok host (catalog host)
  /\ targetVersion (this (detected host w)) = targetVersion (this w)
  /\ configVersion (this (detected host w)) = cfg
  /\ dbVersion (this (detected host w)) = db.
Proof.
  intros Hvalid Hoff. cbn zeta.
  assert (Hhooks : hooks_ok host (catalog host)).
  { intros Hon. by rewrite Hoff in Hon. }
  split; [exact Hhooks|].
  destruct (getAllMigrations_returns host w) as (w1 & Hall & (Ht & _) & _).
  pose proof (quiet_getAllMigrations host w) as (Hcfg & Hdb & _).
  rewrite Hall in Hcfg, Hdb. cbn [final] in Hcfg, Hdb.
  unfold detected. erewrite bind_returned; [|exact Hall].
  rewrite detectAndSetupVersions_plain by done.
  cbn. by rewrite Ht, Hcfg, Hdb.
Qed.

End Silent.

(** X14. A start with no migration command whose target is not above the
    configuration and database versions it detects, be they at the target
    or beyond it, does nothing and says nothing: [initialize] returns, the
    trace has grown by the readings of the discovery only, the stores and
    the cache are as they were, and the service holds the versions
    detected. *)
Theorem start_not_behind_is_silent (host : Host) (w : World) (t c d : Semver.t) :
  yn (SKIP_MIGRATIONS (process host)) = false ->
  invalid_target host = false ->
  Js.truthy (Js.of_option (TESTMIG_ALL (process host)))
  || Js.truthy (Js.of_option (TESTMIG_NEW (process host))) = false ->
  MIGRATE_CMD (process host) = None ->
  let cfg := Js.or (Js.of_option (TESTMIG_CONFIG_VERSION (process host)))
                   (botpress_config_version w) in
  let db := Js.or (Js.of_option (TESTMIG_DB_VERSION (process host)))
                  (Js.or (match srv_metadata w with v :: _ => v | [] => JUndefined end) cfg) in
  Semver.parse (Js.interpolate (targetVersion (this w))) = Some t ->
  Semver.parse (Js.interpolate cfg) = Some c ->
  Semver.parse (Js.interpolate db) = Some d ->
  Semver.lte t c && Semver.lte t d = true ->
  exists w' evs,
    initialize host w = Returned tt w'
    /\ quiet_step w w'
    /\ trace w' = trace w ++ evs
    /\ Forall (fun e => reads e = true) evs
    /\ configVersion (this w') = cfg
    /\ dbVersion (this w') = db.
Proof.
  intros Hskip Hvalid Hoff Hcmd cfg db Ht Hc Hd [Htc Htd]%andb_true_iff.
  destruct (detected_plain host w Hvalid Hoff) as (Hhooks & Ht' & Hc' & Hd').
  fold cfg in Hc'. fold cfg db in Hd'.
  destruct (detected_returns host w Hvalid Hhooks)
    as (w1 & _ & _ & _ & Hquiet & evs & Htrace & Hevs).
  exists (detected host w), evs.
  split; [|split; [exact Hquiet|]; split; [exact Htrace|]; split; [exact Hevs|]; by split].
  apply initialize_nothing_to_do; try done.
  apply (plan_empty_not_behind _ _ t c d); by rewrite ?Ht', ?Hc', ?Hd'.
Qed.

Lemma start_not_behind_is_silent_witness :
  let host := Fixture.machine Fixture.plain [Example.c; Example.b; Example.a]
                Example.modules None in
  let w := Fixture.boot host "1.3.0" ["1.2.0"] in
  exists w',
    initialize host w = Returned tt w'
    /\ quiet_step w w'
    /\ configVersion (this w') = JStr "1.3.0"
    /\ dbVersion (this w') = JStr "1.2.0".
Proof.
  cbn zeta.
  destruct (start_not_behind_is_silent
              (Fixture.machine Fixture.plain [Example.c; Example.b; Example.a]
                 Example.modules None)
              (Fixture.boot
                 (Fixture.machine Fixture.plain [Example.c; Example.b; Example.a]
                    Example.modules None)
                 "1.3.0" ["1.2.0"])
              (Semver.mk 1 2 0 []) (Semver.mk 1 3 0 []) (Semver.mk 1 2 0 []))
    as (w' & evs & Hrun & Hquiet & _ & _ & Hcfg & Hdb); try reflexivity.
  exists w'. split; [exact Hrun|]. split; [exact Hquiet|]. split; [exact Hcfg|exact Hdb].
Defined.

(** ** A run that succeeds *)

Section FullRun.

Context (host : Host).

Lemma calls_nil (evs : list Event) :
  Forall (fun e => is_call e = false) evs -> calls evs = [].
Proof.
  induction 1 as [|e evs He _ IH]; [done|]. unfold calls in *. cbn. by rewrite He.
Qed.

Lemma calls_reads (evs : list Event) :
  Forall (fun e => reads e = true) evs -> calls evs = [].
Proof.
  intros Hall. apply calls_nil. eapply Forall_impl; [exact Hall|].
  intros e He. by destruct e.
Qed.

Lemma calls_status s migrations : calls (status host s migrations) = [].
Proof.
  apply calls_nil. unfold status. constructor; [done|].
  apply Forall_flat_map, Forall_forall. intros ty _. unfold listing.
  constructor; [done|].
  destruct (List.filter _ migrations) as [|x filtered]; [by repeat constructor|].
  apply Forall_forall. intros e He%list_elem_of_In.
  apply in_map_iff in He as (? & <- & _). done.
Qed.

Lemma captured_app (before evs : list Event) (w : World) :
  trace w = before ++ evs ->
  captured before w
  = omap (fun e => match e with EvLog l m => Some (l, m) | _ => None end) evs.
Proof. intros Ht. unfold captured. by rewrite Ht, drop_app_length. Qed.

Lemma finish_completed count w :
  mergeBotpressConfig_error host = None ->
  exists w', finish host count w = Returned tt w'
    /\ this w' = this w
    /\ botpress_config_version w'
       = match targetVersion (this w) with
         | JUndefined => botpress_config_version w
         | v => v
         end
    /\ srv_metadata w' = srv_metadata w
    /\ srv_migrations w' = srv_migrations w
    /\ trace w' = trace w ++ [EvLog info_level (MsgCompleted count)].
Proof.
  intros Hok. unfold finish, mergeBotpressConfig. run. rewrite Hok. run.
  eexists; split; [reflexivity|]. cbn.
  by destruct (targetVersion (this w)); cbn.
Qed.

(** A run of [executeMigrations] whose units all go through and report
    no failure, the configuration being writable. *)
Lemma executeMigrations_success plan w :
  let rollback := is_down (MIGRATE_CMD (process host)) in
  let loaded := loadedMigrations (this w) in
  Forall (goes_through host rollback loaded) plan ->
  existsb (reports_failure host rollback loaded) plan = false ->
  mergeBotpressConfig_error host = None ->
  exists w',
    executeMigrations host plan w = Returned tt w'
    /\ this w' = this w
    /\ botpress_config_version w'
       = match targetVersion (this w) with
         | JUndefined => botpress_config_version w
         | v => v
         end
    /\ srv_metadata w' = srv_metadata w
    /\ srv_migrations w' = srv_migrations w
    /\ trace w'
       = trace w ++ EvLog info_level (MsgExecuting (length plan))
                    :: cache_events host w ++ loop_events host rollback loaded plan
                    ++ [EvLog info_level (MsgCompleted (length plan))]
    /\ calls (trace w') = calls (trace w) ++ called host rollback plan.
Proof.
  intros rollback loaded Hall Hnone Hok.
  destruct (prologue_frame host (length plan) w) as (Hthis & Hcfg & Hdb & Hmig & Hcalls).
  destruct (prologue_trace host (length plan) w) as (Htrace & _).
  rewrite (executeMigrations_goes_through host plan w Hall).
  fold rollback loaded. rewrite Hnone.
  destruct (finish_completed (length plan)
              (emits (loop_events host rollback loaded plan) (prologue host (length plan) w)) Hok)
    as (w' & Hrun & Hthis' & Hcfg' & Hdb' & Hmig' & Htrace').
  cbn [this emits botpress_config_version srv_metadata srv_migrations trace] in *.
  exists w'. split; [exact Hrun|].
  split; [congruence|]. split; [by rewrite Hcfg', Hthis, Hcfg|].
  split; [congruence|]. split; [congruence|].
  assert (Ht : trace w'
               = trace w ++ EvLog info_level (MsgExecuting (length plan))
                 :: cache_events host w ++ loop_events host rollback loaded plan
                 ++ [EvLog info_level (MsgCompleted (length plan))]).
  { rewrite Htrace', Htrace. by rewrite <- !app_assoc. }
  split; [exact Ht|].
  rewrite Htrace', !calls_app, Hcalls, calls_loop_events by exact Hall.
  cbn. by rewrite app_nil_r.
Qed.

Lemma persistMigrationStatus_calls logs plan w :
  calls (trace (final (persistMigrationStatus host logs plan w))) = calls (trace w).
Proof.
  unfold persistMigrationStatus. run.
  destruct (srv_migrations_insert_error host); run;
    (destruct (Js.strict_ne _ _); run;
     [destruct (srv_metadata_insert_error host); run|]);
    try (destruct (coreMigrationCompleted host _ plan) as [[]|]; run);
    rewrite <- ?app_assoc, ?calls_app; cbn; by rewrite ?app_nil_r.
Qed.

End FullRun.

Section Success.

Context (host : Host).

(** A start that migrates and succeeds, from the detection to the
    recording. *)
Lemma initialize_success w :
  yn (SKIP_MIGRATIONS (process host)) = false ->
  invalid_target host = false -> hooks_ok host (catalog host) ->
  MIGRATE_DRYRUN (process host) = false -> AUTO_MIGRATE (process host) = true ->
  let s := this (detected host w) in
  let rollback := is_down (MIGRATE_CMD (process host)) in
  let plan := getMigrationsToExecute s (MIGRATE_CMD (process host)) (catalog host) in
  plan <> [] \/ MIGRATE_CMD (process host) <> None ->
  Forall (goes_through host rollback (loadedMigrations s)) plan ->
  existsb (reports_failure host rollback (loadedMigrations s)) plan = false ->
  mergeBotpressConfig_error host = None ->
  srv_metadata_insert_error host = None ->
  (forall entry files, coreMigrationCompleted host entry files = Resolved tt) ->
  exists w' logs,
    initialize host w
    = (if bool_decide (MIGRATE_CMD (process host) = None) then Returned tt w' else Exited 0 w')
    /\ calls (trace w') = calls (trace w) ++ called host rollback plan
    /\ botpress_config_version w'
       = match targetVersion s with JUndefined => botpress_config_version w | v => v end
    /\ srv_metadata w'
       = (if Js.strict_ne (dbVersion s) (targetVersion s)
          then targetVersion s :: srv_metadata w else srv_metadata w)
    /\ match srv_migrations_insert_error host with
       | Some _ => srv_migrations w' = srv_migrations w
       | None =>
           srv_migrations w'
           = {| initialVersion := configVersion s; entryTargetVersion := targetVersion s;
                details := logs |} :: srv_migrations w
       end
    /\ head logs
       = Some (warn_level,
               MsgStatus false (configVersion s) (dbVersion s) (targetVersion s) (length plan))
    /\ List.last logs (warn_level, MsgNoChange) = (info_level, MsgCompleted (length plan)).
Proof.
  intros Hskip Hvalid Hhooks Hdry Hauto s rollback plan Hplan Hall Hnone Hmerge Hmeta Hbots.
  destruct (initialize_after_status host w Hskip Hvalid Hhooks Hplan)
    as (migrations & Hmap & Hrun).
  destruct (detected_returns host w Hvalid Hhooks)
    as (w1 & _ & _ & _ & (Hqc & Hqd & Hqm & _) & evs & Htrace & Hevs).
  fold s plan in Hmap, Hrun.
  set (w3 := emits (status host s migrations) (detected host w)) in *.
  destruct (executeMigrations_success host plan w3 Hall Hnone Hmerge)
    as (w4 & Hexec & Hthis4 & Hcfg4 & Hdb4 & Hmig4 & Htrace4 & Hcalls4).
  fold rollback in Htrace4, Hcalls4.
  cbn [w3 this emits botpress_config_version srv_metadata srv_migrations trace] in *.
  fold s in Hthis4, Hcfg4, Htrace4.
  set (logs := captured (trace (detected host w)) w4).
  destruct (persistMigrationStatus_returns host logs plan w4) as (w5 & Hpersist & Hdb5 & Hcfg5 & Hmig5 & _).
  { intros _. exact Hmeta. }
  { apply Hbots. }
  pose proof (persistMigrationStatus_calls host logs plan w4) as Hcalls5.
  rewrite Hpersist in Hcalls5. cbn [final] in Hcalls5.
  rewrite Hthis4 in Hdb5, Hmig5.
  exists w5, logs. split; [|split; [|split; [|split; [|split; [|split]]]]].
  - rewrite Hrun. unfold after_status. rewrite Hdry, Hauto. cbn [negb].
    erewrite bind_returned; [|reflexivity].
    erewrite bind_returned; [|exact Hexec].
    erewrite bind_returned; [|reflexivity].
    erewrite bind_returned; [|exact Hpersist].
    by destruct (bool_decide _).
  - rewrite Hcalls5, Hcalls4, !calls_app, Htrace, calls_app, calls_status.
    rewrite (calls_reads evs) by exact Hevs. by rewrite !app_nil_r.
  - rewrite Hcfg5, Hcfg4, Hqc. done.
  - rewrite Hdb5, Hdb4, Hqd. done.
  - destruct (srv_migrations_insert_error host).
    + destruct Hmig5 as [Hmig5 _]. congruence.
    + rewrite Hmig5, Hmig4, Hqm. done.
  - unfold logs. erewrite captured_app; [|rewrite Htrace4, <- app_assoc; reflexivity].
    unfold status. cbn. rewrite Hdry.
    by rewrite <- (length_mapM _ _ _ Hmap).
  - unfold logs. erewrite captured_app; [|rewrite Htrace4, <- app_assoc; reflexivity].
    generalize (status host s migrations) (cache_events host w3)
      (loop_events host rollback (loadedMigrations s) plan). intros st ce le.
    assert (Heq : st ++ EvLog info_level (MsgExecuting (length plan))
                        :: ce ++ le ++ [EvLog info_level (MsgCompleted (length plan))]
                  = (st ++ EvLog info_level (MsgExecuting (length plan)) :: ce ++ le)
                    ++ [EvLog info_level (MsgCompleted (length plan))])
      by (rewrite <- app_assoc; cbn [app]; by rewrite <- !app_assoc).
    rewrite Heq, omap_app. apply last_last.
Qed.

End Success.

(** X15. A start that has something to do, is allowed to migrate, and whose
    units all go through without a failure, the stores being writable and
    the migrations of the bots resolving: every unit not ignored is called
    once, in the order of the plan; the configuration is at the target;
    [srv_metadata] gets a row for the target unless the database version
    was there already; [srv_migrations] gets one entry, from the
    configuration version to the target, whose details run from the status
    to the completion line; and the process exits with code 0 exactly when
    a migration command was given. *)
Theorem successful_start_records_the_run (host : Host) (w : World) :
  yn (SKIP_MIGRATIONS (process host)) = false ->
  invalid_target host = false -> hooks_ok host (catalog host) ->
  MIGRATE_DRYRUN (process host) = false -> AUTO_MIGRATE (process host) = true ->
  let s := this (detected host w) in
  let rollback := is_down (MIGRATE_CMD (process host)) in
  let plan := getMigrationsToExecute s (MIGRATE_CMD (process host)) (catalog host) in
  plan <> [] \/ MIGRATE_CMD (process host) <> None ->
  Forall (goes_through host rollback (loadedMigrations s)) plan ->
  existsb (reports_failure host rollback (loadedMigrations s)) plan = false ->
  mergeBotpressConfig_error host = None ->
  srv_migrations_insert_error host = None ->
  srv_metadata_insert_error host = None ->
  (forall entry files, coreMigrationCompleted host entry files = Resolved tt) ->
  exists w' logs,
    initialize host w
    = (if bool_decide (MIGRATE_CMD (process host) = None) then Returned tt w' else Exited 0 w')
    /\ calls (trace w') = calls (trace w) ++ called host rollback plan
    /\ botpress_config_version w'
       = match targetVersion s with JUndefined => botpress_config_version w | v => v end
    /\ srv_metadata w'
       = (if Js.strict_ne (dbVersion s) (targetVersion s)
          then targetVersion s :: srv_metadata w else srv_metadata w)
    /\ srv_migrations w'
       = {| initialVersion := configVersion s; entryTargetVersion := targetVersion s;
            details := logs |} :: srv_migrations w
    /\ head logs
       = Some (warn_level,
               MsgStatus false (configVersion s) (dbVersion s) (targetVersion s) (length plan))
    /\ List.last logs (warn_level, MsgNoChange) = (info_level, MsgCompleted (length plan)).
Proof.
  intros Hskip Hvalid Hhooks Hdry Hauto s rollback plan Hplan Hall Hnone Hmerge Hlog Hmeta Hbots.
  destruct (initialize_success host w Hskip Hvalid Hhooks Hdry Hauto Hplan Hall Hnone Hmerge
              Hmeta Hbots)
    as (w' & logs & Hrun & Hcalls & Hcfg & Hdb & Hmig & Hhead & Hlast).
  rewrite Hlog in Hmig.
  exists w', logs. by repeat split.
Qed.

Lemma successful_start_records_the_run_witness :
  let host := Fixture.machine Fixture.plain [Example.a; Example.b; Example.c]
                Example.modules None in
  let w := Fixture.boot host "1.0.0" ["1.0.0"] in
  exists w' logs,
    initialize host w = Returned tt w'
    /\ calls (trace w') = [EvUp (filename Example.b); EvUp (filename Example.a)]
    /\ botpress_config_version w' = JStr "1.2.0"
    /\ srv_metadata w' = [JStr "1.2.0"; JStr "1.0.0"]
    /\ srv_migrations w'
       = [{| initialVersion := JStr "1.0.0"; entryTargetVersion := JStr "1.2.0";
             details := logs |}].
Proof.
  cbn zeta.
  destruct (successful_start_records_the_run
              (Fixture.machine Fixture.plain [Example.a; Example.b; Example.c]
                 Example.modules None)
              (Fixture.boot
                 (Fixture.machine Fixture.plain [Example.a; Example.b; Example.c]
                    Example.modules None)
                 "1.0.0" ["1.0.0"]))
    as (w' & logs & Hrun & Hcalls & Hcfg & Hdb & Hmig & _).
  - reflexivity.
  - reflexivity.
  - intros Hon. discriminate Hon.
  - reflexivity.
  - reflexivity.
  - left. vm_compute. discriminate.
  - vm_compute. repeat constructor; eauto.
  - vm_compute. reflexivity.
  - reflexivity.
  - reflexivity.
  - reflexivity.
  - intros entry files. reflexivity.
  - exists w', logs. split; [exact Hrun|].
    split; [rewrite Hcalls; vm_compute; reflexivity|].
    split; [rewrite Hcfg; vm_compute; reflexivity|].
    split; [rewrite Hdb; vm_compute; reflexivity|].
    rewrite Hmig. vm_compute. reflexivity.
Defined.

Lemma parse_defined (v : jsval) (t : Semver.t) :
  Semver.parse (Js.interpolate v) = Some t -> v <> JUndefined /\ Js.truthy v = true.
Proof.
  destruct v as [| |s].
  - vm_compute. discriminate.
  - vm_compute. discriminate.
  - intros Hs. split; [done|]. destruct s; [vm_compute in Hs; discriminate|done].
Qed.

(** X16. What a successful start writes is what the next start reads: with
    no migration command, no testing hook and a target that is a version,
    a start that migrated and succeeded leaves stores from which a new
    start, of a service with the same target, finds nothing to do; it
    returns having only read the directories, without a line logged, a
    handler called or a store written. *)
Theorem second_start_does_nothing (host : Host) (w : World) (t : Semver.t) :
  yn (SKIP_MIGRATIONS (process host)) = false ->
  invalid_target host = false ->
  Js.truthy (Js.of_option (TESTMIG_ALL (process host)))
  || Js.truthy (Js.of_option (TESTMIG_NEW (process host))) = false ->
  TESTMIG_CONFIG_VERSION (process host) = None ->
  TESTMIG_DB_VERSION (process host) = None ->
  MIGRATE_CMD (process host) = None ->
  MIGRATE_DRYRUN (process host) = false -> AUTO_MIGRATE (process host) = true ->
  Semver.parse (Js.interpolate (targetVersion (this w))) = Some t ->
  let s := this (detected host w) in
  let plan := getMigrationsToExecute s None (catalog host) in
  plan <> [] ->
  Forall (goes_through host false (loadedMigrations s)) plan ->
  existsb (reports_failure host false (loadedMigrations s)) plan = false ->
  mergeBotpressConfig_error host = None ->
  srv_metadata_insert_error host = None ->
  (forall entry files, coreMigrationCompleted host entry files = Resolved tt) ->
  exists w',
    initialize host w = Returned tt w'
    /\ forall w2,
         targetVersion (this w2) = targetVersion (this w) ->
         botpress_config_version w2 = botpress_config_version w' ->
         srv_metadata w2 = srv_metadata w' ->
         exists w3 evs,
           initialize host w2 = Returned tt w3
           /\ quiet_step w2 w3
           /\ trace w3 = trace w2 ++ evs
           /\ Forall (fun e => reads e = true) evs.
Proof.
  intros Hskip Hvalid Hoff Hcfgenv Hdbenv Hcmd Hdry Hauto Ht s plan Hplan Hall Hnone
    Hmerge Hmeta Hbots.
  destruct (detected_plain host w Hvalid Hoff) as (Hhooks & Htarget & Hcfg & Hdb).
  rewrite Hcfgenv in Hcfg. rewrite Hcfgenv, Hdbenv in Hdb.
  change (Js.or (Js.of_option None) ?x) with x in Hcfg, Hdb.
  fold s in Htarget, Hcfg, Hdb.
  destruct (parse_defined _ _ Ht) as [Hdef Htruthy].
  destruct (initialize_success host w Hskip Hvalid Hhooks Hdry Hauto) as
    (w' & logs & Hrun & _ & Hcfg' & Hdb' & _).
  { left. rewrite Hcmd. exact Hplan. }
  { rewrite Hcmd. exact Hall. }
  { rewrite Hcmd. exact Hnone. }
  { exact Hmerge. }
  { exact Hmeta. }
  { exact Hbots. }
  fold s in Hcfg', Hdb'. rewrite Htarget in Hcfg', Hdb'.
  rewrite Hcmd, bool_decide_eq_true_2 in Hrun by done.
  assert (Hcfg'' : botpress_config_version w' = targetVersion (this w)).
  { rewrite Hcfg'. by destruct (targetVersion (this w)). }
  exists w'. split; [exact Hrun|].
  intros w2 Ht2 Hc2 Hd2.
  destruct (detected_plain host w2 Hvalid Hoff) as (_ & Htarget2 & Hcfg2 & Hdb2).
  rewrite Hcfgenv in Hcfg2. rewrite Hcfgenv, Hdbenv in Hdb2.
  change (Js.or (Js.of_option None) ?x) with x in Hcfg2, Hdb2.
  rewrite Hc2, Hcfg'' in Hcfg2. rewrite Hc2, Hcfg'', Hd2 in Hdb2.
  rewrite Ht2 in Htarget2.
  assert (Hdb2' : dbVersion (this (detected host w2)) = targetVersion (this w)).
  { rewrite Hdb2, Hdb'. unfold Js.strict_ne.
    case_bool_decide as Hsame; cbn [negb].
    - rewrite Hdb in Hsame. unfold Js.or in Hsame |- *.
      destruct (srv_metadata w) as [|row rows]; [done|].
      destruct (Js.truthy row); [exact Hsame|done].
    - unfold Js.or. by rewrite Htruthy. }
  destruct (detected_returns host w2 Hvalid Hhooks)
    as (w1 & _ & _ & _ & Hquiet & evs & Htrace & Hevs).
  exists (detected host w2), evs.
  split; [|split; [exact Hquiet|]; split; [exact Htrace|exact Hevs]].
  apply initialize_nothing_to_do; try done.
  apply (plan_empty_not_behind _ _ t t t);
    rewrite ?Htarget2, ?Hcfg2, ?Hdb2'; try exact Ht; apply lte_refl.
Qed.

Lemma second_start_does_nothing_witness :
  let host := Fixture.machine Fixture.plain [Example.a; Example.b; Example.c]
                Example.modules None in
  exists w' w'',
    initialize host (Fixture.boot host "1.0.0" ["1.0.0"]) = Returned tt w'
    /\ initialize host (Fixture.boot host "1.2.0" ["1.2.0"; "1.0.0"]) = Returned tt w''
    /\ calls (trace w'') = [].
Proof.
  cbn zeta.
  destruct (second_start_does_nothing
              (Fixture.machine Fixture.plain [Example.a; Example.b; Example.c]
                 Example.modules None)
              (Fixture.boot
                 (Fixture.machine Fixture.plain [Example.a; Example.b; Example.c]
                    Example.modules None)
                 "1.0.0" ["1.0.0"])
              (Semver.mk 1 2 0 []))
    as (w' & Hrun & Hnext).
  - reflexivity.
  - reflexivity.
  - reflexivity.
  - reflexivity.
  - reflexivity.
  - reflexivity.
  - reflexivity.
  - reflexivity.
  - reflexivity.
  - vm_compute. discriminate.
  - vm_compute. repeat constructor; eauto.
  - vm_compute. reflexivity.
  - reflexivity.
  - reflexivity.
  - intros entry files. reflexivity.
  - destruct (Hnext (Fixture.boot
                       (Fixture.machine Fixture.plain [Example.a; Example.b; Example.c]
                          Example.modules None)
                       "1.2.0" ["1.2.0"; "1.0.0"]))
      as (w'' & evs & Hrun2 & _ & Htrace & Hevs).
    + reflexivity.
    + vm_compute in Hrun. injection Hrun as <-. reflexivity.
    + vm_compute in Hrun. injection Hrun as <-. reflexivity.
    + exists w', w''. split; [exact Hrun|]. split; [exact Hrun2|].
      rewrite Htrace. cbn [trace Fixture.boot app]. by apply calls_reads.
Defined.

(** ** Failures under failsafe *)

(** X17. Under failsafe a failure does not keep the run from being
    recorded as done: when all the units go through and one of them
    reports a failure, [executeMigrations] logs that some steps failed and
    goes on to write the target version to the configuration and to log
    the completion, which is the last line. *)
Theorem failsafe_failure_still_completes (host : Host) (plan : list MigrationFile) (w : World) :
  let rollback := is_down (MIGRATE_CMD (process host)) in
  let loaded := loadedMigrations (this w) in
  Forall (goes_through host rollback loaded) plan ->
  existsb (reports_failure host rollback loaded) plan = true ->
  IS_FAILSAFE (process host) = true ->
  mergeBotpressConfig_error host = None ->
  exists w',
    executeMigrations host plan w = Returned tt w'
    /\ botpress_config_version w'
       = match targetVersion (this w) with
         | JUndefined => botpress_config_version w
         | v => v
         end
    /\ In (EvLog error_level MsgSomeStepsFailed) (trace w')
    /\ List.last (trace w') (EvLog error_level MsgSomeStepsFailed)
       = EvLog info_level (MsgCompleted (length plan)).
Proof.
  intros rollback loaded Hall Hsome Hfs Hmerge.
  destruct (prologue_frame host (length plan) w) as (Hthis & Hcfg & _).
  rewrite (executeMigrations_goes_through host plan w Hall).
  fold rollback loaded. rewrite Hsome, Hfs.
  destruct (finish_completed host (length plan)
              (emits [EvLog error_level MsgSomeStepsFailed]
                 (emits (loop_events host rollback loaded plan)
                    (prologue host (length plan) w))) Hmerge)
    as (w' & Hrun & _ & Hcfg' & _ & _ & Htrace).
  cbn [this emits botpress_config_version trace] in *.
  exists w'. split; [exact Hrun|]. split; [by rewrite Hcfg', Hthis, Hcfg|]. split.
  - rewrite Htrace. apply in_or_app. left. apply in_or_app. right. by left.
  - rewrite Htrace. apply last_last.
Qed.

Lemma failsafe_failure_still_completes_witness :
  let host := Fixture.machine (Variant.manual true) [Example.c; Example.b; Example.a]
                Fixture.failing None in
  let w := Fixture.world (Fixture.service Fixture.failing) in
  exists w',
    executeMigrations host [Example.b; Example.a] w = Returned tt w'
    /\ botpress_config_version w' = JStr "1.2.0"
    /\ In (EvLog error_level MsgSomeStepsFailed) (trace w').
Proof.
  cbn zeta.
  destruct (failsafe_failure_still_completes
              (Fixture.machine (Variant.manual true) [Example.c; Example.b; Example.a]
                 Fixture.failing None)
              [Example.b; Example.a] (Fixture.world (Fixture.service Fixture.failing)))
    as (w' & Hrun & Hcfg & Hin & _); try reflexivity.
  - repeat constructor; vm_compute; eauto.
  - exists w'. split; [exact Hrun|]. split; [exact Hcfg|exact Hin].
Defined.

(** ** The status *)

Section StatusFacts.

Context (host : Host).

Lemma count_by_type (migrations : list MigrationInfo) :
  (length (List.filter (fun x => bool_decide (type x = database)) migrations)
   + length (List.filter (fun x => bool_decide (type x = config)) migrations)
   + length (List.filter (fun x => bool_decide (type x = content)) migrations))%nat
  = length migrations.
Proof.
  induction migrations as [|x migrations IH]; [done|].
  cbn [List.filter].
  destruct (type x); repeat case_bool_decide; try done; cbn [length]; lia.
Qed.

Lemma listing_changes rollback migrations ty :
  length (List.filter is_change (listing rollback migrations ty))
  = length (List.filter (fun x => bool_decide (type x = ty)) migrations).
Proof.
  unfold listing. cbn [List.filter is_change].
  assert (Hmap : forall l : list MigrationInfo,
            length (List.filter is_change
                      (map (fun x => EvLog warn_level (MsgChange rollback (description x))) l))
            = length l).
  { induction l as [|y l IH]; [done|]. cbn. by rewrite IH. }
  destruct (List.filter _ migrations) as [|x filtered]; [done|].
  apply Hmap.
Qed.

Lemma status_changes s migrations :
  length (List.filter is_change (status host s migrations)) = length migrations.
Proof.
  unfold status, types. cbn [List.filter is_change flat_map].
  rewrite app_nil_r, !List.filter_app, !length_app, !listing_changes.
  rewrite Nat.add_assoc. apply count_by_type.
Qed.

Lemma status_warnings s migrations :
  Forall (fun e => exists m, e = EvLog warn_level m) (status host s migrations).
Proof.
  unfold status. constructor; [by eexists|].
  apply Forall_flat_map, Forall_forall. intros ty _. unfold listing.
  constructor; [by eexists|].
  destruct (List.filter _ migrations) as [|x filtered]; [repeat constructor; by eexists|].
  apply Forall_forall. intros e He%list_elem_of_In.
  apply in_map_iff in He as (? & <- & _). by eexists.
Qed.

End StatusFacts.

(** X18. [displayMigrationStatus] needs the module of every planned file:
    when one is not loaded it throws before anything is logged.  When they
    are all loaded it returns, having logged warnings only, among them one
    change line for each planned file and no other. *)
Theorem status_one_line_per_file (host : Host) (plan : list MigrationFile) (w : World) :
  (Exists (fun file => loadedMigrations (this w) !! filename file = None) plan ->
   displayMigrationStatus host plan w = Thrown type_error w)
  /\ (Forall (fun file => is_Some (loadedMigrations (this w) !! filename file)) plan ->
      exists evs,
        displayMigrationStatus host plan w = Returned tt (emits evs w)
        /\ Forall (fun e => exists m, e = EvLog warn_level m) evs
        /\ length (List.filter is_change evs) = length plan).
Proof.
  split.
  - intros Hmissing. unfold displayMigrationStatus.
    erewrite bind_returned; [|reflexivity].
    assert (Hmap : mapM (fun x => info <$> loadedMigrations (this w) !! filename x) plan = None).
    { apply mapM_None. eapply Exists_impl; [exact Hmissing|].
      intros file Hfile. cbn. by rewrite Hfile. }
    by rewrite Hmap.
  - intros Hloaded.
    assert (Hmap : is_Some (mapM (fun x => info <$> loadedMigrations (this w) !! filename x) plan)).
    { apply mapM_is_Some. eapply Forall_impl; [exact Hloaded|].
      intros file [m Hm]. cbn. rewrite Hm. by eexists. }
    destruct Hmap as [migrations Hmap].
    exists (status host (this w) migrations). split; [|split].
    + by apply displayMigrationStatus_returns.
    + apply status_warnings.
    + rewrite status_changes. symmetry. by eapply length_mapM.
Qed.

(** ** [filterMigrations] as a filter *)

Lemma filter_sublist {A : Type} (f : A -> bool) (l : list A) : sublist (List.filter f l) l.
Proof.
  induction l as [|x l IH]; [constructor|]. cbn.
  destruct (f x); by constructor.
Qed.

Lemma filter_idemp {A : Type} (f : A -> bool) (l : list A) :
  List.filter f (List.filter f l) = List.filter f l.
Proof.
  induction l as [|x l IH]; [done|]. cbn.
  destruct (f x) eqn:Hx; cbn; rewrite ?Hx, IH; done.
Qed.

(** X19. [filterMigrations] is a filter of the files it is given: what it
    returns is a sub-list of them, in their order; filtering the result
    again with the same versions and options changes nothing; and a list
    made of two parts is filtered part by part. *)
Theorem filterMigrations_is_a_filter (this : MigrationService) (files more : list MigrationFile)
    (currentVersion : jsval) (opts : FilterOptions) :
  sublist (filterMigrations this files currentVersion opts) files
  /\ filterMigrations this (filterMigrations this files currentVersion opts) currentVersion opts
     = filterMigrations this files currentVersion opts
  /\ filterMigrations this (files ++ more) currentVersion opts
     = filterMigrations this files currentVersion opts
       ++ filterMigrations this more currentVersion opts.
Proof.
  destruct (decide (loadedMigrations this = ∅)) as [Hnone|Hsome].
  - rewrite !filterMigrations_not_loaded by done.
    split; [apply filter_sublist|]. split; [apply filter_idemp|apply List.filter_app].
  - rewrite !filterMigrations_loaded by done.
    split; [apply filter_sublist|]. split; [apply filter_idemp|apply List.filter_app].
Qed.

(** X20. With no module loaded [filterMigrations] does not look at the
    type, so the three selections of [getMigrationsToExecute] overlap: the
    plan holds every file in the range of the database version once and
    every file in the range of the configuration version twice, a file in
    both ranges three times. *)
Theorem plan_nothing_loaded_repeats (this : MigrationService) (cmd : option string)
    (all : list MigrationFile) :
  loadedMigrations this = ∅ ->
  Permutation (getMigrationsToExecute this cmd all)
    (List.filter (in_range this (is_down cmd) (dbVersion this)) all
     ++ List.filter (in_range this (is_down cmd) (configVersion this)) all
     ++ List.filter (in_range this (is_down cmd) (configVersion this)) all).
Proof.
  intros Hnone. unfold getMigrationsToExecute. rewrite sortBy_Permutation.
  by rewrite !filterMigrations_not_loaded.
Qed.

Lemma plan_nothing_loaded_repeats_witness :
  let this := {| targetVersion := JStr "1.2.0"; configVersion := JStr "1.0.0";
                 dbVersion := JStr "1.0.0"; loadedMigrations := ∅ |} in
  Permutation (getMigrationsToExecute this None [Example.a; Example.c])
    [Example.a; Example.a; Example.a].
Proof.
  cbn zeta.
  pose proof (plan_nothing_loaded_repeats
                {| targetVersion := JStr "1.2.0"; configVersion := JStr "1.0.0";
                   dbVersion := JStr "1.0.0"; loadedMigrations := ∅ |}
                None [Example.a; Example.c] eq_refl) as Hplan.
  vm_compute in Hplan. vm_compute. exact Hplan.
Defined.
